(** * PulseCal SecureBand AI services: scoring engines and model registry

    A shallow embedding of [packages/ai-services/app]: the versioned model
    registry ([config/model_config.py]) and the three inference services
    ([services/signal_quality_service.py],
    [services/anomaly_detection_service.py],
    [services/risk_scoring_service.py]).

    Numbers.  Python floats are idealised as exact numbers: rationals [Q]
    where the code only adds, multiplies, divides and compares (registry,
    anomaly detection, risk scoring), so that those engines can be run on
    concrete requests, and reals [R] where it needs a square root or a
    logarithm (signal quality).  Rounding, NaN and overflow are outside
    the model; division by zero is modelled where the code can reach it.

    Effects.  Exceptions are a [result]; the module globals (the registry,
    the lazily built service singletons, numpy's seed) and the system clock
    form a [World] that is threaded through a state-and-exception monad. *)

From Stdlib Require Import QArith Qabs ZArith List String Ascii Bool Arith Lia.
From Stdlib Require Import Reals Qreals Psatz.
Import ListNotations.


(** ** Python runtime: exceptions, effects, numbers, dicts *)

Inductive exn : Type :=
| ValueError (msg : string)
| KeyError (key : string)
| IndexError
| ZeroDivisionError.

Inductive result (A : Type) : Type :=
| Ok (a : A)
| Raise (e : exn).

Arguments Ok {A} a.
Arguments Raise {A} e.

Definition result_map {A B} (f : A -> B) (r : result A) : result B :=
  match r with
  | Ok a => Ok (f a)
  | Raise e => Raise e
  end.

Definition result_bind {A B} (r : result A) (k : A -> result B) : result B :=
  match r with
  | Ok a => k a
  | Raise e => Raise e
  end.

(** A computation over a mutable state [S] that may raise. *)
Definition M (S A : Type) : Type := S -> result A * S.

Definition ret {S A} (a : A) : M S A := fun s => (Ok a, s).

Definition raise {S A} (e : exn) : M S A := fun s => (Raise e, s).

Definition bind {S A B} (c : M S A) (k : A -> M S B) : M S B :=
  fun s =>
    match c s with
    | (Ok a, s') => k a s'
    | (Raise e, s') => (Raise e, s')
    end.

Definition get {S} : M S S := fun s => (Ok s, s).

Definition put {S} (s' : S) : M S unit := fun _ => (Ok tt, s').

Definition lift_result {S A} (r : result A) : M S A := fun s => (r, s).

Declare Scope py_scope.
Delimit Scope py_scope with py.
Notation "x <- c ;; k" := (bind c (fun x => k))
  (at level 61, c at next level, right associativity) : py_scope.
Notation "c ;;; k" := (bind c (fun _ => k))
  (at level 61, right associativity) : py_scope.

Open Scope Q_scope.
Open Scope string_scope.

(** Strict comparison of floats, as a boolean. *)
Definition Qltb (x y : Q) : bool := negb (Qle_bool y x).

(** Python's [min(a, b)] and [max(a, b)] on two floats: the first argument
    is kept unless the second is strictly smaller (resp. larger). *)
Definition py_min (a b : Q) : Q := if Qltb b a then b else a.
Definition py_max (a b : Q) : Q := if Qltb a b then b else a.

(** The idiom [max(0.0, min(1.0, x))]. *)
Definition clamp01 (x : Q) : Q := py_max 0 (py_min 1 x).

(** The range of a score or a confidence. *)
Definition unit_interval (x : Q) : Prop := 0 <= x <= 1.

(** A [dict] with string keys: the items in insertion order; a key occurs
    at most once in a dict built by the interpreter, and lookup takes the
    first occurrence. *)
Definition dict (V : Type) : Type := list (string * V).

Fixpoint dict_get {V} (k : string) (d : dict V) : option V :=
  match d with
  | [] => None
  | (k', v) :: d' => if String.eqb k k' then Some v else dict_get k d'
  end.

(** [k in d] *)
Definition dict_mem {V} (k : string) (d : dict V) : bool :=
  match dict_get k d with
  | Some _ => true
  | None => false
  end.

(** [d.get(k, default)] *)
Definition dict_get_default {V} (k : string) (default : V) (d : dict V) : V :=
  match dict_get k d with
  | Some v => v
  | None => default
  end.

(** [d[k]] *)
Definition dict_item {V} (k : string) (d : dict V) : result V :=
  match dict_get k d with
  | Some v => Ok v
  | None => Raise (KeyError k)
  end.

Definition dict_keys {V} (d : dict V) : list string := map fst d.

(** ** Strings *)

Definition is_upper (c : ascii) : bool :=
  let n := nat_of_ascii c in (65 <=? n)%nat && (n <=? 90)%nat.

Definition is_lower (c : ascii) : bool :=
  let n := nat_of_ascii c in (97 <=? n)%nat && (n <=? 122)%nat.

Definition to_lower (c : ascii) : ascii :=
  if is_upper c then ascii_of_nat (nat_of_ascii c + 32) else c.

Definition to_upper (c : ascii) : ascii :=
  if is_lower c then ascii_of_nat (nat_of_ascii c - 32) else c.

(** [s.lower()], on ASCII letters *)
Fixpoint lower (s : string) : string :=
  match s with
  | EmptyString => EmptyString
  | String c s' => String (to_lower c) (lower s')
  end.

(** [s.replace(a, b)] for single characters [a] and [b] *)
Fixpoint replace (a b : ascii) (s : string) : string :=
  match s with
  | EmptyString => EmptyString
  | String c s' => String (if Ascii.eqb c a then b else c) (replace a b s')
  end.

(** [s.title()], on ASCII letters: a letter that follows a letter is
    lowercased, any other letter is uppercased. *)
Fixpoint title_from (after_letter : bool) (s : string) : string :=
  match s with
  | EmptyString => EmptyString
  | String c s' =>
      let cased := is_upper c || is_lower c in
      String (if cased then (if after_letter then to_lower c else to_upper c) else c)
             (title_from cased s')
  end.

Definition title (s : string) : string := title_from false s.

(** [sub in s] *)
Fixpoint contains (sub s : string) : bool :=
  String.prefix sub s ||
  match s with
  | EmptyString => false
  | String _ s' => contains sub s'
  end.

(** An f-string before rendering: its literal parts and, for each
    replacement field of a float, the format spec and the value
    ([Fmt ".2f" x] for [{x:.2f}], [Fmt "" x] for [{x}]).  Rendering is
    Python's; two f-strings with the same parts render alike. *)
Inductive piece (num : Type) : Type :=
| Lit (s : string)
| Fmt (spec : string) (x : num).

Arguments Lit {num} s.
Arguments Fmt {num} spec x.

Definition fstring (num : Type) : Type := list (piece num).

(** ** numpy on arrays of floats *)

Definition Qsum (xs : list Q) : Q := fold_right Qplus 0 xs.

(** [np.mean(xs)].  Of an empty array numpy gives [nan]; here it is 0, as
    [x / 0] is 0 in [Q].  The engines over [Q] take the mean of non-empty
    arrays only. *)
Definition np_mean (xs : list Q) : Q := Qsum xs / inject_Z (Z.of_nat (List.length xs)).

(** [np.diff(xs)] *)
Fixpoint np_diff (xs : list Q) : list Q :=
  match xs with
  | x :: (y :: _) as xs' => (y - x) :: np_diff xs'
  | _ => []
  end.

(** numpy's square root is the one operation on floats that the rationals
    lack; the engines over [Q] take it as given. *)
Class Numpy : Type := { np_sqrt : Q -> Q }.

(** [np.std(xs)], the population standard deviation *)
Definition np_std {np : Numpy} (xs : list Q) : Q :=
  let m := np_mean xs in
  np_sqrt (np_mean (map (fun x => (x - m) * (x - m)) xs)).

(** ** Time *)

(** A [datetime], in microseconds since the epoch. *)
Definition datetime : Type := Z.

(** [timedelta(hours=h)] *)
Definition timedelta_hours (h : Z) : Z := (h * 3600000000)%Z.

(** ** Python lists and truth values *)

(** The truth value of an [Optional] list or dict: neither [None] nor
    empty. *)
Definition truthy {A} (x : option (list A)) : bool :=
  match x with
  | Some (_ :: _) => true
  | _ => false
  end.

(** [min(a, b)] on two ints *)
Definition py_min_int (a b : Z) : Z := if (b <? a)%Z then b else a.

(** [sorted(xs, key=key, reverse=True)]: descending by key, and stable,
    so items with equal keys keep their order. *)
Fixpoint insert_desc {A} (key : A -> Q) (x : A) (l : list A) : list A :=
  match l with
  | [] => [x]
  | y :: l' =>
      if Qle_bool (key y) (key x) then x :: y :: l'
      else y :: insert_desc key x l'
  end.

Definition sorted_desc {A} (key : A -> Q) (xs : list A) : list A :=
  fold_right (insert_desc key) [] xs.

Notation "x <~ c ;; k" := (result_bind c (fun x => k))
  (at level 61, c at next level, right associativity) : py_scope.

(** ** Loops that may raise, and numpy scalars *)

(** A [for] loop over [xs] whose body appends the items [f x] to one
    list, or raises. *)
Fixpoint for_each {A B} (f : A -> result (list B)) (xs : list A) : result (list B) :=
  match xs with
  | [] => Ok []
  | x :: xs' =>
      match f x with
      | Ok ys =>
          match for_each f xs' with
          | Ok rest => Ok (ys ++ rest)%list
          | Raise e => Raise e
          end
      | Raise e => Raise e
      end
  end.

(** [xs[i]] on a list *)
Definition list_item {A} (xs : list A) (i : nat) : result A :=
  match nth_error xs i with
  | Some x => Ok x
  | None => Raise IndexError
  end.

(** [a / b] on Python floats *)
Definition py_div (a b : Q) : result Q :=
  if Qeq_bool b 0 then Raise ZeroDivisionError else Ok (a / b).

(** The value of a numpy scalar expression: numpy divides by zero with a
    warning, giving [inf] or [nan], where Python raises. *)
Inductive npfloat : Type :=
| Finite (q : Q)
| PosInf
| NaN.

(** [x / d] for a numpy scalar [x >= 0] *)
Definition np_div (x d : Q) : npfloat :=
  if Qeq_bool d 0 then (if Qltb 0 x then PosInf else NaN)
  else Finite (x / d).

(** An increasing affine function of a numpy scalar ([x - 1], [x * 0.1],
    [0.75 + x]): [inf] stays [inf], [nan] stays [nan]. *)
Definition np_affine (f : Q -> Q) (x : npfloat) : npfloat :=
  match x with
  | Finite q => Finite (f q)
  | PosInf => PosInf
  | NaN => NaN
  end.

(** [min(a, x)]: [a] unless [x < a], which is false of [inf] and [nan]. *)
Definition py_min_np (a : Q) (x : npfloat) : Q :=
  match x with
  | Finite q => py_min a q
  | PosInf | NaN => a
  end.

(** The indices [0, 1, ..] of a list of booleans that hold [true]:
    [np.where(mask)[0]]. *)
Fixpoint np_where_from (i : nat) (mask : list bool) : list nat :=
  match mask with
  | [] => []
  | b :: mask' => if b then i :: np_where_from (S i) mask' else np_where_from (S i) mask'
  end.

Definition np_where (mask : list bool) : list nat := np_where_from 0 mask.

(** The windows of [m] consecutive items of [a], from left to right. *)
Fixpoint windows (m : nat) (a : list Q) : list (list Q) :=
  match a with
  | [] => []
  | _ :: a' => if (m <=? List.length a)%nat then firstn m a :: windows m a' else []
  end.

Fixpoint dot (xs ys : list Q) : Q :=
  match xs, ys with
  | x :: xs', y :: ys' => x * y + dot xs' ys'
  | _, _ => 0
  end.

(** [np.convolve(a, v, mode="valid")] for a non-empty kernel [v] no longer
    than [a] *)
Definition np_convolve_valid (a v : list Q) : list Q :=
  map (fun win => dot win (rev v)) (windows (List.length v) a).

(** [picked P is out]: going through the indices [is] from left to right,
    [out] holds one item for some of them, in the same order, and each
    item is related by [P] to its index. *)
Inductive picked {A} (P : nat -> A -> Prop) : list nat -> list A -> Prop :=
| picked_nil : picked P [] []
| picked_skip i js out : picked P js out -> picked P (i :: js) out
| picked_take i js a out : P i a -> picked P js out -> picked P (i :: js) (a :: out).

(** ** [app/config/model_config.py] *)

Module ModelConfigPy.

(** [class ModelVersion(str, Enum)] *)
Inductive ModelVersion : Type :=
| SIGNAL_QUALITY_V1
| ANOMALY_DETECTION_V1
| RISK_SCORING_V1.

(** [ModelVersion.value]; a [str] enum member hashes and compares as this
    string, so this is also its key in a dict. *)
Definition value (v : ModelVersion) : string :=
  match v with
  | SIGNAL_QUALITY_V1 => "signal-quality-v1.0.0"
  | ANOMALY_DETECTION_V1 => "anomaly-detection-v1.0.0"
  | RISK_SCORING_V1 => "risk-scoring-v1.0.0"
  end.

Record ModelMetadata : Type := {
  md_version : ModelVersion;
  name : string;
  description : string;
  created_at : string;
  deterministic : bool;
  inference_only : bool;
  parameters : dict Q
}.

Record AlertThresholds : Type := {
  HEART_RATE_NORMAL_MIN : Q;
  HEART_RATE_NORMAL_MAX : Q;
  HEART_RATE_WARNING_MIN : Q;
  HEART_RATE_WARNING_MAX : Q;
  HEART_RATE_CRITICAL_MIN : Q;
  HEART_RATE_CRITICAL_MAX : Q;
  TEMPERATURE_NORMAL_MIN : Q;
  TEMPERATURE_NORMAL_MAX : Q;
  TEMPERATURE_WARNING_MIN : Q;
  TEMPERATURE_WARNING_MAX : Q;
  TEMPERATURE_CRITICAL_MIN : Q;
  TEMPERATURE_CRITICAL_MAX : Q;
  OXYGEN_SATURATION_NORMAL_MIN : Q;
  OXYGEN_SATURATION_WARNING_MIN : Q;
  OXYGEN_SATURATION_CRITICAL_MIN : Q;
  BLOOD_PRESSURE_SYSTOLIC_NORMAL_MAX : Q;
  BLOOD_PRESSURE_SYSTOLIC_WARNING_MAX : Q;
  BLOOD_PRESSURE_SYSTOLIC_CRITICAL_MAX : Q;
  BLOOD_PRESSURE_SYSTOLIC_NORMAL_MIN : Q;
  BLOOD_PRESSURE_SYSTOLIC_WARNING_MIN : Q;
  BLOOD_PRESSURE_SYSTOLIC_CRITICAL_MIN : Q;
  BATTERY_WARNING : Q;
  BATTERY_CRITICAL : Q;
  SIGNAL_STRENGTH_WARNING : Q;
  SIGNAL_STRENGTH_CRITICAL : Q;
  Z_SCORE_THRESHOLD : Q;
  TREND_CHANGE_THRESHOLD : Q;
  RISK_SCORE_LOW : Q;
  RISK_SCORE_MODERATE : Q;
  RISK_SCORE_HIGH : Q;
  MIN_CONFIDENCE_FOR_ALERT : Q;
  HIGH_CONFIDENCE_THRESHOLD : Q;
  SIGNAL_QUALITY_GOOD : Q;
  SIGNAL_QUALITY_EXCELLENT : Q;
  SIGNAL_QUALITY_USABLE : Q
}.

(** [AlertThresholds()]: every field at its default. *)
Definition AlertThresholds_default : AlertThresholds := {|
  HEART_RATE_NORMAL_MIN := 60.0;
  HEART_RATE_NORMAL_MAX := 100.0;
  HEART_RATE_WARNING_MIN := 50.0;
  HEART_RATE_WARNING_MAX := 120.0;
  HEART_RATE_CRITICAL_MIN := 40.0;
  HEART_RATE_CRITICAL_MAX := 150.0;
  TEMPERATURE_NORMAL_MIN := 36.1;
  TEMPERATURE_NORMAL_MAX := 37.2;
  TEMPERATURE_WARNING_MIN := 35.5;
  TEMPERATURE_WARNING_MAX := 38.0;
  TEMPERATURE_CRITICAL_MIN := 34.0;
  TEMPERATURE_CRITICAL_MAX := 39.5;
  OXYGEN_SATURATION_NORMAL_MIN := 95.0;
  OXYGEN_SATURATION_WARNING_MIN := 93.0;
  OXYGEN_SATURATION_CRITICAL_MIN := 90.0;
  BLOOD_PRESSURE_SYSTOLIC_NORMAL_MAX := 140.0;
  BLOOD_PRESSURE_SYSTOLIC_WARNING_MAX := 160.0;
  BLOOD_PRESSURE_SYSTOLIC_CRITICAL_MAX := 180.0;
  BLOOD_PRESSURE_SYSTOLIC_NORMAL_MIN := 90.0;
  BLOOD_PRESSURE_SYSTOLIC_WARNING_MIN := 80.0;
  BLOOD_PRESSURE_SYSTOLIC_CRITICAL_MIN := 70.0;
  BATTERY_WARNING := 20.0;
  BATTERY_CRITICAL := 10.0;
  SIGNAL_STRENGTH_WARNING := -90.0;
  SIGNAL_STRENGTH_CRITICAL := -100.0;
  Z_SCORE_THRESHOLD := 3.0;
  TREND_CHANGE_THRESHOLD := 0.2;
  RISK_SCORE_LOW := 0.25;
  RISK_SCORE_MODERATE := 0.5;
  RISK_SCORE_HIGH := 0.75;
  MIN_CONFIDENCE_FOR_ALERT := 0.6;
  HIGH_CONFIDENCE_THRESHOLD := 0.8;
  SIGNAL_QUALITY_GOOD := 0.6;
  SIGNAL_QUALITY_EXCELLENT := 0.8;
  SIGNAL_QUALITY_USABLE := 0.5
|}.

Record ModelConfig : Type := {
  version : ModelVersion;
  metadata : ModelMetadata;
  thresholds : AlertThresholds;
  random_seed : Z
}.

(** The module global [MODEL_REGISTRY] is a dict from model version to
    configuration; [Registry] is the type of its possible contents. *)
Definition Registry : Type := dict ModelConfig.

(** The three entries that the module registers. *)
Definition SIGNAL_QUALITY_V1_config : ModelConfig := {|
  version := SIGNAL_QUALITY_V1;
  metadata := {|
    md_version := SIGNAL_QUALITY_V1;
    name := "Signal Quality Assessment Model";
    description := "Statistical signal quality assessment using SNR, RMS error, and motion artifact detection";
    created_at := "2026-01-15";
    deterministic := true;
    inference_only := true;
    parameters := [
      ("snr_weight", 0.3);
      ("rms_weight", 0.2);
      ("peak_confidence_weight", 0.2);
      ("baseline_drift_weight", 0.15);
      ("motion_artifact_weight", 0.15)
    ]
  |};
  thresholds := AlertThresholds_default;
  random_seed := 42
|}.

Definition ANOMALY_DETECTION_V1_config : ModelConfig := {|
  version := ANOMALY_DETECTION_V1;
  metadata := {|
    md_version := ANOMALY_DETECTION_V1;
    name := "Anomaly Detection Model";
    description := "Z-score based anomaly detection with trend analysis";
    created_at := "2026-01-15";
    deterministic := true;
    inference_only := true;
    parameters := [
      ("z_score_threshold", 3.0);
      ("trend_window_size", 3);
      ("trend_change_threshold", 0.2)
    ]
  |};
  thresholds := AlertThresholds_default;
  random_seed := 42
|}.

Definition RISK_SCORING_V1_config : ModelConfig := {|
  version := RISK_SCORING_V1;
  metadata := {|
    md_version := RISK_SCORING_V1;
    name := "Risk Scoring Model";
    description := "Weighted risk scoring based on vital metrics, anomalies, and trends";
    created_at := "2026-01-15";
    deterministic := true;
    inference_only := true;
    parameters := [
      ("heart_rate_weight", 0.4);
      ("temperature_weight", 0.3);
      ("oxygen_saturation_weight", 0.3);
      ("anomaly_weight", 0.3);
      ("signal_quality_weight", 0.1)
    ]
  |};
  thresholds := AlertThresholds_default;
  random_seed := 42
|}.

(** The contents of [MODEL_REGISTRY] once the module is loaded. *)
Definition MODEL_REGISTRY : Registry := [
  (value SIGNAL_QUALITY_V1, SIGNAL_QUALITY_V1_config);
  (value ANOMALY_DETECTION_V1, ANOMALY_DETECTION_V1_config);
  (value RISK_SCORING_V1, RISK_SCORING_V1_config)
].

Local Open Scope py_scope.

(** [get_model_config(version)]; the argument is the key looked up, a
    [ModelVersion] member or any other string. *)
Definition get_model_config (version : string) : M Registry ModelConfig :=
  registry <- get ;;
  if negb (dict_mem version registry)
  then raise (ValueError ("Model version " ++ version ++ " not found in registry"))
  else lift_result (dict_item version registry).

(** [get_latest_model_version(model_type)]; it does not read the registry. *)
Definition get_latest_model_version (model_type : string) : result ModelVersion :=
  if String.eqb model_type "signal_quality" then Ok SIGNAL_QUALITY_V1
  else if String.eqb model_type "anomaly_detection" then Ok ANOMALY_DETECTION_V1
  else if String.eqb model_type "risk_scoring" then Ok RISK_SCORING_V1
  else Raise (ValueError ("Unknown model type: " ++ model_type)).

(** [get_thresholds(version)] *)
Definition get_thresholds (version : string) : M Registry AlertThresholds :=
  config <- get_model_config version ;;
  ret (thresholds config).

End ModelConfigPy.
(** ** Process state *)

(** The attributes that each service's [__init__] sets. *)
Module SignalQualityService.
Record self : Type := {
  model_version : ModelConfigPy.ModelVersion;
  config : ModelConfigPy.ModelConfig;
  thresholds : ModelConfigPy.AlertThresholds;
  params : dict Q
}.
End SignalQualityService.

Module AnomalyDetectionService.
Record self : Type := {
  model_version : ModelConfigPy.ModelVersion;
  config : ModelConfigPy.ModelConfig;
  thresholds : ModelConfigPy.AlertThresholds
}.
End AnomalyDetectionService.

Module RiskScoringService.
Record self : Type := {
  model_version : ModelConfigPy.ModelVersion;
  config : ModelConfigPy.ModelConfig;
  thresholds : ModelConfigPy.AlertThresholds;
  params : dict Q
}.
End RiskScoringService.

(** What a request can read or write besides its own arguments: the module
    globals and the clock.  [clock n] is what the [n]-th call of
    [datetime.utcnow()] returns. *)
Record World : Type := {
  registry : ModelConfigPy.Registry;
  _signal_quality_service : option SignalQualityService.self;
  _anomaly_service : option AnomalyDetectionService.self;
  _risk_scoring_service : option RiskScoringService.self;
  np_random_seed : option Z;
  clock : nat -> datetime;
  clock_reads : nat
}.

(** [datetime.utcnow()] *)
Definition utcnow : M World datetime :=
  fun w =>
    (Ok (clock w (clock_reads w)),
     {| registry := registry w;
        _signal_quality_service := _signal_quality_service w;
        _anomaly_service := _anomaly_service w;
        _risk_scoring_service := _risk_scoring_service w;
        np_random_seed := np_random_seed w;
        clock := clock w;
        clock_reads := S (clock_reads w) |}).

(** [np.random.seed(seed)] *)
Definition np_random_seed_set (seed : Z) : M World unit :=
  fun w =>
    (Ok tt,
     {| registry := registry w;
        _signal_quality_service := _signal_quality_service w;
        _anomaly_service := _anomaly_service w;
        _risk_scoring_service := _risk_scoring_service w;
        np_random_seed := Some seed;
        clock := clock w;
        clock_reads := clock_reads w |}).

(** A computation on the registry, run on the registry of the world. *)
Definition on_registry {A} (c : M ModelConfigPy.Registry A) : M World A :=
  fun w =>
    let (r, reg) := c (registry w) in
    (r,
     {| registry := reg;
        _signal_quality_service := _signal_quality_service w;
        _anomaly_service := _anomaly_service w;
        _risk_scoring_service := _risk_scoring_service w;
        np_random_seed := np_random_seed w;
        clock := clock w;
        clock_reads := clock_reads w |}).

Definition set_signal_quality_service (s : SignalQualityService.self) : M World unit :=
  fun w =>
    (Ok tt,
     {| registry := registry w;
        _signal_quality_service := Some s;
        _anomaly_service := _anomaly_service w;
        _risk_scoring_service := _risk_scoring_service w;
        np_random_seed := np_random_seed w;
        clock := clock w;
        clock_reads := clock_reads w |}).

Definition set_anomaly_service (s : AnomalyDetectionService.self) : M World unit :=
  fun w =>
    (Ok tt,
     {| registry := registry w;
        _signal_quality_service := _signal_quality_service w;
        _anomaly_service := Some s;
        _risk_scoring_service := _risk_scoring_service w;
        np_random_seed := np_random_seed w;
        clock := clock w;
        clock_reads := clock_reads w |}).

Definition set_risk_scoring_service (s : RiskScoringService.self) : M World unit :=
  fun w =>
    (Ok tt,
     {| registry := registry w;
        _signal_quality_service := _signal_quality_service w;
        _anomaly_service := _anomaly_service w;
        _risk_scoring_service := Some s;
        np_random_seed := np_random_seed w;
        clock := clock w;
        clock_reads := clock_reads w |}).

(** The world when the process starts: the registry as the module defines
    it, no service built yet, at the start of a given clock. *)
Definition start_world (clock : nat -> datetime) : World :=
  {| registry := ModelConfigPy.MODEL_REGISTRY;
     _signal_quality_service := None;
     _anomaly_service := None;
     _risk_scoring_service := None;
     np_random_seed := None;
     clock := clock;
     clock_reads := 0 |}.

(** ** [app/schemas/risk_scoring.py] *)

Module RiskLevel.
Inductive t : Type := LOW | MODERATE | HIGH | CRITICAL.

Definition value (l : t) : string :=
  match l with
  | LOW => "low"
  | MODERATE => "moderate"
  | HIGH => "high"
  | CRITICAL => "critical"
  end.
End RiskLevel.

(** The [evidence] dict of a risk factor; each constructor is one of the
    key sets that the service builds. *)
Inductive Evidence : Type :=
| VitalEvidence (current_value : Q) (trend : option (list Q))
    (normal_range warning critical : fstring Q)
| OxygenEvidence (current_value : Q) (normal_min : Q) (warning critical : fstring Q)
| AnomalyEvidence (anomaly_type : string) (severity : string)
| QualityEvidence (quality_score : Q) (usable_threshold : Q)
| TrendEvidence (trend_direction : Q).

Module RiskFactors.
Record t : Type := {
  factor_name : string;
  factor_score : Q;
  weight : Q;
  description : fstring Q;
  evidence : option Evidence
}.
End RiskFactors.

Module RiskScoringRequest.
Record t : Type := {
  device_id : string;
  inmate_device_id : option string;
  vital_metrics : dict Q;
  historical_trends : option (dict (list Q));
  anomaly_flags : option (list string);
  signal_quality_score : option Q;
  time_window_hours : Z;
  metadata : option (dict string)
}.
End RiskScoringRequest.

Module RiskScoringResponse.
Record t : Type := {
  device_id : string;
  overall_risk_score : Q;
  risk_level : RiskLevel.t;
  risk_factors : list RiskFactors.t;
  primary_concerns : list (fstring Q);
  recommended_actions : list (fstring Q);
  confidence : Q;
  assessed_at : datetime;
  valid_until : datetime;
  model_version : option string
}.
End RiskScoringResponse.

(** ** [app/services/risk_scoring_service.py] *)

Module risk_scoring_service.

Import ModelConfigPy.
Import RiskScoringService.
Local Open Scope py_scope.

(** [RiskScoringService.__init__] *)
Definition __init__ : M World self :=
  model_version <- lift_result (get_latest_model_version "risk_scoring") ;;
  config <- on_registry (get_model_config (value model_version)) ;;
  np_random_seed_set (random_seed config) ;;;
  ret {| model_version := model_version;
         config := config;
         thresholds := ModelConfigPy.thresholds config;
         params := parameters (metadata config) |}.

(** [trend and len(trend) >= 3] *)
Definition has_trend (trend : option (list Q)) : bool :=
  match trend with
  | Some t => truthy trend && (3 <=? List.length t)%nat
  | None => false
  end.

Definition _score_heart_rate (self : self) (value : Q) (trend : option (list Q)) : Q :=
  let normal_min := HEART_RATE_NORMAL_MIN (thresholds self) in
  let normal_max := HEART_RATE_NORMAL_MAX (thresholds self) in
  let warning_min := HEART_RATE_WARNING_MIN (thresholds self) in
  let warning_max := HEART_RATE_WARNING_MAX (thresholds self) in
  let critical_min := HEART_RATE_CRITICAL_MIN (thresholds self) in
  let critical_max := HEART_RATE_CRITICAL_MAX (thresholds self) in
  let base_score :=
    if Qltb value critical_min || Qltb critical_max value then 0.8
    else if Qltb value warning_min || Qltb warning_max value then 0.5
    else if Qltb value normal_min || Qltb normal_max value then 0.3
    else 0.1 in
  let base_score :=
    match trend with
    | Some trend_array =>
        if has_trend trend then
          if (0 <? List.length trend_array)%nat then
            let trend_direction := np_mean (np_diff trend_array) in
            if Qltb 5 trend_direction then py_min 1.0 (base_score + 0.2)
            else if Qltb trend_direction (-5) then py_min 1.0 (base_score + 0.15)
            else base_score
          else base_score
        else base_score
    | None => base_score
    end in
  py_max 0.0 (py_min 1.0 base_score).

Definition _score_temperature (self : self) (value : Q) (trend : option (list Q)) : Q :=
  let normal_min := TEMPERATURE_NORMAL_MIN (thresholds self) in
  let normal_max := TEMPERATURE_NORMAL_MAX (thresholds self) in
  let warning_min := TEMPERATURE_WARNING_MIN (thresholds self) in
  let warning_max := TEMPERATURE_WARNING_MAX (thresholds self) in
  let critical_min := TEMPERATURE_CRITICAL_MIN (thresholds self) in
  let critical_max := TEMPERATURE_CRITICAL_MAX (thresholds self) in
  let base_score :=
    if Qltb value critical_min || Qltb critical_max value then 0.8
    else if Qltb value warning_min || Qltb warning_max value then 0.5
    else if Qltb value normal_min || Qltb normal_max value then 0.3
    else 0.1 in
  let base_score :=
    match trend with
    | Some trend_array =>
        if has_trend trend then
          if (0 <? List.length trend_array)%nat then
            let trend_direction := np_mean (np_diff trend_array) in
            if Qltb 0.2 trend_direction then py_min 1.0 (base_score + 0.2)
            else base_score
          else base_score
        else base_score
    | None => base_score
    end in
  py_max 0.0 (py_min 1.0 base_score).

Definition _score_oxygen_saturation (self : self) (value : Q) : Q :=
  let normal_min := OXYGEN_SATURATION_NORMAL_MIN (thresholds self) in
  let warning_min := OXYGEN_SATURATION_WARNING_MIN (thresholds self) in
  let critical_min := OXYGEN_SATURATION_CRITICAL_MIN (thresholds self) in
  if Qltb value critical_min then 1.0
  else if Qltb value warning_min then 0.7
  else if Qltb value normal_min then 0.4
  else 0.1.

Definition risk_score_suffix (score : Q) : fstring Q :=
  [Lit " (risk score: "; Fmt ".2f" score; Lit ")"].

Definition _explain_heart_rate_risk (self : self) (value : Q)
    (trend : option (list Q)) (score : Q) : fstring Q :=
  let normal_min := HEART_RATE_NORMAL_MIN (thresholds self) in
  let normal_max := HEART_RATE_NORMAL_MAX (thresholds self) in
  let within := [Lit "Heart rate within normal range: "; Fmt ".0f" value; Lit " bpm"] in
  let explanation :=
    if Qltb value normal_min then
      [Lit "Bradycardia: "; Fmt ".0f" value; Lit " bpm (below normal range ";
       Fmt "" normal_min; Lit "-"; Fmt "" normal_max; Lit " bpm)"]
    else if Qltb normal_max value then
      [Lit "Tachycardia: "; Fmt ".0f" value; Lit " bpm (above normal range ";
       Fmt "" normal_min; Lit "-"; Fmt "" normal_max; Lit " bpm)"]
    else
      match trend with
      | Some t =>
          if has_trend trend then
            let trend_direction := np_mean (np_diff t) in
            if Qltb 5 trend_direction then
              [Lit "Heart rate trending upward: "; Fmt ".0f" value;
               Lit " bpm (trend: +"; Fmt ".1f" trend_direction; Lit " bpm/min)"]
            else if Qltb trend_direction (-5) then
              [Lit "Heart rate trending downward: "; Fmt ".0f" value;
               Lit " bpm (trend: "; Fmt ".1f" trend_direction; Lit " bpm/min)"]
            else within
          else within
      | None => within
      end in
  (explanation ++ risk_score_suffix score)%list.

Definition _explain_temperature_risk (self : self) (value : Q)
    (trend : option (list Q)) (score : Q) : fstring Q :=
  let normal_min := TEMPERATURE_NORMAL_MIN (thresholds self) in
  let normal_max := TEMPERATURE_NORMAL_MAX (thresholds self) in
  let within := [Lit "Body temperature within normal range: "; Fmt ".2f" value; Lit "°C"] in
  let explanation :=
    if Qltb value normal_min then
      [Lit "Low body temperature: "; Fmt ".2f" value; Lit "°C (normal: ";
       Fmt "" normal_min; Lit "-"; Fmt "" normal_max; Lit "°C, possible hypothermia)"]
    else if Qltb normal_max value then
      [Lit "Elevated body temperature: "; Fmt ".2f" value; Lit "°C (normal: ";
       Fmt "" normal_min; Lit "-"; Fmt "" normal_max; Lit "°C, possible fever)"]
    else
      match trend with
      | Some t =>
          if has_trend trend then
            let trend_direction := np_mean (np_diff t) in
            if Qltb 0.2 trend_direction then
              [Lit "Temperature trending upward: "; Fmt ".2f" value;
               Lit "°C (trend: +"; Fmt ".2f" trend_direction; Lit "°C/min)"]
            else within
          else within
      | None => within
      end in
  (explanation ++ risk_score_suffix score)%list.

Definition _explain_oxygen_saturation_risk (self : self) (value score : Q) : fstring Q :=
  let normal_min := OXYGEN_SATURATION_NORMAL_MIN (thresholds self) in
  let warning_min := OXYGEN_SATURATION_WARNING_MIN (thresholds self) in
  let critical_min := OXYGEN_SATURATION_CRITICAL_MIN (thresholds self) in
  let explanation :=
    if Qltb value critical_min then
      [Lit "Critical oxygen saturation: "; Fmt "" value; Lit "% (normal: >";
       Fmt "" normal_min; Lit "%, critical threshold: <"; Fmt "" critical_min; Lit "%)"]
    else if Qltb value warning_min then
      [Lit "Low oxygen saturation: "; Fmt "" value; Lit "% (normal: >";
       Fmt "" normal_min; Lit "%, warning threshold: <"; Fmt "" warning_min; Lit "%)"]
    else if Qltb value normal_min then
      [Lit "Slightly low oxygen saturation: "; Fmt "" value; Lit "% (normal: >";
       Fmt "" normal_min; Lit "%)"]
    else
      [Lit "Oxygen saturation normal: "; Fmt "" value; Lit "%"] in
  (explanation ++ risk_score_suffix score)%list.

(** [historical_trends.get(key, []) if historical_trends else None] *)
Definition trend_of (historical_trends : option (dict (list Q))) (key : string)
    : option (list Q) :=
  match historical_trends with
  | Some ht => if truthy historical_trends then Some (dict_get_default key [] ht) else None
  | None => None
  end.

Definition _analyze_vital_metrics (self : self) (vital_metrics : dict Q)
    (historical_trends : option (dict (list Q))) : result (list RiskFactors.t) :=
  let risk_factors : list RiskFactors.t := [] in
  let th := thresholds self in
  (* Heart rate analysis *)
  risk_factors <~
    (if dict_mem "heart_rate" vital_metrics then
       hr_value <~ dict_item "heart_rate" vital_metrics ;;
       let hr_trend := trend_of historical_trends "heart_rate" in
       let hr_score := _score_heart_rate self hr_value hr_trend in
       hr_weight <~ dict_item "heart_rate_weight" (params self) ;;
       let explanation := _explain_heart_rate_risk self hr_value hr_trend hr_score in
       Ok (risk_factors ++ [
         {| RiskFactors.factor_name := "Heart Rate Assessment";
            RiskFactors.factor_score := hr_score;
            RiskFactors.weight := hr_weight;
            RiskFactors.description := explanation;
            RiskFactors.evidence := Some (VitalEvidence hr_value hr_trend
              [Fmt "" (HEART_RATE_NORMAL_MIN th); Lit "-";
               Fmt "" (HEART_RATE_NORMAL_MAX th); Lit " bpm"]
              [Fmt "" (HEART_RATE_WARNING_MIN th); Lit "-";
               Fmt "" (HEART_RATE_WARNING_MAX th)]
              [Lit "<"; Fmt "" (HEART_RATE_CRITICAL_MIN th); Lit " or >";
               Fmt "" (HEART_RATE_CRITICAL_MAX th)]) |}])%list
     else Ok risk_factors) ;;
  (* Temperature analysis *)
  risk_factors <~
    (if dict_mem "temperature" vital_metrics || dict_mem "temperature_celsius" vital_metrics then
       let temp_key :=
         if dict_mem "temperature" vital_metrics then "temperature" else "temperature_celsius" in
       temp_value <~ dict_item temp_key vital_metrics ;;
       let temp_trend := trend_of historical_trends temp_key in
       let temp_score := _score_temperature self temp_value temp_trend in
       temp_weight <~ dict_item "temperature_weight" (params self) ;;
       let explanation := _explain_temperature_risk self temp_value temp_trend temp_score in
       Ok (risk_factors ++ [
         {| RiskFactors.factor_name := "Temperature Assessment";
            RiskFactors.factor_score := temp_score;
            RiskFactors.weight := temp_weight;
            RiskFactors.description := explanation;
            RiskFactors.evidence := Some (VitalEvidence temp_value temp_trend
              [Fmt "" (TEMPERATURE_NORMAL_MIN th); Lit "-";
               Fmt "" (TEMPERATURE_NORMAL_MAX th); Lit "°C"]
              [Fmt "" (TEMPERATURE_WARNING_MIN th); Lit "-";
               Fmt "" (TEMPERATURE_WARNING_MAX th)]
              [Lit "<"; Fmt "" (TEMPERATURE_CRITICAL_MIN th); Lit " or >";
               Fmt "" (TEMPERATURE_CRITICAL_MAX th)]) |}])%list
     else Ok risk_factors) ;;
  (* Oxygen saturation analysis *)
  risk_factors <~
    (if dict_mem "oxygen_saturation" vital_metrics || dict_mem "spo2" vital_metrics then
       let o2_key :=
         if dict_mem "oxygen_saturation" vital_metrics then "oxygen_saturation" else "spo2" in
       o2_value <~ dict_item o2_key vital_metrics ;;
       let o2_score := _score_oxygen_saturation self o2_value in
       o2_weight <~ dict_item "oxygen_saturation_weight" (params self) ;;
       let explanation := _explain_oxygen_saturation_risk self o2_value o2_score in
       Ok (risk_factors ++ [
         {| RiskFactors.factor_name := "Oxygen Saturation Assessment";
            RiskFactors.factor_score := o2_score;
            RiskFactors.weight := o2_weight;
            RiskFactors.description := explanation;
            RiskFactors.evidence := Some (OxygenEvidence o2_value
              (OXYGEN_SATURATION_NORMAL_MIN th)
              [Lit "<"; Fmt "" (OXYGEN_SATURATION_WARNING_MIN th); Lit "%"]
              [Lit "<"; Fmt "" (OXYGEN_SATURATION_CRITICAL_MIN th); Lit "%"]) |}])%list
     else Ok risk_factors) ;;
  Ok risk_factors.

Definition critical_anomalies : list string :=
  ["heart_rate_abnormal"; "temperature_abnormal"; "device_tamper"].

(** [flag.replace('_', ' ').title()] *)
Definition pretty (s : string) : string := title (replace "_" " " s).

Definition _analyze_anomaly_flags (self : self) (anomaly_flags : list string)
    : list RiskFactors.t :=
  map (fun flag =>
         let is_critical := existsb (String.eqb flag) critical_anomalies in
         let score := if is_critical then 0.8 else 0.5 in
         let weight :=
           if is_critical then dict_get_default "anomaly_weight" 0.3 (params self)
           else 0.2 in
         let explanation :=
           [Lit ("Anomaly detected: " ++ pretty flag ++ " ("
                 ++ (if is_critical then "critical" else "moderate") ++ " severity)")] in
         {| RiskFactors.factor_name := "Anomaly: " ++ pretty flag;
            RiskFactors.factor_score := score;
            RiskFactors.weight := weight;
            RiskFactors.description := explanation;
            RiskFactors.evidence :=
              Some (AnomalyEvidence flag (if is_critical then "critical" else "moderate")) |})
      anomaly_flags.

Definition _analyze_signal_quality (self : self) (quality_score : Q) : RiskFactors.t :=
  let risk_score := 1.0 - quality_score in
  let weight := dict_get_default "signal_quality_weight" 0.1 (params self) in
  let explanation :=
    [Lit "Signal quality: "; Fmt ".2f" quality_score;
     Lit (" ("
          ++ (if Qle_bool (SIGNAL_QUALITY_EXCELLENT (thresholds self)) quality_score
              then "excellent"
              else if Qle_bool (SIGNAL_QUALITY_GOOD (thresholds self)) quality_score
              then "good"
              else if Qle_bool (SIGNAL_QUALITY_USABLE (thresholds self)) quality_score
              then "fair"
              else "poor")
          ++ ")")] in
  {| RiskFactors.factor_name := "Signal Quality";
     RiskFactors.factor_score := risk_score;
     RiskFactors.weight := weight;
     RiskFactors.description := explanation;
     RiskFactors.evidence :=
       Some (QualityEvidence quality_score (SIGNAL_QUALITY_USABLE (thresholds self))) |}.

Definition _analyze_trends (self : self) (historical_trends : dict (list Q))
    : list RiskFactors.t :=
  flat_map (fun item : string * list Q =>
              let (metric_name, values) := item in
              if (List.length values <? 3)%nat then []
              else
                let trend_direction := np_mean (np_diff values) in
                if Qltb 0.1 (Qabs trend_direction) then
                  let score := py_min 1.0 (Qabs trend_direction * 2) in
                  let explanation :=
                    [Lit (pretty metric_name ++ " showing "
                          ++ (if Qltb 0 trend_direction then "increasing" else "decreasing")
                          ++ " trend (rate: ");
                     Fmt ".2f" trend_direction; Lit " units/min)"] in
                  [{| RiskFactors.factor_name := "Trend Analysis: " ++ pretty metric_name;
                      RiskFactors.factor_score := score;
                      RiskFactors.weight := 0.15;
                      RiskFactors.description := explanation;
                      RiskFactors.evidence := Some (TrendEvidence trend_direction) |}]
                else [])
           historical_trends.

Definition _calculate_overall_risk_score (self : self) (risk_factors : list RiskFactors.t) : Q :=
  match risk_factors with
  | [] => 0.0
  | _ :: _ =>
      let total_weighted_score :=
        Qsum (map (fun factor => RiskFactors.factor_score factor * RiskFactors.weight factor)
                  risk_factors) in
      let total_weight := Qsum (map RiskFactors.weight risk_factors) in
      if Qltb 0 total_weight then
        py_max 0.0 (py_min 1.0 (total_weighted_score / total_weight))
      else 0.0
  end.

Definition _determine_risk_level (self : self) (risk_score : Q) : RiskLevel.t :=
  if Qle_bool (RISK_SCORE_HIGH (thresholds self)) risk_score then RiskLevel.CRITICAL
  else if Qle_bool (RISK_SCORE_MODERATE (thresholds self)) risk_score then RiskLevel.HIGH
  else if Qle_bool (RISK_SCORE_LOW (thresholds self)) risk_score then RiskLevel.MODERATE
  else RiskLevel.LOW.

Definition _generate_primary_concerns (self : self) (risk_factors : list RiskFactors.t)
    : list (fstring Q) :=
  let sorted_factors :=
    sorted_desc (fun f => RiskFactors.factor_score f * RiskFactors.weight f) risk_factors in
  let concerns :=
    map RiskFactors.description
        (filter (fun factor => Qltb 0.3 (RiskFactors.factor_score factor))
                (firstn 3 sorted_factors)) in
  match concerns with
  | [] => [[Lit "No significant concerns identified - all metrics within normal ranges"]]
  | _ :: _ => concerns
  end.

Definition _generate_recommended_actions (self : self) (risk_score : Q)
    (risk_level : RiskLevel.t) (risk_factors : list RiskFactors.t) : list (fstring Q) :=
  let actions : list (fstring Q) :=
    match risk_level with
    | RiskLevel.CRITICAL =>
        [[Lit "IMMEDIATE ACTION REQUIRED: Medical evaluation needed immediately"];
         [Lit "Continuous monitoring recommended until risk level decreases"]]
    | RiskLevel.HIGH =>
        [[Lit "Close monitoring recommended for next 2-4 hours"];
         [Lit "Consider medical consultation if risk factors persist"]]
    | RiskLevel.MODERATE =>
        [[Lit "Monitor closely for next 1-2 hours"];
         [Lit "Review device status and signal quality"]]
    | RiskLevel.LOW =>
        [[Lit "Continue routine monitoring - risk level is low"]]
    end in
  let high_risk_factors :=
    filter (fun f => Qltb 0.6 (RiskFactors.factor_score f)) risk_factors in
  (actions ++
   flat_map (fun factor =>
               if contains "heart" (lower (RiskFactors.factor_name factor)) then
                 [Lit "Monitor heart rate trends closely - " :: RiskFactors.description factor]
               else if contains "temperature" (lower (RiskFactors.factor_name factor)) then
                 [Lit "Monitor temperature trends closely - " :: RiskFactors.description factor]
               else [])
            (firstn 2 high_risk_factors))%list.

Definition _calculate_confidence (self : self) (risk_factors : list RiskFactors.t)
    (request : RiskScoringRequest.t) : Q :=
  let confidence := 0.5 in
  let confidence :=
    if truthy (RiskScoringRequest.historical_trends request)
    then confidence + 0.2 else confidence in
  let confidence :=
    match RiskScoringRequest.signal_quality_score request with
    | Some _ => confidence + 0.1
    | None => confidence
    end in
  let confidence :=
    if truthy (RiskScoringRequest.anomaly_flags request)
    then confidence + 0.1 else confidence in
  let confidence :=
    if (3 <=? List.length risk_factors)%nat then confidence + 0.1 else confidence in
  py_max 0.0 (py_min 1.0 confidence).

Definition calculate_risk (self : self) (request : RiskScoringRequest.t)
    : M World RiskScoringResponse.t :=
  let risk_factors : list RiskFactors.t := [] in
  (* Analyze vital metrics *)
  vital_risk_factors <-
    lift_result (_analyze_vital_metrics self
                   (RiskScoringRequest.vital_metrics request)
                   (RiskScoringRequest.historical_trends request)) ;;
  let risk_factors := (risk_factors ++ vital_risk_factors)%list in
  (* Analyze anomaly flags *)
  let risk_factors :=
    match RiskScoringRequest.anomaly_flags request with
    | Some flags =>
        if truthy (RiskScoringRequest.anomaly_flags request)
        then (risk_factors ++ _analyze_anomaly_flags self flags)%list
        else risk_factors
    | None => risk_factors
    end in
  (* Analyze signal quality *)
  let risk_factors :=
    match RiskScoringRequest.signal_quality_score request with
    | Some q => (risk_factors ++ [_analyze_signal_quality self q])%list
    | None => risk_factors
    end in
  (* Analyze trends *)
  let risk_factors :=
    match RiskScoringRequest.historical_trends request with
    | Some ht =>
        if truthy (RiskScoringRequest.historical_trends request)
        then (risk_factors ++ _analyze_trends self ht)%list
        else risk_factors
    | None => risk_factors
    end in
  let overall_risk_score := _calculate_overall_risk_score self risk_factors in
  let risk_level := _determine_risk_level self overall_risk_score in
  let primary_concerns := _generate_primary_concerns self risk_factors in
  let recommended_actions :=
    _generate_recommended_actions self overall_risk_score risk_level risk_factors in
  let confidence := _calculate_confidence self risk_factors request in
  (* Calculate validity period *)
  now <- utcnow ;;
  let valid_until :=
    (now + timedelta_hours (py_min_int (RiskScoringRequest.time_window_hours request) 1))%Z in
  assessed_at <- utcnow ;;
  ret {| RiskScoringResponse.device_id := RiskScoringRequest.device_id request;
         RiskScoringResponse.overall_risk_score := overall_risk_score;
         RiskScoringResponse.risk_level := risk_level;
         RiskScoringResponse.risk_factors := risk_factors;
         RiskScoringResponse.primary_concerns := primary_concerns;
         RiskScoringResponse.recommended_actions := recommended_actions;
         RiskScoringResponse.confidence := confidence;
         RiskScoringResponse.assessed_at := assessed_at;
         RiskScoringResponse.valid_until := valid_until;
         RiskScoringResponse.model_version := Some (value (model_version self)) |}.

(** [get_risk_scoring_service()]: the module-level singleton, built on
    first use. *)
Definition get_risk_scoring_service : M World self :=
  w <- get ;;
  match _risk_scoring_service w with
  | Some service => ret service
  | None =>
      service <- __init__ ;;
      set_risk_scoring_service service ;;;
      ret service
  end.

(** The body of the [/risk-scoring] endpoint, before the router turns an
    exception into an HTTP error. *)
Definition calculate_risk_score (request : RiskScoringRequest.t)
    : M World RiskScoringResponse.t :=
  service <- get_risk_scoring_service ;;
  calculate_risk service request.

End risk_scoring_service.

(** *** Vocabulary for the risk scoring properties *)

Module RiskScoringSpec.

Import ModelConfigPy.

(** The service object that [__init__] builds from the registry. *)
Definition registered_service : RiskScoringService.self :=
  {| RiskScoringService.model_version := RISK_SCORING_V1;
     RiskScoringService.config := RISK_SCORING_V1_config;
     RiskScoringService.thresholds := thresholds RISK_SCORING_V1_config;
     RiskScoringService.params := parameters (metadata RISK_SCORING_V1_config) |}.

(** What request validation guarantees of the fields the engine reads:
    a signal quality score, when given, lies in [0,1], and the time
    window is between 1 and 168 hours. *)
Definition valid_request (request : RiskScoringRequest.t) : Prop :=
  (forall q, RiskScoringRequest.signal_quality_score request = Some q -> 0 <= q <= 1) /\
  (1 <= RiskScoringRequest.time_window_hours request <= 168)%Z.

Definition scores_unit (fs : list RiskFactors.t) : Prop :=
  Forall (fun f => unit_interval (RiskFactors.factor_score f)) fs.

(** The scenario of the specification: three vitals, no trends, no flags,
    signal quality 0.85, a window of 24 hours. *)
Definition scenario_request : RiskScoringRequest.t := {|
  RiskScoringRequest.device_id := "dev-001";
  RiskScoringRequest.inmate_device_id := None;
  RiskScoringRequest.vital_metrics :=
    [("heart_rate", 95); ("temperature", 37.2); ("oxygen_saturation", 96)];
  RiskScoringRequest.historical_trends := None;
  RiskScoringRequest.anomaly_flags := None;
  RiskScoringRequest.signal_quality_score := Some 0.85;
  RiskScoringRequest.time_window_hours := 24;
  RiskScoringRequest.metadata := None
|}.

(** A clock that starts at [t0] and advances by one microsecond between
    two consecutive readings. *)
Definition ticking_clock (t0 : datetime) : nat -> datetime :=
  fun n => (t0 + Z.of_nat n)%Z.

End RiskScoringSpec.

(** ** [app/schemas/anomaly_detection.py] *)

Module AnomalyType.
Inductive t : Type :=
| HEART_RATE_ABNORMAL
| TEMPERATURE_ABNORMAL
| MOTION_ANOMALY
| SIGNAL_LOSS
| DEVICE_TAMPER
| PATTERN_DEVIATION
| UNKNOWN.

Definition value (a : t) : string :=
  match a with
  | HEART_RATE_ABNORMAL => "heart_rate_abnormal"
  | TEMPERATURE_ABNORMAL => "temperature_abnormal"
  | MOTION_ANOMALY => "motion_anomaly"
  | SIGNAL_LOSS => "signal_loss"
  | DEVICE_TAMPER => "device_tamper"
  | PATTERN_DEVIATION => "pattern_deviation"
  | UNKNOWN => "unknown"
  end.
End AnomalyType.

(** The [context] dict of an anomaly; each constructor is the key set that
    one of the three detectors builds. *)
Inductive Context : Type :=
| OutlierContext (baseline_mean baseline_std detected_value z_score z_score_threshold : Q)
    (model_version : string) (explanation : fstring Q)
| TrendContext (change_magnitude baseline_mean threshold : Q)
    (model_version : string) (explanation : fstring Q)
| CrossMetricContext (heart_rate_value temperature_value
                      heart_rate_threshold temperature_threshold : Q)
    (model_version : string) (explanation : fstring Q).

Module AnomalyResult.
Record t : Type := {
  anomaly_type : AnomalyType.t;
  severity : Q;
  confidence : Q;
  description : fstring Q;
  detected_at : datetime;
  affected_metrics : list string;
  context : option Context
}.
End AnomalyResult.

Module AnomalyDetectionRequest.
Record t : Type := {
  device_id : string;
  inmate_device_id : option string;
  time_series_data : dict (list Q);
  timestamps : list datetime;
  baseline_stats : option (dict (dict Q));
  metadata : option (dict string)
}.
End AnomalyDetectionRequest.

Module AnomalyDetectionResponse.
Record t : Type := {
  device_id : string;
  anomalies_detected : bool;
  anomaly_count : nat;
  anomalies : list AnomalyResult.t;
  overall_risk_score : Q;
  processed_at : datetime;
  model_version : option string
}.
End AnomalyDetectionResponse.

(** ** [app/services/anomaly_detection_service.py] *)

Module anomaly_detection_service.

Import ModelConfigPy.
Import AnomalyDetectionService.
Local Open Scope py_scope.

Section WithNumpy.

Context {np : Numpy}.

(** [AnomalyDetectionService.__init__] *)
Definition __init__ : M World self :=
  model_version <- lift_result (get_latest_model_version "anomaly_detection") ;;
  config <- on_registry (get_model_config (value model_version)) ;;
  np_random_seed_set (random_seed config) ;;;
  ret {| model_version := model_version;
         config := config;
         thresholds := ModelConfigPy.thresholds config |}.

Definition _determine_anomaly_type (self : self) (metric_name : string)
    (value baseline_mean : Q) : AnomalyType.t :=
  let metric_lower := lower metric_name in
  if contains "heart" metric_lower || contains "hr" metric_lower
  then AnomalyType.HEART_RATE_ABNORMAL
  else if contains "temp" metric_lower
  then AnomalyType.TEMPERATURE_ABNORMAL
  else if contains "motion" metric_lower || contains "imu" metric_lower
  then AnomalyType.MOTION_ANOMALY
  else AnomalyType.UNKNOWN.

Definition _generate_explanation (self : self) (metric_name : string)
    (value baseline_mean baseline_std z_score : Q) : fstring Q :=
  let deviation := value - baseline_mean in
  let deviation_pct :=
    if negb (Qeq_bool baseline_mean 0) then deviation / baseline_mean * 100 else 0 in
  let severity_desc :=
    if Qltb 50 (Qabs deviation_pct) then "significant"
    else if Qltb 25 (Qabs deviation_pct) then "moderate"
    else "slight" in
  let direction := if Qltb 0 deviation then "above" else "below" in
  [Lit (title (replace "_" " " metric_name) ++ " anomaly detected: value ");
   Fmt ".2f" value;
   Lit (" is " ++ severity_desc ++ "ly " ++ direction ++ " baseline (baseline: ");
   Fmt ".2f" baseline_mean; Lit "±"; Fmt ".2f" baseline_std;
   Lit ", Z-score: "; Fmt ".2f" z_score;
   Lit ", threshold: "; Fmt ".1f" (Z_SCORE_THRESHOLD (thresholds self)); Lit ")"].

(** The body of the loop over the steps of the rolling mean. *)
Definition trend_at (self : self) (metric_name : string) (timestamps : list datetime)
    (baseline_mean : Q) (window_size : nat) (rolling_mean : list Q) (i : nat)
    : result (list AnomalyResult.t) :=
  let trend_threshold := TREND_CHANGE_THRESHOLD (thresholds self) in
  let change := Qabs (nth i rolling_mean 0 - nth (i - 1) rolling_mean 0) in
  let threshold := Qabs baseline_mean * trend_threshold in
  if Qltb threshold change then
    let severity := py_min_np 1.0 (np_div change (Qabs baseline_mean * 0.5)) in
    let confidence :=
      py_min_np 1.0
        (np_affine (fun x => 0.75 + x)
           (np_affine (fun x => x * 0.1)
              (np_affine (fun x => x - 1) (np_div change threshold)))) in
    if Qltb confidence (MIN_CONFIDENCE_FOR_ALERT (thresholds self)) then Ok []
    else
      let explanation :=
        [Lit ("Sudden change in " ++ metric_name ++ ": "); Fmt ".2f" change;
         Lit " (threshold: "; Fmt ".2f" threshold;
         Lit ", baseline: "; Fmt ".2f" baseline_mean; Lit ")"] in
      detected_at <~ list_item timestamps (i + window_size - 1) ;;
      Ok [{| AnomalyResult.anomaly_type := AnomalyType.PATTERN_DEVIATION;
             AnomalyResult.severity := severity;
             AnomalyResult.confidence := confidence;
             AnomalyResult.description := explanation;
             AnomalyResult.detected_at := detected_at;
             AnomalyResult.affected_metrics := [metric_name];
             AnomalyResult.context :=
               Some (TrendContext change baseline_mean threshold
                       (value (model_version self)) explanation) |}]
  else Ok [].

Definition _detect_trend_anomalies (self : self) (metric_name : string)
    (values : list Q) (timestamps : list datetime) (baseline_mean : Q)
    : result (list AnomalyResult.t) :=
  if (List.length values <? 5)%nat then Ok []
  else
    let window_size := Nat.min 3 (List.length values / 2) in
    let rolling_mean :=
      np_convolve_valid values
        (map (fun one => one / inject_Z (Z.of_nat window_size)) (repeat 1 window_size)) in
    for_each (trend_at self metric_name timestamps baseline_mean window_size rolling_mean)
             (seq 1 (List.length rolling_mean - 1)).

(** The baseline of a metric: the supplied statistics, each defaulting to
    the statistic of the series, or the statistics of the series. *)
Definition baseline_of (metric_name : string) (values : list Q)
    (baseline_stats : option (dict (dict Q))) : Q * Q :=
  let from_series := (np_mean values, np_std values) in
  match baseline_stats with
  | Some stats =>
      if truthy baseline_stats then
        match dict_get metric_name stats with
        | Some entry =>
            (dict_get_default "mean" (np_mean values) entry,
             dict_get_default "std" (np_std values) entry)
        | None => from_series
        end
      else from_series
  | None => from_series
  end.

(** [np.abs((values - mean) / std) if std > 0 else np.zeros_like(values)] *)
Definition z_scores_of (values : list Q) (baseline_mean baseline_std : Q) : list Q :=
  if Qltb 0 baseline_std
  then map (fun v => Qabs ((v - baseline_mean) / baseline_std)) values
  else map (fun _ => 0) values.

(** [np.where(z_scores > z_score_threshold)[0]] *)
Definition outlier_indices_of (z_scores : list Q) (z_score_threshold : Q) : list nat :=
  np_where (map (fun z => Qltb z_score_threshold z) z_scores).

(** The body of the loop over the outlier indices. *)
Definition outlier_at (self : self) (metric_name : string) (values : list Q)
    (timestamps : list datetime) (baseline_mean baseline_std : Q)
    (z_scores : list Q) (idx : nat) : result (list AnomalyResult.t) :=
  let z_score_threshold := Z_SCORE_THRESHOLD (thresholds self) in
  let value := nth idx values 0 in
  let z_score := nth idx z_scores 0 in
  ratio <~ py_div z_score (z_score_threshold * 2) ;;
  let severity := py_min 1.0 ratio in
  let confidence := py_min 1.0 (0.7 + (z_score - z_score_threshold) * 0.1) in
  if Qltb confidence (MIN_CONFIDENCE_FOR_ALERT (thresholds self)) then Ok []
  else
    let anomaly_type := _determine_anomaly_type self metric_name value baseline_mean in
    let description :=
      _generate_explanation self metric_name value baseline_mean baseline_std z_score in
    detected_at <~ list_item timestamps idx ;;
    Ok [{| AnomalyResult.anomaly_type := anomaly_type;
           AnomalyResult.severity := severity;
           AnomalyResult.confidence := confidence;
           AnomalyResult.description := description;
           AnomalyResult.detected_at := detected_at;
           AnomalyResult.affected_metrics := [metric_name];
           AnomalyResult.context :=
             Some (OutlierContext baseline_mean baseline_std value z_score
                     z_score_threshold (ModelConfigPy.value (model_version self))
                     description) |}].

Definition _detect_metric_anomalies (self : self) (metric_name : string)
    (values : list Q) (timestamps : list datetime)
    (baseline_stats : option (dict (dict Q))) : result (list AnomalyResult.t) :=
  let anomalies : list AnomalyResult.t := [] in
  if (List.length values <? 3)%nat then Ok anomalies
  else
    let (baseline_mean, baseline_std) := baseline_of metric_name values baseline_stats in
    let z_score_threshold := Z_SCORE_THRESHOLD (thresholds self) in
    let z_scores := z_scores_of values baseline_mean baseline_std in
    let outlier_indices := outlier_indices_of z_scores z_score_threshold in
    outliers <~
      for_each (outlier_at self metric_name values timestamps
                  baseline_mean baseline_std z_scores)
               outlier_indices ;;
    let anomalies := (anomalies ++ outliers)%list in
    (* Detect trend anomalies (sudden changes) *)
    if (5 <=? List.length values)%nat then
      trend_anomalies <~
        _detect_trend_anomalies self metric_name values timestamps baseline_mean ;;
      Ok (anomalies ++ trend_anomalies)%list
    else Ok anomalies.

(** The body of the loop over the indices of the two series. *)
Definition cross_at (self : self) (timestamps : list datetime)
    (hr_values temp_values : list Q) (i : nat) : result (list AnomalyResult.t) :=
  let hr_mean := np_mean hr_values in
  let temp_mean := np_mean temp_values in
  let hr_threshold := hr_mean * 1.2 in
  let temp_threshold := temp_mean * 1.1 in
  let hr_spike := Qltb hr_threshold (nth i hr_values 0) in
  let temp_spike := Qltb temp_threshold (nth i temp_values 0) in
  if hr_spike && temp_spike then
    let confidence := 0.8 in
    let explanation :=
      [Lit "Simultaneous elevation detected: heart rate ";
       Fmt ".0f" (nth i hr_values 0); Lit " bpm (normal: ";
       Fmt ".0f" hr_mean; Lit "±"; Fmt ".0f" (np_std hr_values);
       Lit "), temperature "; Fmt ".2f" (nth i temp_values 0);
       Lit "°C (normal: "; Fmt ".2f" temp_mean; Lit "±";
       Fmt ".2f" (np_std temp_values); Lit ")"] in
    detected_at <~ list_item timestamps i ;;
    Ok [{| AnomalyResult.anomaly_type := AnomalyType.PATTERN_DEVIATION;
           AnomalyResult.severity := 0.7;
           AnomalyResult.confidence := confidence;
           AnomalyResult.description := explanation;
           AnomalyResult.detected_at := detected_at;
           AnomalyResult.affected_metrics := ["heart_rate"; "temperature"];
           AnomalyResult.context :=
             Some (CrossMetricContext (nth i hr_values 0) (nth i temp_values 0)
                     hr_threshold temp_threshold
                     (value (model_version self)) explanation) |}]
  else Ok [].

Definition _detect_cross_metric_anomalies (self : self)
    (time_series_data : dict (list Q)) (timestamps : list datetime)
    : result (list AnomalyResult.t) :=
  match dict_get "heart_rate" time_series_data,
        dict_get "temperature" time_series_data with
  | Some hr_values, Some temp_values =>
      if (List.length hr_values =? List.length temp_values)%nat
         && (0 <? List.length hr_values)%nat
      then for_each (cross_at self timestamps hr_values temp_values)
                    (seq 0 (List.length hr_values))
      else Ok []
  | _, _ => Ok []
  end.

Definition _calculate_overall_risk (self : self) (anomalies : list AnomalyResult.t) : Q :=
  match anomalies with
  | [] => 0.0
  | _ :: _ =>
      let total_weighted_severity :=
        Qsum (map (fun anomaly =>
                     AnomalyResult.severity anomaly * AnomalyResult.confidence anomaly)
                  anomalies) in
      let total_weight := Qsum (map AnomalyResult.confidence anomalies) in
      if Qltb 0 total_weight
      then py_min 1.0 (total_weighted_severity / total_weight)
      else 0.0
  end.

Definition detect_anomalies (self : self) (request : AnomalyDetectionRequest.t)
    : M World AnomalyDetectionResponse.t :=
  let anomalies : list AnomalyResult.t := [] in
  (* Detect anomalies for each metric *)
  metric_anomalies <-
    lift_result
      (for_each (fun item : string * list Q =>
                   let (metric_name, values) := item in
                   _detect_metric_anomalies self metric_name values
                     (AnomalyDetectionRequest.timestamps request)
                     (AnomalyDetectionRequest.baseline_stats request))
                (AnomalyDetectionRequest.time_series_data request)) ;;
  let anomalies := (anomalies ++ metric_anomalies)%list in
  (* Detect cross-metric anomalies *)
  cross_metric_anomalies <-
    lift_result
      (_detect_cross_metric_anomalies self
         (AnomalyDetectionRequest.time_series_data request)
         (AnomalyDetectionRequest.timestamps request)) ;;
  let anomalies := (anomalies ++ cross_metric_anomalies)%list in
  let overall_risk_score := _calculate_overall_risk self anomalies in
  processed_at <- utcnow ;;
  ret {| AnomalyDetectionResponse.device_id := AnomalyDetectionRequest.device_id request;
         AnomalyDetectionResponse.anomalies_detected := (0 <? List.length anomalies)%nat;
         AnomalyDetectionResponse.anomaly_count := List.length anomalies;
         AnomalyDetectionResponse.anomalies := anomalies;
         AnomalyDetectionResponse.overall_risk_score := overall_risk_score;
         AnomalyDetectionResponse.processed_at := processed_at;
         AnomalyDetectionResponse.model_version := Some (value (model_version self)) |}.

(** [get_anomaly_detection_service()]: the module-level singleton, built
    on first use. *)
Definition get_anomaly_detection_service : M World self :=
  w <- get ;;
  match _anomaly_service w with
  | Some service => ret service
  | None =>
      service <- __init__ ;;
      set_anomaly_service service ;;;
      ret service
  end.

(** The body of the [/anomaly-detection] endpoint, before the router turns
    an exception into an HTTP error. *)
Definition detect_anomalies_endpoint (request : AnomalyDetectionRequest.t)
    : M World AnomalyDetectionResponse.t :=
  service <- get_anomaly_detection_service ;;
  detect_anomalies service request.

End WithNumpy.

End anomaly_detection_service.

(** *** Vocabulary for the anomaly detection properties *)

Module AnomalyDetectionSpec.

Import ModelConfigPy.

(** The service object that [__init__] builds from the registry. *)
Definition registered_service : AnomalyDetectionService.self :=
  {| AnomalyDetectionService.model_version := ANOMALY_DETECTION_V1;
     AnomalyDetectionService.config := ANOMALY_DETECTION_V1_config;
     AnomalyDetectionService.thresholds := thresholds ANOMALY_DETECTION_V1_config |}.

(** Which of the three detectors built an anomaly, read off the keys of
    its context. *)
Inductive detector : Type := Outlier | Trend | CrossMetric.

Definition detector_of (a : AnomalyResult.t) : option detector :=
  match AnomalyResult.context a with
  | Some (OutlierContext _ _ _ _ _ _ _) => Some Outlier
  | Some (TrendContext _ _ _ _ _) => Some Trend
  | Some (CrossMetricContext _ _ _ _ _ _) => Some CrossMetric
  | None => None
  end.

Definition rank (a : AnomalyResult.t) : nat :=
  match detector_of a with
  | Some Outlier => 0
  | Some Trend => 1
  | _ => 2
  end.

(** The order that puts all statistical outliers first, then all trend
    anomalies, then the cross-metric anomalies: no anomaly is followed by
    one of an earlier group. *)
Fixpoint grouped_by_detector (l : list AnomalyResult.t) : bool :=
  match l with
  | [] => true
  | a :: l' => forallb (fun b => (rank a <=? rank b)%nat) l' && grouped_by_detector l'
  end.

(** The timestamps cover every series of the request. *)
Definition covers (request : AnomalyDetectionRequest.t) : Prop :=
  Forall (fun item : string * list Q =>
            (List.length (snd item)
             <= List.length (AnomalyDetectionRequest.timestamps request))%nat)
         (AnomalyDetectionRequest.time_series_data request).

(** The bounds that the schema puts on an [AnomalyResult]. *)
Definition within_schema (a : AnomalyResult.t) : Prop :=
  unit_interval (AnomalyResult.severity a) /\
  unit_interval (AnomalyResult.confidence a).

(** The mean of the severities, each weighted by its confidence. *)
Definition confidence_weighted_mean (l : list AnomalyResult.t) : Q :=
  Qsum (map (fun a => AnomalyResult.severity a * AnomalyResult.confidence a) l)
  / Qsum (map AnomalyResult.confidence l).

(** An anomaly built by the outlier detector for the point [idx] of a
    series of a metric: it names the metric, carries the value of the
    point and the timestamp at that index. *)
Definition outlier_of_point (metric_name : string) (values : list Q)
    (timestamps : list datetime) (idx : nat) (a : AnomalyResult.t) : Prop :=
  nth_error timestamps idx = Some (AnomalyResult.detected_at a) /\
  AnomalyResult.affected_metrics a = [metric_name] /\
  exists m s z thr v e,
    AnomalyResult.context a = Some (OutlierContext m s (nth idx values 0) z thr v e).

(** An anomaly built by the trend detector for the step from window
    [i - 1] to window [i] of a series of a metric. *)
Definition trend_of_step (metric_name : string) (timestamps : list datetime)
    (window_size i : nat) (a : AnomalyResult.t) : Prop :=
  nth_error timestamps (i + window_size - 1) = Some (AnomalyResult.detected_at a) /\
  AnomalyResult.affected_metrics a = [metric_name] /\
  detector_of a = Some Trend.

(** An anomaly built by the cross-metric detector for index [i]. *)
Definition cross_of_index (timestamps : list datetime) (i : nat)
    (a : AnomalyResult.t) : Prop :=
  nth_error timestamps i = Some (AnomalyResult.detected_at a) /\
  detector_of a = Some CrossMetric.

(** The anomalies of one metric: its outliers, by ascending index of the
    point, then its trend anomalies, by ascending step. *)
Definition metric_block (timestamps : list datetime) (item : string * list Q)
    (block : list AnomalyResult.t) : Prop :=
  let (metric_name, values) := item in
  let window_size := Nat.min 3 (List.length values / 2) in
  exists outliers trends,
    block = (outliers ++ trends)%list /\
    picked (outlier_of_point metric_name values timestamps)
           (seq 0 (List.length values)) outliers /\
    picked (trend_of_step metric_name timestamps window_size)
           (seq 1 (List.length values - window_size)) trends.

(** A square root to six decimals, rounded down, to run the engine. *)
Definition sqrt6 : Numpy :=
  {| np_sqrt := fun q =>
       (Z.sqrt (Qnum q * 1000000000000 / Z.pos (Qden q)) # 1000000) |}.

Definition seconds (n : Z) : datetime := (1705314600000000 + n * 1000000)%Z.

(** The scenario of the specification: one series with a spike at index 3
    and a supplied baseline. *)
Definition scenario_request : AnomalyDetectionRequest.t := {|
  AnomalyDetectionRequest.device_id := "dev-001";
  AnomalyDetectionRequest.inmate_device_id := None;
  AnomalyDetectionRequest.time_series_data :=
    [("heart_rate", [72; 73; 74; 150; 75; 76])];
  AnomalyDetectionRequest.timestamps :=
    [seconds 0; seconds 1; seconds 2; seconds 3; seconds 4; seconds 5];
  AnomalyDetectionRequest.baseline_stats :=
    Some [("heart_rate", [("mean", 72); ("std", 5)])];
  AnomalyDetectionRequest.metadata := None
|}.

(** Two series: the first has a spike, which is both an outlier and a
    sudden change; the second ends on an outlier. *)
Definition two_metric_request : AnomalyDetectionRequest.t := {|
  AnomalyDetectionRequest.device_id := "dev-001";
  AnomalyDetectionRequest.inmate_device_id := None;
  AnomalyDetectionRequest.time_series_data :=
    [("heart_rate", [72; 73; 74; 150; 75; 76]);
     ("temperature", [36.5; 36.6; 36.5; 36.4; 39.9])];
  AnomalyDetectionRequest.timestamps :=
    [seconds 0; seconds 1; seconds 2; seconds 3; seconds 4; seconds 5];
  AnomalyDetectionRequest.baseline_stats :=
    Some [("heart_rate", [("mean", 72); ("std", 5)]);
          ("temperature", [("mean", 36.5); ("std", 0.3)])];
  AnomalyDetectionRequest.metadata := None
|}.

End AnomalyDetectionSpec.

(** ** Floats as real numbers, for the signal quality engine *)

Module RealFloat.

Local Open Scope R_scope.

Definition Rltb (x y : R) : bool := if Rlt_dec x y then true else false.
Definition Rleb (x y : R) : bool := if Rle_dec x y then true else false.

(** Python's [min(a, b)] and [max(a, b)] *)
Definition py_min (a b : R) : R := if Rltb b a then b else a.
Definition py_max (a b : R) : R := if Rltb a b then b else a.

Definition Rsum (xs : list R) : R := fold_right Rplus 0 xs.

(** [np.mean(xs)].  Of an empty array numpy gives [nan], which fails
    every comparison; here it is 0, which fails the comparisons [0 < _]
    that the engine makes of it. *)
Definition np_mean (xs : list R) : R := Rsum xs / INR (List.length xs).

(** [np.var(xs)], the population variance *)
Definition np_var (xs : list R) : R :=
  let m := np_mean xs in
  np_mean (map (fun x => (x - m) * (x - m)) xs).

(** [np.std(xs)] *)
Definition np_std (xs : list R) : R := sqrt (np_var xs).

(** [np.diff(xs)] *)
Fixpoint np_diff (xs : list R) : list R :=
  match xs with
  | x :: (y :: _) as xs' => (y - x) :: np_diff xs'
  | _ => []
  end.

(** [np.log10(x)] *)
Definition np_log10 (x : R) : R := ln x / ln 10.

(** [np.arange(n)], as floats *)
Definition np_arange (n : nat) : list R := map INR (seq 0 n).

Fixpoint dot (xs ys : list R) : R :=
  match xs, ys with
  | x :: xs', y :: ys' => x * y + dot xs' ys'
  | _, _ => 0
  end.

(** [np.polyfit(x, y, 1)[0]]: the slope of the least-squares line through
    the points, in closed form. *)
Definition np_polyfit1_slope (x y : list R) : R :=
  let mx := np_mean x in
  let my := np_mean y in
  dot (map (fun xi => xi - mx) x) (map (fun yi => yi - my) y)
  / dot (map (fun xi => xi - mx) x) (map (fun xi => xi - mx) x).

End RealFloat.

(** ** [app/schemas/signal_quality.py] *)

Module SignalQualityMetrics.
Record t : Type := {
  snr : R;
  rms_error : R;
  peak_detection_confidence : R;
  baseline_drift : R;
  motion_artifact_score : R
}.
End SignalQualityMetrics.

Module SignalQualityRequest.
Record t : Type := {
  device_id : string;
  signal_data : list R;
  sampling_rate : R;
  signal_type : string;
  recorded_at : datetime;
  metadata : option (dict string)
}.
End SignalQualityRequest.

Module SignalQualityResponse.
Record t : Type := {
  device_id : string;
  quality_score : R;
  quality_grade : string;
  metrics : SignalQualityMetrics.t;
  is_usable : bool;
  recommendations : list (fstring R);
  processed_at : datetime;
  model_version : option string
}.
End SignalQualityResponse.

(** ** [app/services/signal_quality_service.py] *)

Module signal_quality_service.

Import ModelConfigPy.
Import SignalQualityService.
Import RealFloat.
Local Open Scope py_scope.
Local Open Scope R_scope.

(** [SignalQualityService.__init__] *)
Definition __init__ : M World self :=
  model_version <- lift_result (get_latest_model_version "signal_quality") ;;
  config <- on_registry (get_model_config (value model_version)) ;;
  np_random_seed_set (random_seed config) ;;;
  ret {| model_version := model_version;
         config := config;
         thresholds := ModelConfigPy.thresholds config;
         params := parameters (metadata config) |}.

Definition _calculate_snr (self : self) (signal : list R) : R :=
  let signal_power := np_mean (map (fun x => x * x) signal) in
  let noise_estimate := np_std (np_diff signal) * np_std (np_diff signal) in
  if Rltb 0 noise_estimate then
    let snr_db := 10 * np_log10 (signal_power / noise_estimate) in
    py_max (-50) (py_min 100 snr_db)
  else 20.0.

Definition _calculate_rms_error (self : self) (signal : list R) : R :=
  if Rltb 0 (np_mean (map Rabs signal))
  then np_std signal / np_mean (map Rabs signal)
  else 0.1.

(** The number of interior points greater than both neighbours. *)
Fixpoint count_peaks (signal : list R) : nat :=
  match signal with
  | a :: (b :: (c :: _) as signal'') as signal' =>
      ((if Rltb a b && Rltb c b then 1 else 0) + count_peaks signal')%nat
  | _ => 0%nat
  end.

Definition _calculate_peak_confidence (self : self) (signal : list R) : R :=
  if (List.length signal <? 3)%nat then 0.5
  else
    let peaks := count_peaks signal in
    let expected_peaks := INR (List.length signal) / 10 in
    if Rltb 0 expected_peaks then py_min 1.0 (INR peaks / expected_peaks) else 0.5.

Definition _calculate_baseline_drift (self : self) (signal : list R) : R :=
  if (List.length signal <? 2)%nat then 0.0
  else
    let x := np_arange (List.length signal) in
    let slope := np_polyfit1_slope x signal in
    Rabs slope * INR (List.length signal).

Definition _calculate_motion_artifact (self : self) (signal : list R)
    (signal_type : string) : R :=
  if (List.length signal <? 3)%nat then 0.5
  else
    let diff_signal := np_diff signal in
    let high_freq_energy := np_std diff_signal in
    let threshold :=
      if String.eqb signal_type "ppg" then np_std signal * 0.1
      else if String.eqb signal_type "temperature" then np_std signal * 0.05
      else np_std signal * 0.2 in
    if Rltb 0 threshold then py_min 1.0 (high_freq_energy / threshold) else 0.5.

(** [self.params[key]], as a float *)
Definition param (self : self) (key : string) : result R :=
  result_map Q2R (dict_item key (params self)).

Definition _calculate_quality_score (self : self)
    (snr rms_error peak_confidence baseline_drift motion_artifact : R) : result R :=
  let snr_normalized := py_min 1.0 (py_max 0.0 ((snr + 10) / 30)) in
  let rms_normalized := py_max 0.0 (py_min 1.0 (1.0 - rms_error / 0.1)) in
  let drift_normalized := py_max 0.0 (py_min 1.0 (1.0 - baseline_drift / 0.1)) in
  let motion_normalized := 1.0 - motion_artifact in
  snr_weight <~ param self "snr_weight" ;;
  rms_weight <~ param self "rms_weight" ;;
  peak_confidence_weight <~ param self "peak_confidence_weight" ;;
  baseline_drift_weight <~ param self "baseline_drift_weight" ;;
  motion_artifact_weight <~ param self "motion_artifact_weight" ;;
  let quality_score :=
    snr_weight * snr_normalized
    + rms_weight * rms_normalized
    + peak_confidence_weight * peak_confidence
    + baseline_drift_weight * drift_normalized
    + motion_artifact_weight * motion_normalized in
  Ok (py_max 0.0 (py_min 1.0 quality_score)).

Definition _determine_quality_grade (self : self) (quality_score : R) : string :=
  if Rleb (Q2R (SIGNAL_QUALITY_EXCELLENT (thresholds self))) quality_score then "excellent"
  else if Rleb (Q2R (SIGNAL_QUALITY_GOOD (thresholds self))) quality_score then "good"
  else if Rleb (Q2R (SIGNAL_QUALITY_USABLE (thresholds self))) quality_score then "fair"
  else "poor".

Definition _generate_recommendations (self : self)
    (snr rms_error peak_confidence baseline_drift motion_artifact quality_score : R)
    : list (fstring R) :=
  let recommendations : list (fstring R) := [] in
  let recommendations :=
    if Rltb snr 15 then
      (recommendations ++
       [[Lit "Low signal-to-noise ratio detected ("; Fmt ".1f" snr;
         Lit " dB, threshold: 15 dB). Check device positioning and connection quality."]])%list
    else recommendations in
  let recommendations :=
    if Rltb 0.1 rms_error then
      (recommendations ++
       [[Lit "High RMS error detected ("; Fmt ".3f" rms_error;
         Lit ", threshold: 0.1). Verify sensor contact and calibration."]])%list
    else recommendations in
  let recommendations :=
    if Rltb peak_confidence 0.7 then
      (recommendations ++
       [[Lit "Low peak detection confidence ("; Fmt ".2f" peak_confidence;
         Lit ", threshold: 0.7). Ensure stable device placement."]])%list
    else recommendations in
  let recommendations :=
    if Rltb 0.1 baseline_drift then
      (recommendations ++
       [[Lit "Significant baseline drift detected ("; Fmt ".3f" baseline_drift;
         Lit ", threshold: 0.1). Check for environmental interference."]])%list
    else recommendations in
  let recommendations :=
    if Rltb 0.3 motion_artifact then
      (recommendations ++
       [[Lit "Motion artifacts detected (score: "; Fmt ".2f" motion_artifact;
         Lit ", threshold: 0.3). Ensure device is securely fastened."]])%list
    else recommendations in
  let recommendations :=
    if Rltb quality_score (Q2R (SIGNAL_QUALITY_USABLE (thresholds self))) then
      (recommendations ++
       [[Lit "Overall signal quality is below acceptable threshold (";
         Fmt ".2f" quality_score; Lit ", required: ";
         Fmt ".2f" (Q2R (SIGNAL_QUALITY_USABLE (thresholds self)));
         Lit "). Review device status and connection."]])%list
    else recommendations in
  match recommendations with
  | [] =>
      [[Lit "Signal quality is acceptable for analysis (score: ";
        Fmt ".2f" quality_score;
        Lit (", grade: " ++ _determine_quality_grade self quality_score ++ ")")]]
  | _ :: _ => recommendations
  end.

Definition assess_quality (self : self) (request : SignalQualityRequest.t)
    : M World SignalQualityResponse.t :=
  let signal_array := SignalQualityRequest.signal_data request in
  let snr := _calculate_snr self signal_array in
  let rms_error := _calculate_rms_error self signal_array in
  let peak_confidence := _calculate_peak_confidence self signal_array in
  let baseline_drift := _calculate_baseline_drift self signal_array in
  let motion_artifact :=
    _calculate_motion_artifact self signal_array
      (SignalQualityRequest.signal_type request) in
  quality_score <-
    lift_result (_calculate_quality_score self snr rms_error peak_confidence
                   baseline_drift motion_artifact) ;;
  let quality_grade := _determine_quality_grade self quality_score in
  let is_usable := Rleb (Q2R (SIGNAL_QUALITY_USABLE (thresholds self))) quality_score in
  let recommendations :=
    _generate_recommendations self snr rms_error peak_confidence baseline_drift
      motion_artifact quality_score in
  let metrics :=
    {| SignalQualityMetrics.snr := snr;
       SignalQualityMetrics.rms_error := rms_error;
       SignalQualityMetrics.peak_detection_confidence := peak_confidence;
       SignalQualityMetrics.baseline_drift := baseline_drift;
       SignalQualityMetrics.motion_artifact_score := motion_artifact |} in
  processed_at <- utcnow ;;
  ret {| SignalQualityResponse.device_id := SignalQualityRequest.device_id request;
         SignalQualityResponse.quality_score := quality_score;
         SignalQualityResponse.quality_grade := quality_grade;
         SignalQualityResponse.metrics := metrics;
         SignalQualityResponse.is_usable := is_usable;
         SignalQualityResponse.recommendations := recommendations;
         SignalQualityResponse.processed_at := processed_at;
         SignalQualityResponse.model_version := Some (value (model_version self)) |}.

(** [get_signal_quality_service()]: the module-level singleton, built on
    first use. *)
Definition get_signal_quality_service : M World self :=
  w <- get ;;
  match _signal_quality_service w with
  | Some service => ret service
  | None =>
      service <- __init__ ;;
      set_signal_quality_service service ;;;
      ret service
  end.

(** The body of the [/signal-quality] endpoint, before the router turns an
    exception into an HTTP error. *)
Definition assess_signal_quality (request : SignalQualityRequest.t)
    : M World SignalQualityResponse.t :=
  service <- get_signal_quality_service ;;
  assess_quality service request.

End signal_quality_service.

(** *** Vocabulary for the signal quality properties *)

Module SignalQualitySpec.

Import ModelConfigPy.
Import RealFloat.
Local Open Scope R_scope.

(** The service object that [__init__] builds from the registry. *)
Definition registered_service : SignalQualityService.self :=
  {| SignalQualityService.model_version := SIGNAL_QUALITY_V1;
     SignalQualityService.config := SIGNAL_QUALITY_V1_config;
     SignalQualityService.thresholds := thresholds SIGNAL_QUALITY_V1_config;
     SignalQualityService.params := parameters (metadata SIGNAL_QUALITY_V1_config) |}.

(** [x] limited to the interval from [lo] to [hi]. *)
Definition clamp (lo hi x : R) : R :=
  if Rlt_dec x lo then lo else if Rlt_dec hi x then hi else x.

(** A ramp: twelve samples with constant differences. *)
Definition ramp : list R := [1; 2; 3; 4; 5; 6; 7; 8; 9; 10; 11; 12].

(** A signal whose differences vary. *)
Definition zigzag : list R := [1; 2; 1; 3; 1; 2; 1; 3; 1; 2; 1; 3].

End SignalQualitySpec.

(** *** Vocabulary for the properties of the three engines together *)

Module EnginesSpec.

(** A world that the process can be in between two requests: the registry
    is as the module defines it, and each service slot is either empty or
    holds the service built from the registry.  The clock and numpy's
    seed are arbitrary. *)
Definition consistent (w : World) : Prop :=
  registry w = ModelConfigPy.MODEL_REGISTRY /\
  (_signal_quality_service w = None \/
   _signal_quality_service w = Some SignalQualitySpec.registered_service) /\
  (_anomaly_service w = None \/
   _anomaly_service w = Some AnomalyDetectionSpec.registered_service) /\
  (_risk_scoring_service w = None \/
   _risk_scoring_service w = Some RiskScoringSpec.registered_service).

(** A response with its timestamp fields blanked. *)
Definition signal_quality_untimed (resp : SignalQualityResponse.t)
    : SignalQualityResponse.t :=
  {| SignalQualityResponse.device_id := SignalQualityResponse.device_id resp;
     SignalQualityResponse.quality_score := SignalQualityResponse.quality_score resp;
     SignalQualityResponse.quality_grade := SignalQualityResponse.quality_grade resp;
     SignalQualityResponse.metrics := SignalQualityResponse.metrics resp;
     SignalQualityResponse.is_usable := SignalQualityResponse.is_usable resp;
     SignalQualityResponse.recommendations := SignalQualityResponse.recommendations resp;
     SignalQualityResponse.processed_at := 0%Z;
     SignalQualityResponse.model_version := SignalQualityResponse.model_version resp |}.

Definition anomaly_detection_untimed (resp : AnomalyDetectionResponse.t)
    : AnomalyDetectionResponse.t :=
  {| AnomalyDetectionResponse.device_id := AnomalyDetectionResponse.device_id resp;
     AnomalyDetectionResponse.anomalies_detected :=
       AnomalyDetectionResponse.anomalies_detected resp;
     AnomalyDetectionResponse.anomaly_count := AnomalyDetectionResponse.anomaly_count resp;
     AnomalyDetectionResponse.anomalies := AnomalyDetectionResponse.anomalies resp;
     AnomalyDetectionResponse.overall_risk_score :=
       AnomalyDetectionResponse.overall_risk_score resp;
     AnomalyDetectionResponse.processed_at := 0%Z;
     AnomalyDetectionResponse.model_version := AnomalyDetectionResponse.model_version resp |}.

Definition risk_scoring_untimed (resp : RiskScoringResponse.t) : RiskScoringResponse.t :=
  {| RiskScoringResponse.device_id := RiskScoringResponse.device_id resp;
     RiskScoringResponse.overall_risk_score := RiskScoringResponse.overall_risk_score resp;
     RiskScoringResponse.risk_level := RiskScoringResponse.risk_level resp;
     RiskScoringResponse.risk_factors := RiskScoringResponse.risk_factors resp;
     RiskScoringResponse.primary_concerns := RiskScoringResponse.primary_concerns resp;
     RiskScoringResponse.recommended_actions :=
       RiskScoringResponse.recommended_actions resp;
     RiskScoringResponse.confidence := RiskScoringResponse.confidence resp;
     RiskScoringResponse.assessed_at := 0%Z;
     RiskScoringResponse.valid_until := 0%Z;
     RiskScoringResponse.model_version := RiskScoringResponse.model_version resp |}.

(** The outcome of an endpoint, response or exception, without the
    timestamps. *)
Definition outcome {A} (untimed : A -> A) (run : result A * World) : result A :=
  result_map untimed (fst run).

(** A world in the middle of a run: the three services are built, numpy
    is seeded, and the clock has been read seven times. *)
Definition warm_world : World :=
  {| registry := ModelConfigPy.MODEL_REGISTRY;
     _signal_quality_service := Some SignalQualitySpec.registered_service;
     _anomaly_service := Some AnomalyDetectionSpec.registered_service;
     _risk_scoring_service := Some RiskScoringSpec.registered_service;
     np_random_seed := Some 42%Z;
     clock := fun n => (1705318200000000 + 250 * Z.of_nat n)%Z;
     clock_reads := 7 |}.

End EnginesSpec.

(** ** Binary64: where rounding decides

    The engines above compute with exact numbers.  The service computes
    with IEEE 754 binary64, and some of its tests sit on values that
    rounding moves: the z-score against its threshold, the noise
    estimate against zero, a value against a multiple of a mean.  The
    definitions below follow the same source lines over the kernel's
    binary64 floats, as far as those lines need only [+], [-], [*], [/],
    the square root and comparisons.  Theorems about such a test
    quantify the number that is tested and bound its distance from the
    exact one. *)

From Stdlib Require PrimFloat.



Module Binary64.

Import PrimFloat.
Local Open Scope float_scope.
#[local] Set Warnings "-inexact-float".

(** One item of [np.abs((values_array - baseline_mean) / baseline_std)] *)
Definition z_score (value baseline_mean baseline_std : float) : float :=
  abs ((value - baseline_mean) / baseline_std).

(** [z_scores] and [np.where(z_scores > z_score_threshold)[0]] of
    [_detect_metric_anomalies] *)
Definition outlier_indices (values : list float)
    (baseline_mean baseline_std z_score_threshold : float) : list nat :=
  let z_scores :=
    if 0 <? baseline_std
    then map (fun v => z_score v baseline_mean baseline_std) values
    else map (fun _ => 0) values in
  np_where (map (fun z => z_score_threshold <? z) z_scores).

(** [np.diff(xs)] *)
Fixpoint np_diff (xs : list float) : list float :=
  match xs with
  | x :: (y :: _) as xs' => (y - x) :: np_diff xs'
  | _ => []
  end.

(** [np.add.reduce(xs)] for fewer than eight items, which numpy adds from
    left to right, starting from the first; longer arrays are added in
    blocks, which this definition does not follow. *)
Definition np_sum (xs : list float) : float :=
  match xs with
  | [] => 0
  | x :: xs' => fold_left add xs' x
  end.

(** The length of an array as a float, exact below [2^53]. *)
Fixpoint of_nat (n : nat) : float :=
  match n with
  | O => 0
  | S n' => of_nat n' + 1
  end.

(** [np.mean(xs)]; of an empty array it is [0 / 0], a NaN. *)
Definition np_mean (xs : list float) : float := np_sum xs / of_nat (List.length xs).

(** [np.std(xs)]: the square root of the mean of the squared deviations
    from the mean. *)
Definition np_std (xs : list float) : float :=
  let arrmean := np_mean xs in
  sqrt (np_mean (map (fun x => (x - arrmean) * (x - arrmean)) xs)).

(** What [_calculate_snr] returns: the default, or the value of
    [max(-50, min(100, 10 * np.log10(ratio)))], whose logarithm the
    kernel's floats lack. *)
Inductive snr : Type :=
| Default (value : float)
| ClampedLog10 (ratio : float).

(** [SignalQualityService._calculate_snr] *)
Definition _calculate_snr (signal : list float) : snr :=
  let signal_power := np_mean (map (fun x => x * x) signal) in
  let noise_estimate := np_std (np_diff signal) * np_std (np_diff signal) in
  if 0 <? noise_estimate then ClampedLog10 (signal_power / noise_estimate)
  else Default 20.0.

End Binary64.

(** *** Vocabulary for the z-score boundary *)

Module OutlierBoundarySpec.

Import ModelConfigPy.
Import AnomalyDetectionService.






End OutlierBoundarySpec.

(** *** Further vocabulary: risk scoring *)

Module RiskScoringMoreSpec.

Import ModelConfigPy.

(** The position of a level on the scale low < moderate < high < critical. *)
Definition level_rank (l : RiskLevel.t) : nat :=
  match l with
  | RiskLevel.LOW => 0
  | RiskLevel.MODERATE => 1
  | RiskLevel.HIGH => 2
  | RiskLevel.CRITICAL => 3
  end.

(** The mean of the factor scores, each weighted by its weight. *)
Definition weighted_mean (fs : list RiskFactors.t) : Q :=
  Qsum (map (fun f => RiskFactors.factor_score f * RiskFactors.weight f) fs)
  / Qsum (map RiskFactors.weight fs).

(** A factor with a score in [0,1] and a positive weight. *)
Definition factor_ok (f : RiskFactors.t) : Prop :=
  unit_interval (RiskFactors.factor_score f) /\ 0 < RiskFactors.weight f.

(** None of the vitals that the service recognises is in the dict. *)
Definition no_recognised_vital (vital_metrics : dict Q) : Prop :=
  dict_mem "heart_rate" vital_metrics = false /\
  dict_mem "temperature" vital_metrics = false /\
  dict_mem "temperature_celsius" vital_metrics = false /\
  dict_mem "oxygen_saturation" vital_metrics = false /\
  dict_mem "spo2" vital_metrics = false.

(** A request that carries a blood pressure reading only. *)
Definition blood_pressure_request : RiskScoringRequest.t := {|
  RiskScoringRequest.device_id := "dev-002";
  RiskScoringRequest.inmate_device_id := None;
  RiskScoringRequest.vital_metrics := [("blood_pressure_systolic", 185)];
  RiskScoringRequest.historical_trends := None;
  RiskScoringRequest.anomaly_flags := None;
  RiskScoringRequest.signal_quality_score := None;
  RiskScoringRequest.time_window_hours := 1;
  RiskScoringRequest.metadata := None
|}.

(** A service object whose parameters hold no weight. *)
Definition unweighted_service : RiskScoringService.self :=
  {| RiskScoringService.model_version := RISK_SCORING_V1;
     RiskScoringService.config := RISK_SCORING_V1_config;
     RiskScoringService.thresholds := thresholds RISK_SCORING_V1_config;
     RiskScoringService.params := [] |}.

(** The request of the schema's example: vitals, trends, two flags and a
    signal quality score. *)
Definition example_request : RiskScoringRequest.t := {|
  RiskScoringRequest.device_id := "dev-001";
  RiskScoringRequest.inmate_device_id := Some "inmate-dev-001";
  RiskScoringRequest.vital_metrics :=
    [("heart_rate", 95); ("temperature", 37.2); ("oxygen_saturation", 96)];
  RiskScoringRequest.historical_trends :=
    Some [("heart_rate", [72; 75; 80; 85; 90; 95]);
          ("temperature", [36.5; 36.6; 36.8; 37.0; 37.1; 37.2])];
  RiskScoringRequest.anomaly_flags := Some ["heart_rate_abnormal"; "temperature_abnormal"];
  RiskScoringRequest.signal_quality_score := Some 0.85;
  RiskScoringRequest.time_window_hours := 24;
  RiskScoringRequest.metadata := Some [("facility_id", "facility-001")]
|}.

End RiskScoringMoreSpec.

(** *** Further vocabulary: anomaly detection *)

Module AnomalyDetectionMoreSpec.

Import ModelConfigPy.

(** The default thresholds with the z-score threshold set to zero. *)
Definition zero_z_thresholds : AlertThresholds := {|
  HEART_RATE_NORMAL_MIN := 60.0;
  HEART_RATE_NORMAL_MAX := 100.0;
  HEART_RATE_WARNING_MIN := 50.0;
  HEART_RATE_WARNING_MAX := 120.0;
  HEART_RATE_CRITICAL_MIN := 40.0;
  HEART_RATE_CRITICAL_MAX := 150.0;
  TEMPERATURE_NORMAL_MIN := 36.1;
  TEMPERATURE_NORMAL_MAX := 37.2;
  TEMPERATURE_WARNING_MIN := 35.5;
  TEMPERATURE_WARNING_MAX := 38.0;
  TEMPERATURE_CRITICAL_MIN := 34.0;
  TEMPERATURE_CRITICAL_MAX := 39.5;
  OXYGEN_SATURATION_NORMAL_MIN := 95.0;
  OXYGEN_SATURATION_WARNING_MIN := 93.0;
  OXYGEN_SATURATION_CRITICAL_MIN := 90.0;
  BLOOD_PRESSURE_SYSTOLIC_NORMAL_MAX := 140.0;
  BLOOD_PRESSURE_SYSTOLIC_WARNING_MAX := 160.0;
  BLOOD_PRESSURE_SYSTOLIC_CRITICAL_MAX := 180.0;
  BLOOD_PRESSURE_SYSTOLIC_NORMAL_MIN := 90.0;
  BLOOD_PRESSURE_SYSTOLIC_WARNING_MIN := 80.0;
  BLOOD_PRESSURE_SYSTOLIC_CRITICAL_MIN := 70.0;
  BATTERY_WARNING := 20.0;
  BATTERY_CRITICAL := 10.0;
  SIGNAL_STRENGTH_WARNING := -90.0;
  SIGNAL_STRENGTH_CRITICAL := -100.0;
  Z_SCORE_THRESHOLD := 0.0;
  TREND_CHANGE_THRESHOLD := 0.2;
  RISK_SCORE_LOW := 0.25;
  RISK_SCORE_MODERATE := 0.5;
  RISK_SCORE_HIGH := 0.75;
  MIN_CONFIDENCE_FOR_ALERT := 0.6;
  HIGH_CONFIDENCE_THRESHOLD := 0.8;
  SIGNAL_QUALITY_GOOD := 0.6;
  SIGNAL_QUALITY_EXCELLENT := 0.8;
  SIGNAL_QUALITY_USABLE := 0.5
|}.

(** A service object configured with those thresholds. *)
Definition zero_threshold_service : AnomalyDetectionService.self :=
  {| AnomalyDetectionService.model_version := ANOMALY_DETECTION_V1;
     AnomalyDetectionService.config := ANOMALY_DETECTION_V1_config;
     AnomalyDetectionService.thresholds := zero_z_thresholds |}.




(** The types that the outlier detector assigns. *)
Definition metric_type (t : AnomalyType.t) : Prop :=
  t = AnomalyType.HEART_RATE_ABNORMAL \/ t = AnomalyType.TEMPERATURE_ABNORMAL \/
  t = AnomalyType.MOTION_ANOMALY \/ t = AnomalyType.UNKNOWN.

(** The type of an anomaly fits the detector that built it. *)
Definition well_typed (a : AnomalyResult.t) : Prop :=
  match AnomalyDetectionSpec.detector_of a with
  | Some AnomalyDetectionSpec.Outlier => metric_type (AnomalyResult.anomaly_type a)
  | Some _ => AnomalyResult.anomaly_type a = AnomalyType.PATTERN_DEVIATION
  | None => False
  end.

(** The anomalies of an outcome; none when the service raised. *)
Definition reported (run : result AnomalyDetectionResponse.t * World)
    : list AnomalyResult.t :=
  match fst run with
  | Ok resp => AnomalyDetectionResponse.anomalies resp
  | Raise _ => []
  end.



End AnomalyDetectionMoreSpec.

(** *** Further vocabulary: signal quality *)

Module SignalQualityMoreSpec.

Import ModelConfigPy.
Import RealFloat.
Import signal_quality_service.
Local Open Scope R_scope.

(** The bounds that the schema puts on [SignalQualityMetrics]. *)
Definition within_schema (m : SignalQualityMetrics.t) : Prop :=
  -50 <= SignalQualityMetrics.snr m <= 100 /\
  0 <= SignalQualityMetrics.rms_error m /\
  0 <= SignalQualityMetrics.peak_detection_confidence m <= 1 /\
  0 <= SignalQualityMetrics.baseline_drift m /\
  0 <= SignalQualityMetrics.motion_artifact_score m <= 1.

(** The grades, from worst to best. *)
Definition grade_rank (grade : string) : nat :=
  if String.eqb grade "excellent" then 3
  else if String.eqb grade "good" then 2
  else if String.eqb grade "fair" then 1
  else 0.

(** The one recommendation of a signal that needs none. *)
Definition acceptable_message (self : SignalQualityService.self) (quality_score : R)
    : fstring R :=
  [Lit "Signal quality is acceptable for analysis (score: ";
   Fmt ".2f" quality_score;
   Lit (", grade: " ++ _determine_quality_grade self quality_score ++ ")")].

(** None of the six conditions for a recommendation holds. *)
Definition all_clear (self : SignalQualityService.self)
    (snr rms_error peak_confidence baseline_drift motion_artifact quality_score : R)
    : bool :=
  negb (Rltb snr 15) && negb (Rltb 0.1 rms_error) && negb (Rltb peak_confidence 0.7)
  && negb (Rltb 0.1 baseline_drift) && negb (Rltb 0.3 motion_artifact)
  && negb (Rltb quality_score
             (Q2R (SIGNAL_QUALITY_USABLE (SignalQualityService.thresholds self)))).

(** The weighted sum of the normalised metrics under the registered
    weights. *)
Definition weighted_quality (snr rms_error peak_confidence baseline_drift
                             motion_artifact : R) : R :=
  0.3 * SignalQualitySpec.clamp 0 1 ((snr + 10) / 30)
  + 0.2 * SignalQualitySpec.clamp 0 1 (1 - rms_error / 0.1)
  + 0.2 * peak_confidence
  + 0.15 * SignalQualitySpec.clamp 0 1 (1 - baseline_drift / 0.1)
  + 0.15 * (1 - motion_artifact).

(** The weights that [_calculate_quality_score] reads, in the order in
    which it reads them. *)
Definition weight_keys : list string :=
  ["snr_weight"; "rms_weight"; "peak_confidence_weight";
   "baseline_drift_weight"; "motion_artifact_weight"].

(** The first of the keys that the parameters lack. *)
Fixpoint first_missing (keys : list string) (params : dict Q) : option string :=
  match keys with
  | [] => None
  | k :: keys' =>
      match dict_get k params with
      | Some _ => first_missing keys' params
      | None => Some k
      end
  end.

(** A service object whose parameters lack [rms_weight]. *)
Definition partly_weighted_service : SignalQualityService.self :=
  {| SignalQualityService.model_version := SIGNAL_QUALITY_V1;
     SignalQualityService.config := SIGNAL_QUALITY_V1_config;
     SignalQualityService.thresholds := thresholds SIGNAL_QUALITY_V1_config;
     SignalQualityService.params :=
       [("snr_weight", 0.3%Q); ("peak_confidence_weight", 0.2%Q)] |}.


(** A request with [n] samples of the same value. *)
Definition flat_request (c : R) (n : nat) (signal_type : string)
    : SignalQualityRequest.t :=
  {| SignalQualityRequest.device_id := "dev-005";
     SignalQualityRequest.signal_data := repeat c n;
     SignalQualityRequest.sampling_rate := 100;
     SignalQualityRequest.signal_type := signal_type;
     SignalQualityRequest.recorded_at := 1705314600000000%Z;
     SignalQualityRequest.metadata := None |}.

End SignalQualityMoreSpec.

(** *** Further vocabulary: the process state *)

Module EnginesMoreSpec.

Import ModelConfigPy.

(** The registry of the world holds none of the three model versions. *)
Definition unregistered (w : World) : Prop :=
  forall version : ModelVersion, dict_get (value version) (registry w) = None.

(** No service has been built. *)
Definition cold (w : World) : Prop :=
  _signal_quality_service w = None /\
  _anomaly_service w = None /\
  _risk_scoring_service w = None.

(** The world after [MODEL_REGISTRY] has been replaced. *)
Definition with_registry (reg : Registry) (w : World) : World :=
  {| registry := reg;
     _signal_quality_service := _signal_quality_service w;
     _anomaly_service := _anomaly_service w;
     _risk_scoring_service := _risk_scoring_service w;
     np_random_seed := np_random_seed w;
     clock := clock w;
     clock_reads := clock_reads w |}.

End EnginesMoreSpec.

(** *** Further vocabulary: historical trends *)

Module RiskTrendsSpec.

(** The change from the first to the last value of a history, per step. *)
Definition endpoint_rate (values : list Q) : Q :=
  (last values 0 - hd 0 values) / inject_Z (Z.of_nat (List.length values - 1)).


End RiskTrendsSpec.

(** * Properties *)

(** ** Comparisons, [min], [max] and dicts *)

Lemma Qltb_lt (x y : Q) : Qltb x y = true <-> x < y.
Proof.
  unfold Qltb. rewrite negb_true_iff.
  split; intro H.
  - apply Qnot_le_lt. intro Hle. apply Qle_bool_iff in Hle. congruence.
  - destruct (Qle_bool y x) eqn:E; [|reflexivity].
    apply Qle_bool_iff in E. exfalso. apply (Qlt_not_le _ _ H E).
Qed.

Lemma Qltb_ge (x y : Q) : Qltb x y = false <-> y <= x.
Proof.
  unfold Qltb. rewrite negb_false_iff. apply Qle_bool_iff.
Qed.

Lemma Qle_bool_gt (x y : Q) : Qle_bool x y = false <-> y < x.
Proof.
  rewrite <- Qltb_lt. unfold Qltb. rewrite negb_true_iff. reflexivity.
Qed.

(** Case analysis on every float comparison in the goal. *)
Ltac cmp_cases :=
  repeat match goal with
  | |- context [Qltb ?a ?b] =>
      let E := fresh "E" in
      destruct (Qltb a b) eqn:E;
      [apply Qltb_lt in E | apply Qltb_ge in E]
  | |- context [Qle_bool ?a ?b] =>
      let E := fresh "E" in
      destruct (Qle_bool a b) eqn:E;
      [apply Qle_bool_iff in E | apply Qle_bool_gt in E]
  end.

Lemma py_min_le_l (a b : Q) : py_min a b <= a.
Proof. unfold py_min. cmp_cases; lra. Qed.

Lemma py_min_le_r (a b : Q) : py_min a b <= b.
Proof. unfold py_min. cmp_cases; lra. Qed.

Lemma py_min_glb (a b c : Q) : c <= a -> c <= b -> c <= py_min a b.
Proof. unfold py_min. cmp_cases; lra. Qed.

Lemma py_max_ge_l (a b : Q) : a <= py_max a b.
Proof. unfold py_max. cmp_cases; lra. Qed.

Lemma py_max_lub (a b c : Q) : a <= c -> b <= c -> py_max a b <= c.
Proof. unfold py_max. cmp_cases; lra. Qed.

Lemma clamp01_range (x : Q) : 0 <= clamp01 x <= 1.
Proof.
  unfold clamp01. split.
  - apply py_max_ge_l.
  - apply py_max_lub; [lra | apply py_min_le_l].
Qed.

Lemma dict_get_None {V} (k : string) (d : dict V) :
  dict_get k d = None <-> ~ In k (dict_keys d).
Proof.
  induction d as [|[k' v] d IH]; simpl.
  - tauto.
  - destruct (String.eqb k k') eqn:E.
    + apply String.eqb_eq in E. subst. split; [discriminate | tauto].
    + apply String.eqb_neq in E. rewrite IH. split.
      * intros H [H1 | H1]; [congruence | tauto].
      * tauto.
Qed.


(** ** Loops *)

Lemma for_each_Ok_inv {A B} (f : A -> result (list B)) (xs : list A) (ys : list B) :
  for_each f xs = Ok ys ->
  exists yss, Forall2 (fun x y => f x = Ok y) xs yss /\ ys = List.concat yss.
Proof.
  revert ys. induction xs as [|x xs IH]; cbn [for_each]; intros ys H.
  - injection H as <-. exists []. split; [constructor | reflexivity].
  - destruct (f x) as [y|] eqn:Ex; [|discriminate].
    destruct (for_each f xs) as [rest|]; [|discriminate].
    injection H as <-. destruct (IH rest eq_refl) as (yss & HF & ->).
    exists (y :: yss). split; [constructor; assumption | reflexivity].
Qed.

Lemma for_each_total {A B} (f : A -> result (list B)) (xs : list A) :
  (forall x, In x xs -> exists y, f x = Ok y) ->
  exists ys, for_each f xs = Ok ys.
Proof.
  induction xs as [|x xs IH]; cbn [for_each]; intros H.
  - eauto.
  - destruct (H x (or_introl eq_refl)) as [y ->].
    destruct IH as [rest ->]; [intros; apply H; right; assumption|].
    eauto.
Qed.

(** A loop whose body yields at most one item per index picks its items
    in the order of the indices. *)
Lemma for_each_picked {B} (P : nat -> B -> Prop) (f : nat -> result (list B))
    (js : list nat) (out : list B) :
  (forall i ys, In i js -> f i = Ok ys -> ys = [] \/ exists a, ys = [a] /\ P i a) ->
  for_each f js = Ok out ->
  picked P js out.
Proof.
  revert out. induction js as [|i js IH]; cbn [for_each]; intros out Hbody H.
  - injection H as <-. constructor.
  - destruct (f i) as [ys|] eqn:Ei; [|discriminate].
    destruct (for_each f js) as [rest|]; [|discriminate].
    injection H as <-.
    assert (Hrest : picked P js rest).
    { apply IH; [|reflexivity]. intros j zs Hj. apply Hbody. right. exact Hj. }
    destruct (Hbody i ys (or_introl eq_refl) Ei) as [-> | (a & -> & Ha)].
    + apply picked_skip. exact Hrest.
    + apply picked_take; assumption.
Qed.

Lemma picked_impl {A} (P R : nat -> A -> Prop) (js : list nat) (out : list A) :
  (forall i a, P i a -> R i a) -> picked P js out -> picked R js out.
Proof.
  intros HPR H. induction H.
  - constructor.
  - apply picked_skip. assumption.
  - apply picked_take; [apply HPR|]; assumption.
Qed.

(** A loop whose body never raises and yields at most one item per index
    returns, and picks its items in the order of the indices. *)
Lemma for_each_picked_total {B} (f : nat -> result (list B)) (js : list nat) :
  (forall i, In i js -> f i = Ok [] \/ exists a, f i = Ok [a]) ->
  exists out,
    for_each f js = Ok out /\
    picked (fun i a => In i js /\ f i = Ok [a]) js out /\
    (forall i a, In i js -> f i = Ok [a] -> In a out).
Proof.
  induction js as [|i js IH]; cbn [for_each]; intros Hbody.
  - exists []. repeat split; [constructor | intros i a []].
  - destruct IH as (rest & Hrest & Hpick & Hin).
    { intros j Hj. apply Hbody. right. exact Hj. }
    rewrite Hrest.
    assert (Hweak : picked (fun j a => In j (i :: js) /\ f j = Ok [a]) js rest).
    { revert Hpick. apply picked_impl. intros j a [H1 H2].
      split; [right; exact H1 | exact H2]. }
    destruct (Hbody i (or_introl eq_refl)) as [E | [a E]]; rewrite E.
    + exists rest. repeat split.
      * apply picked_skip. exact Hweak.
      * intros j b [<- | Hj] Hb; [congruence | eapply Hin; eassumption].
    + exists (a :: rest). repeat split.
      * apply picked_take; [split; [left; reflexivity | exact E] | exact Hweak].
      * intros j b [<- | Hj] Hb.
        -- left. congruence.
        -- right. eapply Hin; eassumption.
Qed.

Lemma picked_none {A} (P : nat -> A -> Prop) (js : list nat) : picked P js [].
Proof. induction js; [constructor | apply picked_skip; assumption]. Qed.

(** The indices chosen by a mask are among all the indices, in order. *)
Lemma picked_np_where {A} (P : nat -> A -> Prop) (mask : list bool) (start : nat)
    (out : list A) :
  picked P (np_where_from start mask) out ->
  picked P (seq start (List.length mask)) out.
Proof.
  revert start out. induction mask as [|b mask IH]; intros start out;
    cbn [np_where_from List.length seq].
  - exact (fun H => H).
  - destruct b.
    + intros H. inversion H; subst.
      * apply picked_skip. apply IH. assumption.
      * apply picked_take; [assumption | apply IH; assumption].
    + intros H. apply picked_skip. apply IH. exact H.
Qed.

Lemma picked_Forall {A} (P : nat -> A -> Prop) (Q : A -> Prop)
    (js : list nat) (out : list A) :
  (forall i a, P i a -> Q a) -> picked P js out -> Forall Q out.
Proof.
  intros HPQ H. induction H; [constructor | assumption |].
  constructor; [eapply HPQ; eassumption | assumption].
Qed.

Lemma picked_length {A} (P : nat -> A -> Prop) (js : list nat) (out : list A) :
  picked P js out -> (List.length out <= List.length js)%nat.
Proof. intros H. induction H; cbn [List.length]; lia. Qed.

(** ** numpy *)

Lemma np_where_from_spec (mask : list bool) (start i : nat) :
  In i (np_where_from start mask) <->
  (start <= i)%nat /\ nth_error mask (i - start) = Some true.
Proof.
  revert start. induction mask as [|b mask IH]; intros start; cbn [np_where_from].
  - split; [intros [] | intros [_ H]]. destruct (i - start)%nat; discriminate.
  - assert (Hstep : In i (np_where_from (S start) mask) <->
                    (S start <= i)%nat /\ nth_error mask (i - S start) = Some true)
      by apply IH.
    destruct (Nat.eq_dec i start) as [-> | Hne].
    + rewrite Nat.sub_diag. cbn [nth_error]. destruct b.
      * split; [intros _; split; [lia | reflexivity] | intros _; left; reflexivity].
      * rewrite Hstep. split; [intros [H _]; lia | intros [_ H]; discriminate].
    + assert (Hrhs : (start <= i)%nat /\ nth_error (b :: mask) (i - start) = Some true <->
                     (S start <= i)%nat /\ nth_error mask (i - S start) = Some true).
      { split; intros [Hle Hn].
        - split; [lia|]. replace (i - start)%nat with (S (i - S start)) in Hn by lia.
          exact Hn.
        - split; [lia|]. replace (i - start)%nat with (S (i - S start)) by lia.
          exact Hn. }
      rewrite Hrhs, <- Hstep. destruct b; cbn [In]; [|tauto].
      split; [intros [H | H]; [congruence | exact H] | tauto].
Qed.

Lemma np_where_spec (mask : list bool) (i : nat) :
  In i (np_where mask) <-> nth_error mask i = Some true.
Proof.
  unfold np_where. rewrite np_where_from_spec, Nat.sub_0_r.
  split; [tauto | intros H; split; [lia | exact H]].
Qed.

Lemma windows_length (m : nat) (a : list Q) :
  (1 <= m)%nat -> List.length (windows m a) = (S (List.length a) - m)%nat.
Proof.
  intros Hm. induction a as [|x a IH]; cbn [windows List.length].
  - lia.
  - destruct (m <=? S (List.length a))%nat eqn:E.
    + apply Nat.leb_le in E. cbn [List.length]. rewrite IH. lia.
    + apply Nat.leb_gt in E. cbn [List.length]. lia.
Qed.

Lemma np_convolve_valid_length (a v : list Q) :
  (1 <= List.length v)%nat ->
  List.length (np_convolve_valid a v) = (S (List.length a) - List.length v)%nat.
Proof.
  intros Hv. unfold np_convolve_valid. rewrite length_map. apply windows_length. exact Hv.
Qed.

Lemma for_each_related {A B} (R : A -> list B -> Prop) (f : A -> result (list B))
    (xs : list A) :
  (forall x, In x xs -> exists ys, f x = Ok ys /\ R x ys) ->
  exists yss, for_each f xs = Ok (List.concat yss) /\ Forall2 R xs yss.
Proof.
  induction xs as [|x xs IH]; cbn [for_each]; intros H.
  - exists []. split; [reflexivity | constructor].
  - destruct (H x (or_introl eq_refl)) as (ys & -> & Hys).
    destruct IH as (yss & -> & Hyss); [intros; apply H; right; assumption|].
    exists (ys :: yss). split; [reflexivity | constructor; assumption].
Qed.
(** ** The model registry *)

Module ModelConfigFacts.

Import ModelConfigPy.

Lemma get_model_config_run (version : string) (reg : Registry) :
  get_model_config version reg =
  (match dict_get version reg with
   | Some c => Ok c
   | None => Raise (ValueError ("Model version " ++ version ++ " not found in registry"))
   end, reg).
Proof.
  unfold get_model_config, bind, get, dict_mem, dict_item, lift_result, raise.
  destruct (dict_get version reg); reflexivity.
Qed.

Lemma get_thresholds_run (version : string) (reg : Registry) :
  get_thresholds version reg =
  (result_map thresholds (fst (get_model_config version reg)), reg).
Proof.
  unfold get_thresholds, bind, ret. rewrite get_model_config_run.
  destruct (dict_get version reg); reflexivity.
Qed.

Lemma get_latest_model_version_unknown (model_type : string) :
  model_type <> "signal_quality" ->
  model_type <> "anomaly_detection" ->
  model_type <> "risk_scoring" ->
  get_latest_model_version model_type =
  Raise (ValueError ("Unknown model type: " ++ model_type)).
Proof.
  intros H1 H2 H3. unfold get_latest_model_version.
  apply String.eqb_neq in H1, H2, H3. rewrite H1, H2, H3. reflexivity.
Qed.

Lemma get_latest_model_version_Ok (model_type : string) (v : ModelVersion) :
  get_latest_model_version model_type = Ok v ->
  (model_type = "signal_quality" /\ v = SIGNAL_QUALITY_V1) \/
  (model_type = "anomaly_detection" /\ v = ANOMALY_DETECTION_V1) \/
  (model_type = "risk_scoring" /\ v = RISK_SCORING_V1).
Proof.
  unfold get_latest_model_version.
  destruct (String.eqb model_type "signal_quality") eqn:E1.
  { apply String.eqb_eq in E1. intros [= <-]. auto. }
  destruct (String.eqb model_type "anomaly_detection") eqn:E2.
  { apply String.eqb_eq in E2. intros [= <-]. auto. }
  destruct (String.eqb model_type "risk_scoring") eqn:E3.
  { apply String.eqb_eq in E3. intros [= <-]. auto. }
  discriminate.
Qed.

(** C7.  [get_model_config] returns the registered configuration of each
    of the three model versions; on any registry it returns the entry
    under the key and raises exactly when the key is absent.
    [get_latest_model_version] sends the three model-type strings to their
    versions, each registered once, and raises the unknown-type error on
    every other string.  [get_thresholds] is the [thresholds] field of
    what [get_model_config] returns.  No lookup changes the registry. *)
Theorem registry_lookup_contract :
  (forall v : ModelVersion,
     exists c, dict_get (value v) MODEL_REGISTRY = Some c /\ version c = v /\
               get_model_config (value v) MODEL_REGISTRY = (Ok c, MODEL_REGISTRY)) /\
  (forall version reg c,
     fst (get_model_config version reg) = Ok c <-> dict_get version reg = Some c) /\
  (forall version reg,
     (exists e, fst (get_model_config version reg) = Raise e) <->
     ~ In version (dict_keys reg)) /\
  (get_latest_model_version "signal_quality" = Ok SIGNAL_QUALITY_V1 /\
   get_latest_model_version "anomaly_detection" = Ok ANOMALY_DETECTION_V1 /\
   get_latest_model_version "risk_scoring" = Ok RISK_SCORING_V1) /\
  (forall model_type,
     model_type <> "signal_quality" ->
     model_type <> "anomaly_detection" ->
     model_type <> "risk_scoring" ->
     get_latest_model_version model_type =
     Raise (ValueError ("Unknown model type: " ++ model_type))) /\
  dict_keys MODEL_REGISTRY =
    [value SIGNAL_QUALITY_V1; value ANOMALY_DETECTION_V1; value RISK_SCORING_V1] /\
  (forall version reg,
     fst (get_thresholds version reg) =
     result_map thresholds (fst (get_model_config version reg))) /\
  (forall version reg,
     snd (get_model_config version reg) = reg /\
     snd (get_thresholds version reg) = reg).
Proof.
  repeat apply conj.
  - intros []; eexists; repeat split; reflexivity.
  - intros v reg c. rewrite get_model_config_run. simpl.
    destruct (dict_get v reg); split; congruence.
  - intros v reg. rewrite get_model_config_run. simpl.
    rewrite <- dict_get_None.
    destruct (dict_get v reg); split.
    + intros [e He]. discriminate.
    + discriminate.
    + reflexivity.
    + intros _. eexists. reflexivity.
  - reflexivity.
  - reflexivity.
  - reflexivity.
  - apply get_latest_model_version_unknown.
  - reflexivity.
  - intros. rewrite get_thresholds_run. reflexivity.
  - intros v reg. rewrite get_model_config_run, get_thresholds_run. split; reflexivity.
Qed.

End ModelConfigFacts.

(** ** Risk scoring *)

Module RiskScoringFacts.

Import ModelConfigPy.
Import RiskScoringService.
Import risk_scoring_service.
Import RiskScoringSpec.

Lemma clamp_unit (x : Q) : unit_interval (py_max 0.0 (py_min 1.0 x)).
Proof. unfold unit_interval, py_max, py_min. cmp_cases; lra. Qed.

(** [__init__] on the registry of the module builds [registered_service]
    and seeds numpy; nothing else changes. *)
Lemma init_run (w : World) :
  registry w = MODEL_REGISTRY ->
  __init__ w =
  (Ok registered_service,
   {| registry := registry w;
      _signal_quality_service := _signal_quality_service w;
      _anomaly_service := _anomaly_service w;
      _risk_scoring_service := _risk_scoring_service w;
      np_random_seed := Some 42%Z;
      clock := clock w;
      clock_reads := clock_reads w |}).
Proof.
  intros Hreg. unfold __init__, bind, lift_result, on_registry. simpl.
  rewrite ModelConfigFacts.get_model_config_run. rewrite Hreg. reflexivity.
Qed.

(** C1.  With the registered thresholds (0.75, 0.5, 0.25) a score at or
    above [RISK_SCORE_HIGH] is 'critical', one in
    [RISK_SCORE_MODERATE, RISK_SCORE_HIGH) is 'high', one in
    [RISK_SCORE_LOW, RISK_SCORE_MODERATE) is 'moderate', and any lower
    score is 'low'. *)
Theorem determine_risk_level_tiers (self : self) (s : Q) :
  thresholds self = AlertThresholds_default ->
  (RISK_SCORE_HIGH (thresholds self) == 0.75 /\
   RISK_SCORE_MODERATE (thresholds self) == 0.5 /\
   RISK_SCORE_LOW (thresholds self) == 0.25) /\
  (0.75 <= s -> _determine_risk_level self s = RiskLevel.CRITICAL) /\
  (0.5 <= s < 0.75 -> _determine_risk_level self s = RiskLevel.HIGH) /\
  (0.25 <= s < 0.5 -> _determine_risk_level self s = RiskLevel.MODERATE) /\
  (s < 0.25 -> _determine_risk_level self s = RiskLevel.LOW).
Proof.
  intros Hth. unfold _determine_risk_level. rewrite Hth. simpl.
  repeat apply conj; try reflexivity; intros H; cmp_cases; try reflexivity; lra.
Qed.

Lemma determine_risk_level_tiers_witness :
  _determine_risk_level registered_service 0.8 = RiskLevel.CRITICAL /\
  _determine_risk_level registered_service 0.6 = RiskLevel.HIGH /\
  _determine_risk_level registered_service 0.3 = RiskLevel.MODERATE /\
  _determine_risk_level registered_service 0.1 = RiskLevel.LOW.
Proof.
  repeat apply conj.
  - apply (determine_risk_level_tiers registered_service 0.8 eq_refl).
    unfold Qle; simpl; lia.
  - apply (determine_risk_level_tiers registered_service 0.6 eq_refl).
    unfold Qle, Qlt; simpl; lia.
  - apply (determine_risk_level_tiers registered_service 0.3 eq_refl).
    unfold Qle, Qlt; simpl; lia.
  - apply (determine_risk_level_tiers registered_service 0.1 eq_refl).
    unfold Qlt; simpl; lia.
Defined.

(** The level in a response is the level of the score in that response. *)
Lemma calculate_risk_level (self : self) (request : RiskScoringRequest.t)
    (w w' : World) (resp : RiskScoringResponse.t) :
  calculate_risk self request w = (Ok resp, w') ->
  RiskScoringResponse.risk_level resp =
  _determine_risk_level self (RiskScoringResponse.overall_risk_score resp).
Proof.
  unfold calculate_risk, bind, lift_result, utcnow, ret.
  destruct (_analyze_vital_metrics _ _ _); [|discriminate].
  intros [= <- _]. reflexivity.
Qed.


(** Where the two timestamps of a response come from: [valid_until] is
    one hour after the first reading of the clock, whatever window in
    1..168 is requested, and [assessed_at] is the second reading. *)
Lemma calculate_risk_timestamps (self : self) (request : RiskScoringRequest.t)
    (w w' : World) (resp : RiskScoringResponse.t) :
  (1 <= RiskScoringRequest.time_window_hours request <= 168)%Z ->
  calculate_risk self request w = (Ok resp, w') ->
  RiskScoringResponse.valid_until resp =
    (clock w (clock_reads w) + timedelta_hours 1)%Z /\
  RiskScoringResponse.assessed_at resp = clock w (S (clock_reads w)).
Proof.
  intros Hh. unfold calculate_risk, bind, lift_result, utcnow, ret.
  destruct (_analyze_vital_metrics _ _ _); [|discriminate].
  intros [= <- _]. simpl. split; [|reflexivity].
  unfold py_min_int.
  destruct (1 <? RiskScoringRequest.time_window_hours request)%Z eqn:E.
  - reflexivity.
  - apply Z.ltb_ge in E.
    replace (RiskScoringRequest.time_window_hours request) with 1%Z by lia.
    reflexivity.
Qed.

(** *** Ranges of the scores *)

Lemma score_heart_rate_unit (self : self) (v : Q) (t : option (list Q)) :
  unit_interval (_score_heart_rate self v t).
Proof. unfold _score_heart_rate. apply clamp_unit. Qed.

Lemma score_temperature_unit (self : self) (v : Q) (t : option (list Q)) :
  unit_interval (_score_temperature self v t).
Proof. unfold _score_temperature. apply clamp_unit. Qed.

Lemma score_oxygen_saturation_unit (self : self) (v : Q) :
  unit_interval (_score_oxygen_saturation self v).
Proof.
  unfold _score_oxygen_saturation, unit_interval. cbv zeta. cmp_cases; lra.
Qed.

Lemma analyze_vital_metrics_unit (self : self) (vm : dict Q)
    (ht : option (dict (list Q))) (fs : list RiskFactors.t) :
  _analyze_vital_metrics self vm ht = Ok fs -> scores_unit fs.
Proof.
  unfold _analyze_vital_metrics, result_bind, scores_unit. cbv zeta.
  repeat match goal with
         | |- context [dict_mem ?k ?d] => destruct (dict_mem k d)
         | |- context [dict_item ?k ?d] => destruct (dict_item k d)
         end;
    cbn [orb app];
    intros H; try discriminate H; injection H as <-;
    repeat first [apply Forall_nil | apply Forall_cons];
    cbn [RiskFactors.factor_score];
    auto using score_heart_rate_unit, score_temperature_unit,
               score_oxygen_saturation_unit.
Qed.

Lemma analyze_anomaly_flags_unit (self : self) (flags : list string) :
  scores_unit (_analyze_anomaly_flags self flags).
Proof.
  unfold _analyze_anomaly_flags, scores_unit. apply Forall_map.
  apply Forall_forall. intros flag _. cbn [RiskFactors.factor_score].
  destruct (existsb (String.eqb flag) critical_anomalies);
    unfold unit_interval; lra.
Qed.

Lemma analyze_signal_quality_unit (self : self) (q : Q) :
  0 <= q <= 1 ->
  unit_interval (RiskFactors.factor_score (_analyze_signal_quality self q)).
Proof. unfold unit_interval. cbn [_analyze_signal_quality RiskFactors.factor_score]. lra. Qed.

Lemma analyze_trends_unit (self : self) (ht : dict (list Q)) :
  scores_unit (_analyze_trends self ht).
Proof.
  unfold _analyze_trends, scores_unit.
  induction ht as [|[metric_name values] ht IH]; cbn [flat_map].
  - constructor.
  - apply Forall_app. split; [|exact IH].
    destruct (List.length values <? 3)%nat; [constructor|].
    destruct (Qltb 0.1 (Qabs (np_mean (np_diff values)))) eqn:E; [|constructor].
    constructor; [|constructor]. cbn [RiskFactors.factor_score].
    apply Qltb_lt in E. unfold unit_interval, py_min. cmp_cases; lra.
Qed.

Lemma calculate_overall_risk_score_unit (self : self) (fs : list RiskFactors.t) :
  unit_interval (_calculate_overall_risk_score self fs).
Proof.
  unfold _calculate_overall_risk_score.
  destruct fs as [|f fs]; [unfold unit_interval; lra|].
  destruct (Qltb 0 _); [apply clamp_unit | unfold unit_interval; lra].
Qed.

Lemma calculate_confidence_unit (self : self) (fs : list RiskFactors.t)
    (request : RiskScoringRequest.t) :
  unit_interval (_calculate_confidence self fs request).
Proof. unfold _calculate_confidence. apply clamp_unit. Qed.

(** The factors of a response, as the service assembles them. *)
Lemma calculate_risk_factors (self : self) (request : RiskScoringRequest.t)
    (w w' : World) (resp : RiskScoringResponse.t) :
  calculate_risk self request w = (Ok resp, w') ->
  exists vital,
    _analyze_vital_metrics self (RiskScoringRequest.vital_metrics request)
      (RiskScoringRequest.historical_trends request) = Ok vital /\
    RiskScoringResponse.risk_factors resp =
      (((vital
         ++ match RiskScoringRequest.anomaly_flags request with
            | Some ((_ :: _) as flags) => _analyze_anomaly_flags self flags
            | _ => []
            end)
        ++ match RiskScoringRequest.signal_quality_score request with
           | Some q => [_analyze_signal_quality self q]
           | None => []
           end)
       ++ match RiskScoringRequest.historical_trends request with
          | Some ((_ :: _) as ht) => _analyze_trends self ht
          | _ => []
          end)%list /\
    RiskScoringResponse.overall_risk_score resp =
      _calculate_overall_risk_score self (RiskScoringResponse.risk_factors resp) /\
    RiskScoringResponse.confidence resp =
      _calculate_confidence self (RiskScoringResponse.risk_factors resp) request.
Proof.
  unfold calculate_risk, bind, lift_result, utcnow, ret.
  destruct (_analyze_vital_metrics _ _ _) as [vital|]; [|discriminate].
  intros [= <- _]. exists vital.
  cbn [RiskScoringResponse.risk_factors RiskScoringResponse.overall_risk_score
       RiskScoringResponse.confidence].
  repeat split.
  destruct (RiskScoringRequest.anomaly_flags request) as [[|flag flags]|];
    destruct (RiskScoringRequest.signal_quality_score request) as [q|];
    destruct (RiskScoringRequest.historical_trends request) as [[|item ht]|];
    cbn [truthy app]; rewrite ?app_nil_r; reflexivity.
Qed.

Lemma dict_mem_item {V} (k : string) (d : dict V) :
  dict_mem k d = true -> exists v, dict_item k d = Ok v.
Proof.
  unfold dict_mem, dict_item. destruct (dict_get k d); [eauto | discriminate].
Qed.

(** With the registered parameters no lookup of a weight fails. *)
Lemma analyze_vital_metrics_total (vm : dict Q) (ht : option (dict (list Q))) :
  exists fs, _analyze_vital_metrics registered_service vm ht = Ok fs.
Proof.
  unfold _analyze_vital_metrics, result_bind.
  change (dict_item "heart_rate_weight" (params registered_service)) with (Ok 0.4).
  change (dict_item "temperature_weight" (params registered_service)) with (Ok 0.3).
  change (dict_item "oxygen_saturation_weight" (params registered_service)) with (Ok 0.3).
  cbv zeta.
  repeat match goal with
         | |- context [dict_mem ?k vm] =>
             let E := fresh "E" in
             destruct (dict_mem k vm) eqn:E; cbv beta iota; cbn [orb];
             [ let v := fresh "v" in destruct (dict_mem_item _ _ E) as [v ->] | ]
         end;
    eexists; reflexivity.
Qed.

Lemma calculate_risk_total (request : RiskScoringRequest.t) (w : World) :
  exists resp w', calculate_risk registered_service request w = (Ok resp, w').
Proof.
  unfold calculate_risk, bind, lift_result, utcnow, ret.
  destruct (analyze_vital_metrics_total
              (RiskScoringRequest.vital_metrics request)
              (RiskScoringRequest.historical_trends request)) as [fs ->].
  eauto.
Qed.

(** So the validity window is exactly one hour from [assessed_at] only
    if the clock did not advance between its two readings. *)
Lemma valid_until_exact_iff (self : self) (request : RiskScoringRequest.t)
    (w w' : World) (resp : RiskScoringResponse.t) :
  (1 <= RiskScoringRequest.time_window_hours request <= 168)%Z ->
  calculate_risk self request w = (Ok resp, w') ->
  RiskScoringResponse.valid_until resp
    = (RiskScoringResponse.assessed_at resp + timedelta_hours 1)%Z <->
  clock w (S (clock_reads w)) = clock w (clock_reads w).
Proof.
  intros Hh Hrun.
  destruct (calculate_risk_timestamps _ _ _ _ _ Hh Hrun) as [-> ->].
  split; intros H; lia.
Qed.

(** C2.  On the scenario request (window 24 hours), with a clock that
    advances by one microsecond between its two readings, the response
    has [valid_until] one microsecond short of [assessed_at] plus
    [min(24, 1)] hours. *)
Theorem valid_until_short_of_assessed_at_plus_hour :
  exists resp w',
    calculate_risk registered_service scenario_request
      (start_world (ticking_clock 1705314600000000%Z)) = (Ok resp, w') /\
    RiskScoringResponse.assessed_at resp = 1705314600000001%Z /\
    RiskScoringResponse.valid_until resp = 1705318200000000%Z /\
    RiskScoringResponse.valid_until resp <>
      (RiskScoringResponse.assessed_at resp
       + timedelta_hours
           (Z.min (RiskScoringRequest.time_window_hours scenario_request) 1))%Z.
Proof.
  destruct (calculate_risk_total scenario_request
              (start_world (ticking_clock 1705314600000000%Z)))
    as (resp & w' & Hrun).
  exists resp, w'. split; [exact Hrun|].
  assert (Hwin : (1 <= RiskScoringRequest.time_window_hours scenario_request <= 168)%Z)
    by (simpl; lia).
  destruct (calculate_risk_timestamps _ _ _ _ _ Hwin Hrun) as [Hv Ha].
  rewrite Hv, Ha. cbn. repeat split. discriminate.
Qed.

(** C6.  On every valid request the registered service returns a
    response, and in it every factor score, the overall risk score and
    the confidence lie in [0,1]. *)
Theorem risk_scores_in_unit_interval (request : RiskScoringRequest.t) (w : World) :
  valid_request request ->
  exists resp w',
    calculate_risk registered_service request w = (Ok resp, w') /\
    Forall (fun f => unit_interval (RiskFactors.factor_score f))
           (RiskScoringResponse.risk_factors resp) /\
    unit_interval (RiskScoringResponse.overall_risk_score resp) /\
    unit_interval (RiskScoringResponse.confidence resp).
Proof.
  intros [Hq _].
  destruct (calculate_risk_total request w) as (resp & w' & Hrun).
  exists resp, w'. split; [exact Hrun|].
  destruct (calculate_risk_factors _ _ _ _ _ Hrun) as (vital & Hv & Hfs & Hs & Hc).
  split; [|split].
  - rewrite Hfs. apply Forall_app. split; [apply Forall_app; split|];
      [apply Forall_app; split| |].
    + exact (analyze_vital_metrics_unit _ _ _ _ Hv).
    + destruct (RiskScoringRequest.anomaly_flags request) as [[|flag flags]|];
        try apply Forall_nil. apply analyze_anomaly_flags_unit.
    + destruct (RiskScoringRequest.signal_quality_score request) as [q|];
        [|apply Forall_nil].
      apply Forall_cons; [|apply Forall_nil].
      apply analyze_signal_quality_unit. apply Hq. reflexivity.
    + destruct (RiskScoringRequest.historical_trends request) as [[|item ht]|];
        try apply Forall_nil. apply analyze_trends_unit.
  - rewrite Hs. apply calculate_overall_risk_score_unit.
  - rewrite Hc. apply calculate_confidence_unit.
Qed.

Lemma risk_scores_in_unit_interval_witness :
  exists resp w',
    calculate_risk registered_service scenario_request
      (start_world (ticking_clock 0%Z)) = (Ok resp, w') /\
    Forall (fun f => unit_interval (RiskFactors.factor_score f))
           (RiskScoringResponse.risk_factors resp) /\
    unit_interval (RiskScoringResponse.overall_risk_score resp) /\
    unit_interval (RiskScoringResponse.confidence resp).
Proof.
  apply (risk_scores_in_unit_interval scenario_request
           (start_world (ticking_clock 0%Z))).
  split.
  - intros q [= <-]. unfold Qle; simpl; lia.
  - simpl. lia.
Defined.

End RiskScoringFacts.
(** ** Anomaly detection *)

Module AnomalyDetectionFacts.

Import ModelConfigPy.
Import AnomalyDetectionService.
Import anomaly_detection_service.
Import AnomalyDetectionSpec.

Section WithNumpy.

Context {np : Numpy}.

(** *** The outlier detector *)

Lemma z_scores_of_length (values : list Q) (mean std : Q) :
  List.length (z_scores_of values mean std) = List.length values.
Proof. unfold z_scores_of. destruct (Qltb 0 std); apply length_map. Qed.

Lemma z_scores_of_nth (values : list Q) (mean std : Q) (idx : nat) :
  0 < std -> (idx < List.length values)%nat ->
  nth idx (z_scores_of values mean std) 0 = Qabs ((nth idx values 0 - mean) / std).
Proof.
  intros Hstd Hidx. unfold z_scores_of.
  apply Qltb_lt in Hstd. rewrite Hstd.
  rewrite (nth_indep _ 0 (Qabs ((0 - mean) / std))) by (rewrite length_map; exact Hidx).
  apply (map_nth (fun v => Qabs ((v - mean) / std))).
Qed.

(** An index is an outlier index exactly when its z-score is strictly
    above the threshold. *)
Lemma outlier_indices_spec (z_scores : list Q) (thr : Q) (idx : nat) :
  In idx (outlier_indices_of z_scores thr) <->
  (idx < List.length z_scores)%nat /\ thr < nth idx z_scores 0.
Proof.
  unfold outlier_indices_of. rewrite np_where_spec, nth_error_map.
  split.
  - destruct (nth_error z_scores idx) as [z|] eqn:E; [|discriminate].
    cbn [option_map]. intros [= H].
    assert (Hlt : (idx < List.length z_scores)%nat)
      by (apply nth_error_Some; congruence).
    split; [exact Hlt|].
    rewrite (nth_error_nth _ _ 0 E). apply Qltb_lt. exact H.
  - intros [Hlt Hz].
    destruct (nth_error z_scores idx) as [z|] eqn:E.
    + cbn [option_map]. rewrite (nth_error_nth _ _ 0 E) in Hz.
      apply Qltb_lt in Hz. rewrite Hz. reflexivity.
    + apply nth_error_None in E. lia.
Qed.

(** What the body of the outlier loop does at an index with a timestamp,
    when the threshold is not zero: it drops the point if the confidence
    is below the floor and reports it otherwise. *)
Lemma outlier_at_run (self : self) (metric_name : string) (values : list Q)
    (timestamps : list datetime) (mean std : Q) (z_scores : list Q) (idx : nat)
    (t : datetime) :
  ~ Z_SCORE_THRESHOLD (thresholds self) == 0 ->
  nth_error timestamps idx = Some t ->
  let thr := Z_SCORE_THRESHOLD (thresholds self) in
  let z := nth idx z_scores 0 in
  let confidence := py_min 1.0 (0.7 + (z - thr) * 0.1) in
  outlier_at self metric_name values timestamps mean std z_scores idx =
  Ok (if Qltb confidence (MIN_CONFIDENCE_FOR_ALERT (thresholds self)) then []
      else [{| AnomalyResult.anomaly_type :=
                 _determine_anomaly_type self metric_name (nth idx values 0) mean;
               AnomalyResult.severity := py_min 1.0 (z / (thr * 2));
               AnomalyResult.confidence := confidence;
               AnomalyResult.description :=
                 _generate_explanation self metric_name (nth idx values 0) mean std z;
               AnomalyResult.detected_at := t;
               AnomalyResult.affected_metrics := [metric_name];
               AnomalyResult.context :=
                 Some (OutlierContext mean std (nth idx values 0) z thr
                         (value (model_version self))
                         (_generate_explanation self metric_name
                            (nth idx values 0) mean std z)) |}]).
Proof.
  intros Hthr Ht thr z confidence. unfold outlier_at, py_div, list_item.
  fold thr. fold z.
  assert (Hdiv : Qeq_bool (thr * 2) 0 = false).
  { destruct (Qeq_bool (thr * 2) 0) eqn:E; [|reflexivity].
    apply Qeq_bool_iff in E. exfalso. apply Hthr. fold thr. lra. }
  rewrite Hdiv. cbn [result_bind]. fold confidence.
  destruct (Qltb confidence (MIN_CONFIDENCE_FOR_ALERT (thresholds self)));
    [reflexivity|].
  rewrite Ht. reflexivity.
Qed.

(** The outlier loop returns when the threshold is not zero and the
    timestamps cover the series; each anomaly it reports is the one that
    the body builds at an outlier index. *)
Lemma outlier_loop_run (self : self) (metric_name : string) (values : list Q)
    (timestamps : list datetime) (mean std : Q) :
  ~ Z_SCORE_THRESHOLD (thresholds self) == 0 ->
  (List.length values <= List.length timestamps)%nat ->
  let z_scores := z_scores_of values mean std in
  let idxs := outlier_indices_of z_scores (Z_SCORE_THRESHOLD (thresholds self)) in
  let body := outlier_at self metric_name values timestamps mean std z_scores in
  exists outs,
    for_each body idxs = Ok outs /\
    picked (fun idx a => In idx idxs /\ body idx = Ok [a]) idxs outs /\
    (forall idx a, In idx idxs -> body idx = Ok [a] -> In a outs).
Proof.
  intros Hthr Hcov z_scores idxs body.
  apply for_each_picked_total. intros idx Hidx.
  apply outlier_indices_spec in Hidx. destruct Hidx as [Hlt _].
  unfold z_scores in Hlt. rewrite z_scores_of_length in Hlt.
  destruct (nth_error timestamps idx) as [t|] eqn:Et.
  - unfold body. rewrite (outlier_at_run _ _ _ _ _ _ _ _ _ Hthr Et).
    destruct (Qltb _ _); [left; reflexivity | right; eexists; reflexivity].
  - apply nth_error_None in Et. lia.
Qed.

(** *** The trend detector *)

Lemma trend_at_run (self : self) (metric_name : string) (timestamps : list datetime)
    (mean : Q) (window_size : nat) (rolling_mean : list Q) (i : nat) (t : datetime) :
  nth_error timestamps (i + window_size - 1) = Some t ->
  let change := Qabs (nth i rolling_mean 0 - nth (i - 1) rolling_mean 0) in
  let threshold := Qabs mean * TREND_CHANGE_THRESHOLD (thresholds self) in
  let confidence :=
    py_min_np 1.0
      (np_affine (fun x => 0.75 + x)
         (np_affine (fun x => x * 0.1)
            (np_affine (fun x => x - 1) (np_div change threshold)))) in
  let explanation :=
    [Lit ("Sudden change in " ++ metric_name ++ ": "); Fmt ".2f" change;
     Lit " (threshold: "; Fmt ".2f" threshold;
     Lit ", baseline: "; Fmt ".2f" mean; Lit ")"] in
  trend_at self metric_name timestamps mean window_size rolling_mean i =
  Ok (if Qltb threshold change then
        if Qltb confidence (MIN_CONFIDENCE_FOR_ALERT (thresholds self)) then []
        else [{| AnomalyResult.anomaly_type := AnomalyType.PATTERN_DEVIATION;
                 AnomalyResult.severity :=
                   py_min_np 1.0 (np_div change (Qabs mean * 0.5));
                 AnomalyResult.confidence := confidence;
                 AnomalyResult.description := explanation;
                 AnomalyResult.detected_at := t;
                 AnomalyResult.affected_metrics := [metric_name];
                 AnomalyResult.context :=
                   Some (TrendContext change mean threshold
                           (value (model_version self)) explanation) |}]
      else []).
Proof.
  intros Ht change threshold confidence explanation. unfold trend_at, list_item.
  fold change. fold threshold. fold confidence.
  destruct (Qltb threshold change); [|reflexivity].
  destruct (Qltb confidence (MIN_CONFIDENCE_FOR_ALERT (thresholds self)));
    [reflexivity|].
  rewrite Ht. reflexivity.
Qed.

Lemma window_size_bounds (n : nat) :
  (5 <= n)%nat -> (2 <= Nat.min 3 (n / 2) <= 3)%nat /\ (Nat.min 3 (n / 2) <= n)%nat.
Proof.
  intros Hn.
  assert (H2 : (2 <= n / 2)%nat) by (apply Nat.div_le_lower_bound; lia).
  lia.
Qed.

Lemma rolling_mean_length (values : list Q) :
  (5 <= List.length values)%nat ->
  let window_size := Nat.min 3 (List.length values / 2) in
  List.length
    (np_convolve_valid values
       (map (fun one => one / inject_Z (Z.of_nat window_size)) (repeat 1 window_size)))
  = (S (List.length values) - window_size)%nat.
Proof.
  intros Hn window_size.
  destruct (window_size_bounds _ Hn) as [[Hlo Hhi] Hle]. fold window_size in Hlo, Hhi, Hle.
  rewrite np_convolve_valid_length; rewrite length_map, repeat_length; lia.
Qed.

(** The trend detector returns when the timestamps cover the series; each
    anomaly it reports is the one that the body builds at a step. *)
Lemma detect_trend_anomalies_run (self : self) (metric_name : string)
    (values : list Q) (timestamps : list datetime) (mean : Q) :
  (List.length values <= List.length timestamps)%nat ->
  let window_size := Nat.min 3 (List.length values / 2) in
  let rolling_mean :=
    np_convolve_valid values
      (map (fun one => one / inject_Z (Z.of_nat window_size)) (repeat 1 window_size)) in
  let steps := seq 1 (List.length rolling_mean - 1) in
  let body := trend_at self metric_name timestamps mean window_size rolling_mean in
  exists trends,
    _detect_trend_anomalies self metric_name values timestamps mean = Ok trends /\
    picked (fun i a => In i steps /\ body i = Ok [a]) steps trends /\
    ((5 <= List.length values)%nat ->
     forall i a, In i steps -> body i = Ok [a] -> In a trends) /\
    ((List.length values < 5)%nat -> trends = []).
Proof.
  intros Hcov window_size rolling_mean steps body. unfold _detect_trend_anomalies.
  destruct (List.length values <? 5)%nat eqn:E.
  - apply Nat.ltb_lt in E. exists []. repeat split; [apply picked_none | lia].
  - apply Nat.ltb_ge in E. fold window_size. fold rolling_mean. fold body. fold steps.
    destruct (for_each_picked_total body steps) as (trends & Hrun & Hpick & Hin).
    + intros i Hi. unfold steps in Hi. apply in_seq in Hi.
      assert (Hlen : List.length rolling_mean = (S (List.length values) - window_size)%nat)
        by (apply rolling_mean_length; exact E).
      destruct (window_size_bounds _ E) as [[Hlo Hhi] Hle].
      fold window_size in Hlo, Hhi, Hle.
      destruct (nth_error timestamps (i + window_size - 1)) as [t|] eqn:Et.
      * unfold body. rewrite (trend_at_run _ _ _ _ _ _ _ _ Et).
        destruct (Qltb _ _); [|left; reflexivity].
        destruct (Qltb _ _); [left; reflexivity | right; eexists; reflexivity].
      * apply nth_error_None in Et. lia.
    + exists trends. repeat split; [exact Hrun | exact Hpick | intros _; exact Hin | lia].
Qed.

(** *** The cross-metric detector *)

Lemma cross_at_run (self : self) (timestamps : list datetime)
    (hr_values temp_values : list Q) (i : nat) (t : datetime) :
  nth_error timestamps i = Some t ->
  let hr_threshold := np_mean hr_values * 1.2 in
  let temp_threshold := np_mean temp_values * 1.1 in
  let explanation :=
    [Lit "Simultaneous elevation detected: heart rate ";
     Fmt ".0f" (nth i hr_values 0); Lit " bpm (normal: ";
     Fmt ".0f" (np_mean hr_values); Lit "±"; Fmt ".0f" (np_std hr_values);
     Lit "), temperature "; Fmt ".2f" (nth i temp_values 0);
     Lit "°C (normal: "; Fmt ".2f" (np_mean temp_values); Lit "±";
     Fmt ".2f" (np_std temp_values); Lit ")"] in
  cross_at self timestamps hr_values temp_values i =
  Ok (if Qltb hr_threshold (nth i hr_values 0)
         && Qltb temp_threshold (nth i temp_values 0)
      then [{| AnomalyResult.anomaly_type := AnomalyType.PATTERN_DEVIATION;
               AnomalyResult.severity := 0.7;
               AnomalyResult.confidence := 0.8;
               AnomalyResult.description := explanation;
               AnomalyResult.detected_at := t;
               AnomalyResult.affected_metrics := ["heart_rate"; "temperature"];
               AnomalyResult.context :=
                 Some (CrossMetricContext (nth i hr_values 0) (nth i temp_values 0)
                         hr_threshold temp_threshold
                         (value (model_version self)) explanation) |}]
      else []).
Proof.
  intros Ht hr_threshold temp_threshold explanation. unfold cross_at, list_item.
  fold hr_threshold. fold temp_threshold.
  destruct (Qltb hr_threshold (nth i hr_values 0)
            && Qltb temp_threshold (nth i temp_values 0)); [|reflexivity].
  rewrite Ht. reflexivity.
Qed.

Lemma dict_get_In {V} (k : string) (d : dict V) (v : V) :
  dict_get k d = Some v -> In (k, v) d.
Proof.
  induction d as [|[k' v'] d IH]; cbn [dict_get]; [discriminate|].
  destruct (String.eqb k k') eqn:E.
  - apply String.eqb_eq in E. intros [= ->]. left. congruence.
  - intros H. right. apply IH. exact H.
Qed.

(** The cross-metric detector returns when the timestamps cover the two
    series; each anomaly it reports is the one that the body builds at an
    index of the heart rate series. *)
Lemma detect_cross_metric_anomalies_run (self : self)
    (data : dict (list Q)) (timestamps : list datetime) :
  Forall (fun item : string * list Q =>
            (List.length (snd item) <= List.length timestamps)%nat) data ->
  exists cross,
    _detect_cross_metric_anomalies self data timestamps = Ok cross /\
    exists hr_values temp_values,
      picked (fun i a => cross_at self timestamps hr_values temp_values i = Ok [a])
             (seq 0 (List.length hr_values)) cross.
Proof.
  intros Hcov. unfold _detect_cross_metric_anomalies.
  destruct (dict_get "heart_rate" data) as [hr_values|] eqn:Ehr;
    [|exists []; split; [reflexivity | exists [], []; apply picked_none]].
  destruct (dict_get "temperature" data) as [temp_values|] eqn:Et;
    [|exists []; split; [reflexivity | exists [], []; apply picked_none]].
  destruct ((List.length hr_values =? List.length temp_values)%nat
            && (0 <? List.length hr_values)%nat);
    [|exists []; split; [reflexivity | exists [], []; apply picked_none]].
  assert (Hlen : (List.length hr_values <= List.length timestamps)%nat).
  { apply dict_get_In in Ehr. rewrite Forall_forall in Hcov.
    exact (Hcov _ Ehr). }
  destruct (for_each_picked_total (cross_at self timestamps hr_values temp_values)
              (seq 0 (List.length hr_values))) as (cross & Hrun & Hpick & _).
  - intros i Hi. apply in_seq in Hi.
    destruct (nth_error timestamps i) as [t|] eqn:Eti.
    + rewrite (cross_at_run _ _ _ _ _ _ Eti).
      destruct (_ && _); [right; eexists; reflexivity | left; reflexivity].
    + apply nth_error_None in Eti. lia.
  - exists cross. split; [exact Hrun|]. exists hr_values, temp_values.
    revert Hpick. apply picked_impl. intros i a [_ H]. exact H.
Qed.

(** *** One metric, then the whole request *)

(** What an anomaly reported by the outlier loop looks like. *)
Lemma outlier_at_inv (self : self) (metric_name : string) (values : list Q)
    (timestamps : list datetime) (mean std : Q) (z_scores : list Q) (idx : nat)
    (a : AnomalyResult.t) :
  outlier_at self metric_name values timestamps mean std z_scores idx = Ok [a] ->
  let thr := Z_SCORE_THRESHOLD (thresholds self) in
  let z := nth idx z_scores 0 in
  nth_error timestamps idx = Some (AnomalyResult.detected_at a) /\
  AnomalyResult.affected_metrics a = [metric_name] /\
  AnomalyResult.context a =
    Some (OutlierContext mean std (nth idx values 0) z thr
            (value (model_version self))
            (_generate_explanation self metric_name (nth idx values 0) mean std z)) /\
  AnomalyResult.severity a = py_min 1.0 (z / (thr * 2)) /\
  AnomalyResult.confidence a = py_min 1.0 (0.7 + (z - thr) * 0.1) /\
  MIN_CONFIDENCE_FOR_ALERT (thresholds self) <= AnomalyResult.confidence a.
Proof.
  unfold outlier_at, py_div, list_item. cbv zeta.
  destruct (Qeq_bool _ 0); [discriminate|]. cbn [result_bind].
  destruct (Qltb _ (MIN_CONFIDENCE_FOR_ALERT _)) eqn:E; [discriminate|].
  destruct (nth_error timestamps idx) as [t|]; [|discriminate].
  cbn [result_bind]. intros [= <-]. cbn. apply Qltb_ge in E. repeat split. exact E.
Qed.

(** What an anomaly reported by the trend loop looks like. *)
Lemma trend_at_inv (self : self) (metric_name : string) (timestamps : list datetime)
    (mean : Q) (window_size : nat) (rolling_mean : list Q) (i : nat)
    (a : AnomalyResult.t) :
  trend_at self metric_name timestamps mean window_size rolling_mean i = Ok [a] ->
  let change := Qabs (nth i rolling_mean 0 - nth (i - 1) rolling_mean 0) in
  let threshold := Qabs mean * TREND_CHANGE_THRESHOLD (thresholds self) in
  threshold < change /\
  nth_error timestamps (i + window_size - 1) = Some (AnomalyResult.detected_at a) /\
  AnomalyResult.affected_metrics a = [metric_name] /\
  detector_of a = Some Trend /\
  AnomalyResult.severity a = py_min_np 1.0 (np_div change (Qabs mean * 0.5)) /\
  AnomalyResult.confidence a =
    py_min_np 1.0
      (np_affine (fun x => 0.75 + x)
         (np_affine (fun x => x * 0.1)
            (np_affine (fun x => x - 1) (np_div change threshold)))).
Proof.
  unfold trend_at, list_item. cbv zeta.
  destruct (Qltb _ (Qabs _)) eqn:E; [|discriminate].
  destruct (Qltb _ (MIN_CONFIDENCE_FOR_ALERT _)); [discriminate|].
  destruct (nth_error timestamps _) as [t|]; [|discriminate].
  cbn [result_bind]. intros [= <-]. cbn. apply Qltb_lt in E. repeat split. exact E.
Qed.

(** What an anomaly reported by the cross-metric loop looks like. *)
Lemma cross_at_inv (self : self) (timestamps : list datetime)
    (hr_values temp_values : list Q) (i : nat) (a : AnomalyResult.t) :
  cross_at self timestamps hr_values temp_values i = Ok [a] ->
  nth_error timestamps i = Some (AnomalyResult.detected_at a) /\
  detector_of a = Some CrossMetric /\
  AnomalyResult.severity a = 0.7 /\
  AnomalyResult.confidence a = 0.8.
Proof.
  unfold cross_at, list_item. cbv zeta.
  destruct (_ && _); [|discriminate].
  destruct (nth_error timestamps i) as [t|]; [|discriminate].
  cbn [result_bind]. intros [= <-]. cbn. repeat split.
Qed.

(** The detector of one metric returns when the threshold is not zero and
    the timestamps cover the series: first what the outlier loop reports,
    then what the trend loop reports. *)
Lemma detect_metric_anomalies_run (self : self) (metric_name : string)
    (values : list Q) (timestamps : list datetime)
    (baseline_stats : option (dict (dict Q))) (mean std : Q) :
  ~ Z_SCORE_THRESHOLD (thresholds self) == 0 ->
  (List.length values <= List.length timestamps)%nat ->
  baseline_of metric_name values baseline_stats = (mean, std) ->
  let z_scores := z_scores_of values mean std in
  let idxs := outlier_indices_of z_scores (Z_SCORE_THRESHOLD (thresholds self)) in
  let window_size := Nat.min 3 (List.length values / 2) in
  let rolling_mean :=
    np_convolve_valid values
      (map (fun one => one / inject_Z (Z.of_nat window_size)) (repeat 1 window_size)) in
  let steps := seq 1 (List.length rolling_mean - 1) in
  let outlier_body := outlier_at self metric_name values timestamps mean std z_scores in
  let trend_body := trend_at self metric_name timestamps mean window_size rolling_mean in
  exists outliers trends,
    _detect_metric_anomalies self metric_name values timestamps baseline_stats
      = Ok (outliers ++ trends)%list /\
    picked (fun idx a => In idx idxs /\ outlier_body idx = Ok [a]) idxs outliers /\
    picked (fun i a => In i steps /\ trend_body i = Ok [a]) steps trends /\
    ((3 <= List.length values)%nat ->
     forall idx a, In idx idxs -> outlier_body idx = Ok [a] -> In a outliers) /\
    ((5 <= List.length values)%nat ->
     forall i a, In i steps -> trend_body i = Ok [a] -> In a trends) /\
    ((List.length values < 5)%nat -> trends = []).
Proof.
  intros Hthr Hcov Hbase z_scores idxs window_size rolling_mean steps
         outlier_body trend_body.
  unfold _detect_metric_anomalies.
  destruct (List.length values <? 3)%nat eqn:E3.
  { apply Nat.ltb_lt in E3. exists [], [].
    repeat split; try apply picked_none; intros; lia. }
  rewrite Hbase.
  destruct (outlier_loop_run self metric_name values timestamps mean std Hthr Hcov)
    as (outliers & Hrun & Hpick & Hin).
  fold z_scores idxs outlier_body in Hrun, Hpick, Hin.
  fold z_scores. fold idxs. fold outlier_body. rewrite Hrun. cbn [result_bind app].
  destruct (5 <=? List.length values)%nat eqn:E5.
  - destruct (detect_trend_anomalies_run self metric_name values timestamps mean Hcov)
      as (trends & Htrun & Htpick & Htin & Htnil).
    fold window_size rolling_mean steps trend_body in Htpick, Htin.
    rewrite Htrun. cbn [result_bind].
    exists outliers, trends. repeat split; try assumption. intros _. exact Hin.
  - apply Nat.leb_gt in E5. exists outliers, []. rewrite app_nil_r.
    repeat split; try assumption; try apply picked_none.
    + intros _. exact Hin.
    + intros; lia.
Qed.

(** The anomalies of one metric form a block: outliers by ascending
    index, then trend anomalies by ascending step. *)
Lemma detect_metric_anomalies_block (self : self) (timestamps : list datetime)
    (baseline_stats : option (dict (dict Q))) (item : string * list Q) :
  ~ Z_SCORE_THRESHOLD (thresholds self) == 0 ->
  (List.length (snd item) <= List.length timestamps)%nat ->
  exists block,
    (let (metric_name, values) := item in
     _detect_metric_anomalies self metric_name values timestamps baseline_stats)
    = Ok block /\
    metric_block timestamps item block.
Proof.
  destruct item as [metric_name values]. cbn [snd]. intros Hthr Hcov.
  destruct (baseline_of metric_name values baseline_stats) as [mean std] eqn:Hbase.
  destruct (detect_metric_anomalies_run self metric_name values timestamps
              baseline_stats mean std Hthr Hcov Hbase)
    as (outliers & trends & Hrun & Hpick & Htpick & _ & _ & Hnil).
  exists (outliers ++ trends)%list. split; [exact Hrun|].
  unfold metric_block. exists outliers, trends. split; [reflexivity|]. split.
  - rewrite <- (z_scores_of_length values mean std).
    rewrite <- (length_map (fun z => Qltb (Z_SCORE_THRESHOLD (thresholds self)) z)).
    apply picked_np_where. revert Hpick. apply picked_impl.
    intros idx a [_ Hbody]. apply outlier_at_inv in Hbody.
    destruct Hbody as (Ht & Hm & Hc & _).
    unfold outlier_of_point. repeat split; [exact Ht | exact Hm |].
    do 6 eexists. exact Hc.
  - destruct (Nat.lt_ge_cases (List.length values) 5) as [Hlt | Hge].
    + rewrite (Hnil Hlt). apply picked_none.
    + pose proof (rolling_mean_length values Hge) as Hlen. cbv zeta in Hlen.
      rewrite Hlen in Htpick.
      destruct (window_size_bounds _ Hge) as [[Hlo Hhi] Hle].
      replace (S (List.length values) - Nat.min 3 (List.length values / 2) - 1)%nat
        with (List.length values - Nat.min 3 (List.length values / 2))%nat
        in Htpick by lia.
      revert Htpick. apply picked_impl.
      intros i a [_ Hbody]. apply trend_at_inv in Hbody.
      destruct Hbody as (_ & Ht & Hm & Hd & _).
      unfold trend_of_step. repeat split; assumption.
Qed.

(** The service returns when the threshold is not zero and the timestamps
    cover every series.  The anomalies of the response are the blocks of
    the metrics, in the order of the request, then the cross-metric
    anomalies by ascending index; the score is computed from that list. *)
Lemma detect_anomalies_run (self : self) (request : AnomalyDetectionRequest.t)
    (w : World) :
  ~ Z_SCORE_THRESHOLD (thresholds self) == 0 ->
  covers request ->
  exists resp w' blocks cross n,
    detect_anomalies self request w = (Ok resp, w') /\
    AnomalyDetectionResponse.anomalies resp = (List.concat blocks ++ cross)%list /\
    Forall2 (metric_block (AnomalyDetectionRequest.timestamps request))
            (AnomalyDetectionRequest.time_series_data request) blocks /\
    picked (cross_of_index (AnomalyDetectionRequest.timestamps request))
           (seq 0 n) cross /\
    AnomalyDetectionResponse.overall_risk_score resp =
      _calculate_overall_risk self (AnomalyDetectionResponse.anomalies resp).
Proof.
  intros Hthr Hcov. unfold detect_anomalies, bind, lift_result, utcnow, ret.
  destruct (for_each_related
              (metric_block (AnomalyDetectionRequest.timestamps request))
              (fun item : string * list Q =>
                 let (metric_name, values) := item in
                 _detect_metric_anomalies self metric_name values
                   (AnomalyDetectionRequest.timestamps request)
                   (AnomalyDetectionRequest.baseline_stats request))
              (AnomalyDetectionRequest.time_series_data request))
    as (blocks & Hrun & Hblocks).
  { intros item Hitem. apply detect_metric_anomalies_block; [exact Hthr|].
    unfold covers in Hcov. rewrite Forall_forall in Hcov. exact (Hcov item Hitem). }
  rewrite Hrun.
  destruct (detect_cross_metric_anomalies_run self
              (AnomalyDetectionRequest.time_series_data request)
              (AnomalyDetectionRequest.timestamps request) Hcov)
    as (cross & Hcross & hr_values & temp_values & Hpick).
  rewrite Hcross.
  eexists. eexists. exists blocks, cross, (List.length hr_values).
  split; [reflexivity|]. cbn [AnomalyDetectionResponse.anomalies
                              AnomalyDetectionResponse.overall_risk_score app].
  repeat apply conj; try reflexivity; try assumption.
  revert Hpick. apply picked_impl. intros i a Hbody.
  apply cross_at_inv in Hbody. destruct Hbody as (Ht & Hd & _).
  split; assumption.
Qed.

(** *** Severity and confidence of what is reported *)

Lemma outlier_scores (thr z : Q) :
  0 < thr -> thr < z ->
  unit_interval (py_min 1.0 (z / (thr * 2))) /\
  0.7 <= py_min 1.0 (0.7 + (z - thr) * 0.1) <= 1.
Proof.
  intros Hthr Hz. unfold unit_interval, py_min.
  assert (Hpos : 0 <= z / (thr * 2)).
  { apply Qle_shift_div_l; lra. }
  cmp_cases; lra.
Qed.

Lemma np_div_cases (x d : Q) :
  0 <= x -> 0 <= d ->
  np_div x d = PosInf \/ np_div x d = NaN \/
  (0 < d /\ np_div x d = Finite (x / d) /\ 0 <= x / d).
Proof.
  intros Hx Hd. unfold np_div.
  destruct (Qeq_bool d 0) eqn:E.
  - destruct (Qltb 0 x); auto.
  - apply Qeq_bool_neq in E. right. right.
    assert (Hpos : 0 < d) by (apply Qle_lteq in Hd; destruct Hd as [H | H];
                              [exact H | exfalso; apply E; symmetry; exact H]).
    repeat split; [exact Hpos|]. apply Qle_shift_div_l; lra.
Qed.

Lemma trend_severity_unit (change den : Q) :
  0 <= change -> 0 <= den ->
  unit_interval (py_min_np 1.0 (np_div change den)).
Proof.
  intros Hc Hd. unfold unit_interval.
  destruct (np_div_cases change den Hc Hd) as [-> | [-> | (_ & -> & Hpos)]];
    cbn [py_min_np]; unfold py_min; cmp_cases; lra.
Qed.

Lemma trend_confidence_bounds (change threshold : Q) :
  0 <= threshold -> threshold < change ->
  0.75 < py_min_np 1.0
           (np_affine (fun x => 0.75 + x)
              (np_affine (fun x => x * 0.1)
                 (np_affine (fun x => x - 1) (np_div change threshold)))) <= 1.
Proof.
  intros Ht Hc.
  destruct (np_div_cases change threshold) as [-> | [-> | (Hpos & -> & _)]];
    [lra | exact Ht | | |]; cbn [np_affine py_min_np]; try lra.
  assert (Hratio : 1 < change / threshold).
  { apply Qlt_shift_div_l; lra. }
  unfold py_min. cmp_cases; lra.
Qed.


(** C5, as the service orders them.  When the timestamps cover every
    series, the registered service returns a response whose anomalies are,
    for each metric in the order of the request, the outliers of that
    metric by ascending index followed by the trend anomalies of that
    metric by ascending step, and after the last metric the cross-metric
    anomalies by ascending index. *)
Theorem anomalies_in_metric_blocks (request : AnomalyDetectionRequest.t) (w : World) :
  covers request ->
  exists resp w',
    detect_anomalies registered_service request w = (Ok resp, w') /\
    exists blocks cross n,
      AnomalyDetectionResponse.anomalies resp = (List.concat blocks ++ cross)%list /\
      Forall2 (metric_block (AnomalyDetectionRequest.timestamps request))
              (AnomalyDetectionRequest.time_series_data request) blocks /\
      picked (cross_of_index (AnomalyDetectionRequest.timestamps request))
             (seq 0 n) cross.
Proof.
  intros Hcov.
  destruct (detect_anomalies_run registered_service request w)
    as (resp & w' & blocks & cross & n & Hrun & Hanom & Hblocks & Hcross & _).
  - intros H. discriminate H.
  - exact Hcov.
  - exists resp, w'. split; [exact Hrun|]. exists blocks, cross, n. auto.
Qed.

(** *** The overall risk score *)

Lemma weighted_severity_bounds (l : list AnomalyResult.t) :
  Forall within_schema l ->
  0 <= Qsum (map (fun a => AnomalyResult.severity a * AnomalyResult.confidence a) l)
    <= Qsum (map AnomalyResult.confidence l).
Proof.
  induction 1 as [|a l [[Hs0 Hs1] [Hc0 Hc1]] _ IH]; cbn [map Qsum fold_right].
  - lra.
  - unfold Qsum in IH. nra.
Qed.

(** On anomalies within the bounds of the schema, the score is the
    confidence-weighted mean of the severities: the cap at 1 is never
    reached. *)
Lemma calculate_overall_risk_weighted_mean (self : self) (l : list AnomalyResult.t) :
  Forall within_schema l ->
  (l = [] -> _calculate_overall_risk self l = 0.0) /\
  (Qsum (map AnomalyResult.confidence l) == 0 -> _calculate_overall_risk self l == 0) /\
  (0 < Qsum (map AnomalyResult.confidence l) ->
   _calculate_overall_risk self l == confidence_weighted_mean l).
Proof.
  intros Hl. pose proof (weighted_severity_bounds l Hl) as [Hlo Hhi].
  repeat apply conj.
  - intros ->. reflexivity.
  - intros Hz. unfold _calculate_overall_risk. destruct l as [|a l]; [reflexivity|].
    rewrite (proj2 (Qltb_ge _ _)) by lra. reflexivity.
  - intros Hpos. unfold _calculate_overall_risk, confidence_weighted_mean.
    destruct l as [|a l]; [cbn in Hpos; lra|].
    rewrite (proj2 (Qltb_lt _ _) Hpos).
    assert (Hle : Qsum (map (fun a => AnomalyResult.severity a * AnomalyResult.confidence a)
                            (a :: l))
                  / Qsum (map AnomalyResult.confidence (a :: l)) <= 1).
    { apply Qle_shift_div_r; lra. }
    unfold py_min. cmp_cases; lra.
Qed.

Lemma outlier_at_within_schema (metric_name : string) (values : list Q)
    (timestamps : list datetime) (mean std : Q) (z_scores : list Q)
    (idx : nat) (a : AnomalyResult.t) :
  3.0 < nth idx z_scores 0 ->
  outlier_at registered_service metric_name values timestamps mean std z_scores idx
  = Ok [a] ->
  within_schema a.
Proof.
  intros Hz Hbody. apply outlier_at_inv in Hbody.
  destruct Hbody as (_ & _ & _ & Hs & Hc & _).
  change (Z_SCORE_THRESHOLD (thresholds registered_service)) with 3.0 in Hs, Hc.
  unfold within_schema. rewrite Hs, Hc.
  destruct (outlier_scores 3.0 (nth idx z_scores 0)) as [H1 H2]; [lra | exact Hz |].
  split; [exact H1 | unfold unit_interval; lra].
Qed.

Lemma trend_at_within_schema (metric_name : string) (timestamps : list datetime)
    (mean : Q) (window_size : nat) (rolling_mean : list Q) (i : nat)
    (a : AnomalyResult.t) :
  trend_at registered_service metric_name timestamps mean window_size rolling_mean i
  = Ok [a] ->
  within_schema a.
Proof.
  intros Hbody. apply trend_at_inv in Hbody.
  destruct Hbody as (Hgt & _ & _ & _ & Hs & Hc).
  change (TREND_CHANGE_THRESHOLD (thresholds registered_service)) with 0.2 in Hgt, Hc.
  pose proof (Qabs_nonneg mean) as Hm.
  pose proof (Qabs_nonneg (nth i rolling_mean 0 - nth (i - 1) rolling_mean 0)) as Hch.
  unfold within_schema. rewrite Hs, Hc. split.
  - apply trend_severity_unit; lra.
  - destruct (trend_confidence_bounds
                (Qabs (nth i rolling_mean 0 - nth (i - 1) rolling_mean 0))
                (Qabs mean * 0.2))
      as [H1 H2]; [lra | exact Hgt |].
    unfold unit_interval. lra.
Qed.

Lemma cross_at_within_schema (self : self) (timestamps : list datetime)
    (hr_values temp_values : list Q) (i : nat) (a : AnomalyResult.t) :
  cross_at self timestamps hr_values temp_values i = Ok [a] ->
  within_schema a.
Proof.
  intros Hbody. apply cross_at_inv in Hbody. destruct Hbody as (_ & _ & Hs & Hc).
  unfold within_schema, unit_interval. rewrite Hs, Hc. lra.
Qed.

Lemma outlier_at_shape (self : self) (metric_name : string) (values : list Q)
    (timestamps : list datetime) (mean std : Q) (z_scores : list Q) (idx : nat)
    (ys : list AnomalyResult.t) :
  outlier_at self metric_name values timestamps mean std z_scores idx = Ok ys ->
  ys = [] \/ exists a, ys = [a].
Proof.
  unfold outlier_at, py_div, list_item. cbv zeta.
  destruct (Qeq_bool _ 0); [discriminate|]. cbn [result_bind].
  destruct (Qltb _ (MIN_CONFIDENCE_FOR_ALERT _)); [intros [= <-]; auto|].
  destruct (nth_error timestamps idx); [|discriminate].
  cbn [result_bind]. intros [= <-]. eauto.
Qed.

Lemma trend_at_shape (self : self) (metric_name : string) (timestamps : list datetime)
    (mean : Q) (window_size : nat) (rolling_mean : list Q) (i : nat)
    (ys : list AnomalyResult.t) :
  trend_at self metric_name timestamps mean window_size rolling_mean i = Ok ys ->
  ys = [] \/ exists a, ys = [a].
Proof.
  unfold trend_at, list_item. cbv zeta.
  destruct (Qltb _ (Qabs _)); [|intros [= <-]; auto].
  destruct (Qltb _ (MIN_CONFIDENCE_FOR_ALERT _)); [intros [= <-]; auto|].
  destruct (nth_error timestamps _); [|discriminate].
  cbn [result_bind]. intros [= <-]. eauto.
Qed.

Lemma cross_at_shape (self : self) (timestamps : list datetime)
    (hr_values temp_values : list Q) (i : nat) (ys : list AnomalyResult.t) :
  cross_at self timestamps hr_values temp_values i = Ok ys ->
  ys = [] \/ exists a, ys = [a].
Proof.
  unfold cross_at, list_item. cbv zeta.
  destruct (_ && _); [|intros [= <-]; auto].
  destruct (nth_error timestamps i); [|discriminate].
  cbn [result_bind]. intros [= <-]. eauto.
Qed.

Lemma detect_trend_anomalies_within_schema (metric_name : string) (values : list Q)
    (timestamps : list datetime) (mean : Q) (trends : list AnomalyResult.t) :
  _detect_trend_anomalies registered_service metric_name values timestamps mean
  = Ok trends ->
  Forall within_schema trends.
Proof.
  unfold _detect_trend_anomalies.
  destruct (List.length values <? 5)%nat; [intros [= <-]; constructor|].
  intros Hrun.
  eapply (picked_Forall (fun _ a => within_schema a)); [intros i a H; exact H|].
  eapply for_each_picked; [|exact Hrun].
  intros i ys _ Hbody. destruct (trend_at_shape _ _ _ _ _ _ _ _ Hbody) as [-> | [a ->]].
  - left. reflexivity.
  - right. exists a. split; [reflexivity|].
    eapply trend_at_within_schema. exact Hbody.
Qed.

Lemma detect_metric_anomalies_within_schema (metric_name : string) (values : list Q)
    (timestamps : list datetime) (baseline_stats : option (dict (dict Q)))
    (block : list AnomalyResult.t) :
  _detect_metric_anomalies registered_service metric_name values timestamps
    baseline_stats = Ok block ->
  Forall within_schema block.
Proof.
  unfold _detect_metric_anomalies.
  destruct (List.length values <? 3)%nat; [intros [= <-]; constructor|].
  destruct (baseline_of metric_name values baseline_stats) as [mean std].
  destruct (for_each _ _) as [outliers|] eqn:Eout; [|discriminate].
  cbn [result_bind app].
  assert (Hout : Forall within_schema outliers).
  { eapply (picked_Forall (fun _ a => within_schema a)); [intros i a H; exact H|].
    eapply for_each_picked; [|exact Eout].
    intros idx ys Hidx Hbody.
    destruct (outlier_at_shape _ _ _ _ _ _ _ _ _ Hbody) as [-> | [a ->]].
    - left. reflexivity.
    - right. exists a. split; [reflexivity|].
      apply outlier_indices_spec in Hidx. destruct Hidx as [_ Hz].
      eapply outlier_at_within_schema; [exact Hz | exact Hbody]. }
  destruct (5 <=? List.length values)%nat.
  - destruct (_detect_trend_anomalies _ _ _ _ _) as [trends|] eqn:Et; [|discriminate].
    cbn [result_bind]. intros [= <-]. apply Forall_app. split; [exact Hout|].
    eapply detect_trend_anomalies_within_schema. exact Et.
  - intros [= <-]. exact Hout.
Qed.

Lemma detect_cross_metric_anomalies_within_schema (self : self)
    (data : dict (list Q)) (timestamps : list datetime) (cross : list AnomalyResult.t) :
  _detect_cross_metric_anomalies self data timestamps = Ok cross ->
  Forall within_schema cross.
Proof.
  unfold _detect_cross_metric_anomalies.
  destruct (dict_get "heart_rate" data) as [hr_values|]; [|intros [= <-]; constructor].
  destruct (dict_get "temperature" data) as [temp_values|];
    [|intros [= <-]; constructor].
  destruct (_ && _); [|intros [= <-]; constructor].
  intros Hrun.
  eapply (picked_Forall (fun _ a => within_schema a)); [intros i a H; exact H|].
  eapply for_each_picked; [|exact Hrun].
  intros i ys _ Hbody. destruct (cross_at_shape _ _ _ _ _ _ Hbody) as [-> | [a ->]].
  - left. reflexivity.
  - right. exists a. split; [reflexivity|].
    eapply cross_at_within_schema. exact Hbody.
Qed.

(** Every anomaly that the registered service reports is within the
    bounds of the schema. *)
Lemma detect_anomalies_within_schema (request : AnomalyDetectionRequest.t)
    (w w' : World) (resp : AnomalyDetectionResponse.t) :
  detect_anomalies registered_service request w = (Ok resp, w') ->
  Forall within_schema (AnomalyDetectionResponse.anomalies resp).
Proof.
  unfold detect_anomalies, bind, lift_result, utcnow, ret.
  destruct (for_each _ _) as [metric_anomalies|] eqn:Em; [|discriminate].
  destruct (_detect_cross_metric_anomalies _ _ _) as [cross|] eqn:Ec; [|discriminate].
  intros [= <- _]. cbn [AnomalyDetectionResponse.anomalies app].
  apply Forall_app. split.
  - apply for_each_Ok_inv in Em. destruct Em as (blocks & Hblocks & ->).
    apply Forall_concat. clear Ec.
    induction Hblocks as [|[metric_name values] block data blocks Hb _ IH];
      constructor; [|exact IH].
    eapply detect_metric_anomalies_within_schema. exact Hb.
  - eapply detect_cross_metric_anomalies_within_schema. exact Ec.
Qed.

(** C8.  When the timestamps cover every series, the registered service
    returns a response whose overall risk score is the confidence-weighted
    mean of the severities of its anomalies: exactly 0.0 when there is no
    anomaly, 0 when the confidences sum to 0, and otherwise the sum of
    severity times confidence divided by the sum of the confidences. *)
Theorem overall_risk_is_weighted_mean (request : AnomalyDetectionRequest.t) (w : World) :
  covers request ->
  exists resp w',
    detect_anomalies registered_service request w = (Ok resp, w') /\
    let anomalies := AnomalyDetectionResponse.anomalies resp in
    let score := AnomalyDetectionResponse.overall_risk_score resp in
    (anomalies = [] -> score = 0.0) /\
    (Qsum (map AnomalyResult.confidence anomalies) == 0 -> score == 0) /\
    (0 < Qsum (map AnomalyResult.confidence anomalies) ->
     score ==
     Qsum (map (fun a => AnomalyResult.severity a * AnomalyResult.confidence a) anomalies)
     / Qsum (map AnomalyResult.confidence anomalies)).
Proof.
  intros Hcov.
  destruct (detect_anomalies_run registered_service request w)
    as (resp & w' & blocks & cross & n & Hrun & _ & _ & _ & Hscore).
  - intros H. discriminate H.
  - exact Hcov.
  - exists resp, w'. split; [exact Hrun|]. cbv zeta. rewrite Hscore.
    apply calculate_overall_risk_weighted_mean.
    eapply detect_anomalies_within_schema. exact Hrun.
Qed.

End WithNumpy.

(** The anomalies of the two-metric request: the outlier of the second
    metric comes after the trend anomaly of the first, so the list is not
    all outliers, then all trend anomalies, then the cross-metric ones. *)
Lemma anomalies_not_grouped_by_detector :
  match fst (@detect_anomalies sqrt6 registered_service two_metric_request
               (start_world (fun _ => 0%Z))) with
  | Ok resp =>
      map detector_of (AnomalyDetectionResponse.anomalies resp)
        = [Some Outlier; Some Trend; Some Outlier] /\
      map AnomalyResult.affected_metrics (AnomalyDetectionResponse.anomalies resp)
        = [["heart_rate"]; ["heart_rate"]; ["temperature"]] /\
      grouped_by_detector (AnomalyDetectionResponse.anomalies resp) = false
  | Raise _ => False
  end.
Proof. vm_compute. repeat split. Qed.

Lemma anomalies_in_metric_blocks_witness :
  exists resp w',
    @detect_anomalies sqrt6 registered_service two_metric_request
      (start_world (fun _ => 0%Z)) = (Ok resp, w') /\
    exists blocks cross n,
      AnomalyDetectionResponse.anomalies resp = (List.concat blocks ++ cross)%list /\
      Forall2 (metric_block (AnomalyDetectionRequest.timestamps two_metric_request))
              (AnomalyDetectionRequest.time_series_data two_metric_request) blocks /\
      picked (cross_of_index (AnomalyDetectionRequest.timestamps two_metric_request))
             (seq 0 n) cross.
Proof.
  apply (@anomalies_in_metric_blocks sqrt6 two_metric_request
           (start_world (fun _ => 0%Z))).
  unfold covers. cbn. repeat constructor.
Defined.

Lemma overall_risk_is_weighted_mean_witness :
  exists resp w',
    @detect_anomalies sqrt6 registered_service scenario_request
      (start_world (fun _ => 0%Z)) = (Ok resp, w') /\
    let anomalies := AnomalyDetectionResponse.anomalies resp in
    let score := AnomalyDetectionResponse.overall_risk_score resp in
    (anomalies = [] -> score = 0.0) /\
    (Qsum (map AnomalyResult.confidence anomalies) == 0 -> score == 0) /\
    (0 < Qsum (map AnomalyResult.confidence anomalies) ->
     score ==
     Qsum (map (fun a => AnomalyResult.severity a * AnomalyResult.confidence a) anomalies)
     / Qsum (map AnomalyResult.confidence anomalies)).
Proof.
  apply (@overall_risk_is_weighted_mean sqrt6 scenario_request
           (start_world (fun _ => 0%Z))).
  unfold covers. cbn. repeat constructor.
Defined.

(** The scenario of the specification, run: index 3 (value 150) is
    reported first, as a heart rate anomaly, with severity and confidence
    both capped at 1.0. *)
Example scenario_flags_index_3 :
  match fst (@detect_anomalies sqrt6 registered_service scenario_request
               (start_world (fun _ => 0%Z))) with
  | Ok resp =>
      match AnomalyDetectionResponse.anomalies resp with
      | a :: _ =>
          AnomalyResult.anomaly_type a = AnomalyType.HEART_RATE_ABNORMAL /\
          AnomalyResult.detected_at a = seconds 3 /\
          AnomalyResult.severity a == 1 /\
          AnomalyResult.confidence a == 1
      | [] => False
      end
  | Raise _ => False
  end.
Proof. vm_compute. repeat apply conj; reflexivity. Qed.

End AnomalyDetectionFacts.
(** ** Signal quality *)

Module SignalQualityFacts.

Import ModelConfigPy.
Import SignalQualityService.
Import RealFloat.
Import signal_quality_service.
Import SignalQualitySpec.
Local Open Scope R_scope.

Lemma Rltb_lt (x y : R) : Rltb x y = true <-> x < y.
Proof. unfold Rltb. destruct (Rlt_dec x y); split; intros; (congruence || lra). Qed.

Lemma Rltb_ge (x y : R) : Rltb x y = false <-> y <= x.
Proof. unfold Rltb. destruct (Rlt_dec x y); split; intros; (congruence || lra). Qed.

Lemma py_clamp (lo hi x : R) :
  lo <= hi -> py_max lo (py_min hi x) = clamp lo hi x.
Proof.
  intros Hle. unfold py_max, py_min, clamp, Rltb.
  destruct (Rlt_dec x hi); destruct (Rlt_dec x lo); destruct (Rlt_dec hi x);
    repeat match goal with
           | |- context [Rlt_dec ?a ?b] => destruct (Rlt_dec a b)
           end; lra.
Qed.

Lemma clamp_range (lo hi x : R) : lo <= hi -> lo <= clamp lo hi x <= hi.
Proof.
  intros Hle. unfold clamp.
  destruct (Rlt_dec x lo); [lra|]. destruct (Rlt_dec hi x); lra.
Qed.

Lemma Rsum_squares_nonneg (xs : list R) (m : R) :
  0 <= Rsum (map (fun x => (x - m) * (x - m)) xs).
Proof.
  induction xs as [|x xs IH]; cbn [map Rsum fold_right].
  - lra.
  - unfold Rsum in IH. pose proof (Rle_0_sqr (x - m)) as Hsq.
    unfold Rsqr in Hsq. lra.
Qed.




Lemma Rsum_repeat (c : R) (n : nat) : Rsum (repeat c n) = INR n * c.
Proof.
  induction n as [|n IH].
  - cbn. lra.
  - cbn [repeat Rsum fold_right]. unfold Rsum in IH. rewrite IH, S_INR. lra.
Qed.

(** A series whose items are all equal has variance zero. *)
Lemma np_var_constant (c : R) (xs : list R) :
  Forall (fun x => x = c) xs -> np_var xs = 0.
Proof.
  intros H.
  assert (Hrep : xs = repeat c (List.length xs)).
  { induction H as [|x xs -> _ IH]; [reflexivity|].
    cbn [List.length repeat]. f_equal. exact IH. }
  destruct xs as [|x xs]; [unfold np_var, np_mean; cbn; lra|].
  set (n := List.length (x :: xs)) in *.
  assert (Hn : 0 < INR n) by (apply lt_0_INR; unfold n; cbn; lia).
  assert (Hmean : np_mean (x :: xs) = c).
  { unfold np_mean. fold n. rewrite Hrep, Rsum_repeat. field. lra. }
  unfold np_var. rewrite Hmean. rewrite Hrep at 1. rewrite map_repeat.
  unfold np_mean. rewrite Rsum_repeat, repeat_length. field. lra.
Qed.

Lemma Rsum_squares_zero (xs : list R) :
  Rsum (map (fun x => x * x) xs) = 0 -> Forall (fun x => x = 0) xs.
Proof.
  induction xs as [|x xs IH]; cbn [map Rsum fold_right]; intros H.
  - constructor.
  - assert (Hrest : 0 <= Rsum (map (fun x => x * x) xs)).
    { pose proof (Rsum_squares_nonneg xs 0) as Hs.
      erewrite map_ext in Hs; [exact Hs | intros a; cbn; ring]. }
    pose proof (Rle_0_sqr x) as Hsq. unfold Rsqr in Hsq. unfold Rsum in Hrest.
    constructor.
    + apply Rsqr_0_uniq. unfold Rsqr. lra.
    + apply IH. unfold Rsum. lra.
Qed.

Lemma np_diff_zeros (xs : list R) :
  Forall (fun x => x = 0) xs -> Forall (fun d => d = 0) (np_diff xs).
Proof.
  induction 1 as [|x xs Hx Hxs IH]; [constructor|].
  destruct xs as [|y xs]; [constructor|].
  cbn [np_diff]. constructor; [|exact IH].
  inversion Hxs; subst. lra.
Qed.

(** The logarithm is only taken of a positive number: a positive noise
    estimate needs a sample that is not zero. *)
Lemma positive_noise_positive_power (signal : list R) :
  0 < np_var (np_diff signal) -> 0 < np_mean (map (fun x => x * x) signal).
Proof.
  intros Hnoise.
  assert (Hsum : 0 <= Rsum (map (fun x => x * x) signal)).
  { pose proof (Rsum_squares_nonneg signal 0) as Hs.
    erewrite map_ext in Hs; [exact Hs | intros a; cbn; ring]. }
  destruct (Rle_lt_or_eq_dec _ _ Hsum) as [Hpos | Hzero].
  - unfold np_mean. rewrite length_map. destruct signal as [|x xs]; [cbn in Hpos; lra|].
    apply Rmult_lt_0_compat; [exact Hpos|].
    apply Rinv_0_lt_compat, lt_0_INR. cbn. lia.
  - exfalso. symmetry in Hzero. apply Rsum_squares_zero in Hzero.
    apply np_diff_zeros in Hzero.
    rewrite (np_var_constant 0 _ Hzero) in Hnoise. lra.
Qed.




End SignalQualityFacts.
(** ** The three engines as functions of the request *)

Module EnginesFacts.

Import ModelConfigPy.
Import EnginesSpec.

Lemma signal_quality_init_run (w : World) :
  registry w = MODEL_REGISTRY ->
  exists w',
    signal_quality_service.__init__ w = (Ok SignalQualitySpec.registered_service, w') /\
    registry w' = registry w /\
    _signal_quality_service w' = _signal_quality_service w /\
    _anomaly_service w' = _anomaly_service w /\
    _risk_scoring_service w' = _risk_scoring_service w.
Proof.
  intros Hreg. unfold signal_quality_service.__init__, bind, lift_result, on_registry.
  simpl. rewrite ModelConfigFacts.get_model_config_run. rewrite Hreg.
  eexists. split; [reflexivity|]. cbn. auto.
Qed.

Lemma anomaly_detection_init_run {np : Numpy} (w : World) :
  registry w = MODEL_REGISTRY ->
  exists w',
    anomaly_detection_service.__init__ w
      = (Ok AnomalyDetectionSpec.registered_service, w') /\
    registry w' = registry w /\
    _signal_quality_service w' = _signal_quality_service w /\
    _anomaly_service w' = _anomaly_service w /\
    _risk_scoring_service w' = _risk_scoring_service w.
Proof.
  intros Hreg. unfold anomaly_detection_service.__init__, bind, lift_result, on_registry.
  simpl. rewrite ModelConfigFacts.get_model_config_run. rewrite Hreg.
  eexists. split; [reflexivity|]. cbn. auto.
Qed.

Lemma risk_scoring_init_run (w : World) :
  registry w = MODEL_REGISTRY ->
  exists w',
    risk_scoring_service.__init__ w = (Ok RiskScoringSpec.registered_service, w') /\
    registry w' = registry w /\
    _signal_quality_service w' = _signal_quality_service w /\
    _anomaly_service w' = _anomaly_service w /\
    _risk_scoring_service w' = _risk_scoring_service w.
Proof.
  intros Hreg. rewrite (RiskScoringFacts.init_run w Hreg).
  eexists. split; [reflexivity|]. cbn. auto.
Qed.

(** In a consistent world each getter returns the registered service and
    leaves a consistent world. *)
Lemma get_signal_quality_service_run (w : World) :
  consistent w ->
  exists w',
    signal_quality_service.get_signal_quality_service w
      = (Ok SignalQualitySpec.registered_service, w') /\
    consistent w'.
Proof.
  intros (Hreg & Hsq & Han & Hrs).
  unfold signal_quality_service.get_signal_quality_service, bind, get.
  destruct Hsq as [Hsq | Hsq]; rewrite Hsq.
  - destruct (signal_quality_init_run w Hreg) as (w1 & Hinit & H1 & H2 & H3 & H4).
    rewrite Hinit. unfold set_signal_quality_service, ret.
    eexists. split; [reflexivity|].
    unfold consistent. cbn. rewrite H1, H3, H4. auto.
  - unfold ret. eexists. split; [reflexivity|].
    unfold consistent. rewrite Hsq. auto.
Qed.

Lemma get_anomaly_detection_service_run {np : Numpy} (w : World) :
  consistent w ->
  exists w',
    anomaly_detection_service.get_anomaly_detection_service w
      = (Ok AnomalyDetectionSpec.registered_service, w') /\
    consistent w'.
Proof.
  intros (Hreg & Hsq & Han & Hrs).
  unfold anomaly_detection_service.get_anomaly_detection_service, bind, get.
  destruct Han as [Han | Han]; rewrite Han.
  - destruct (anomaly_detection_init_run w Hreg) as (w1 & Hinit & H1 & H2 & H3 & H4).
    rewrite Hinit. unfold set_anomaly_service, ret.
    eexists. split; [reflexivity|].
    unfold consistent. cbn. rewrite H1, H2, H4. auto.
  - unfold ret. eexists. split; [reflexivity|].
    unfold consistent. rewrite Han. auto.
Qed.

Lemma get_risk_scoring_service_run (w : World) :
  consistent w ->
  exists w',
    risk_scoring_service.get_risk_scoring_service w
      = (Ok RiskScoringSpec.registered_service, w') /\
    consistent w'.
Proof.
  intros (Hreg & Hsq & Han & Hrs).
  unfold risk_scoring_service.get_risk_scoring_service, bind, get.
  destruct Hrs as [Hrs | Hrs]; rewrite Hrs.
  - destruct (risk_scoring_init_run w Hreg) as (w1 & Hinit & H1 & H2 & H3 & H4).
    rewrite Hinit. unfold set_risk_scoring_service, ret.
    eexists. split; [reflexivity|].
    unfold consistent. cbn. rewrite H1, H2, H3. auto.
  - unfold ret. eexists. split; [reflexivity|].
    unfold consistent. rewrite Hrs. auto.
Qed.

(** Each service method reads the world only for the timestamps. *)
Lemma assess_quality_outcome (self : SignalQualityService.self)
    (request : SignalQualityRequest.t) (w1 w2 : World) :
  outcome signal_quality_untimed (signal_quality_service.assess_quality self request w1)
  = outcome signal_quality_untimed (signal_quality_service.assess_quality self request w2).
Proof.
  unfold outcome, signal_quality_service.assess_quality, bind, lift_result, utcnow, ret.
  destruct (signal_quality_service._calculate_quality_score _ _ _ _ _ _); reflexivity.
Qed.

Lemma detect_anomalies_outcome {np : Numpy} (self : AnomalyDetectionService.self)
    (request : AnomalyDetectionRequest.t) (w1 w2 : World) :
  outcome anomaly_detection_untimed
    (anomaly_detection_service.detect_anomalies self request w1)
  = outcome anomaly_detection_untimed
      (anomaly_detection_service.detect_anomalies self request w2).
Proof.
  unfold outcome, anomaly_detection_service.detect_anomalies, bind, lift_result,
    utcnow, ret.
  destruct (for_each _ _); [|reflexivity].
  destruct (anomaly_detection_service._detect_cross_metric_anomalies _ _ _); reflexivity.
Qed.

Lemma calculate_risk_outcome (self : RiskScoringService.self)
    (request : RiskScoringRequest.t) (w1 w2 : World) :
  outcome risk_scoring_untimed (risk_scoring_service.calculate_risk self request w1)
  = outcome risk_scoring_untimed (risk_scoring_service.calculate_risk self request w2).
Proof.
  unfold outcome, risk_scoring_service.calculate_risk, bind, lift_result, utcnow, ret.
  destruct (risk_scoring_service._analyze_vital_metrics _ _ _); reflexivity.
Qed.

(** Every endpoint leaves a consistent world consistent, so every world
    reached from the start by requests is consistent. *)
Lemma start_world_consistent (clock : nat -> datetime) : consistent (start_world clock).
Proof. unfold consistent, start_world. cbn. auto. Qed.

Lemma utcnow_consistent (w : World) : consistent w -> consistent (snd (utcnow w)).
Proof. intros H. exact H. Qed.

Lemma assess_signal_quality_consistent (request : SignalQualityRequest.t) (w : World) :
  consistent w ->
  consistent (snd (signal_quality_service.assess_signal_quality request w)).
Proof.
  intros Hw. unfold signal_quality_service.assess_signal_quality, bind.
  destruct (get_signal_quality_service_run w Hw) as (w' & -> & Hw').
  unfold signal_quality_service.assess_quality, bind, lift_result, utcnow, ret.
  destruct (signal_quality_service._calculate_quality_score _ _ _ _ _ _); exact Hw'.
Qed.

Lemma detect_anomalies_consistent {np : Numpy} (request : AnomalyDetectionRequest.t)
    (w : World) :
  consistent w ->
  consistent (snd (anomaly_detection_service.detect_anomalies_endpoint request w)).
Proof.
  intros Hw. unfold anomaly_detection_service.detect_anomalies_endpoint, bind.
  destruct (get_anomaly_detection_service_run w Hw) as (w' & -> & Hw').
  unfold anomaly_detection_service.detect_anomalies, bind, lift_result, utcnow, ret.
  destruct (for_each _ _); [|exact Hw'].
  destruct (anomaly_detection_service._detect_cross_metric_anomalies _ _ _); exact Hw'.
Qed.

Lemma calculate_risk_score_consistent (request : RiskScoringRequest.t) (w : World) :
  consistent w ->
  consistent (snd (risk_scoring_service.calculate_risk_score request w)).
Proof.
  intros Hw. unfold risk_scoring_service.calculate_risk_score, bind.
  destruct (get_risk_scoring_service_run w Hw) as (w' & -> & Hw').
  unfold risk_scoring_service.calculate_risk, bind, lift_result, utcnow, ret.
  destruct (risk_scoring_service._analyze_vital_metrics _ _ _); exact Hw'.
Qed.

(** *** Agreement of the endpoints across worlds *)

Lemma assess_signal_quality_agree (request : SignalQualityRequest.t) (w1 w2 : World) :
  consistent w1 -> consistent w2 ->
  outcome signal_quality_untimed
    (signal_quality_service.assess_signal_quality request w1)
  = outcome signal_quality_untimed
      (signal_quality_service.assess_signal_quality request w2).
Proof.
  intros H1 H2. unfold signal_quality_service.assess_signal_quality, bind.
  destruct (get_signal_quality_service_run w1 H1) as (w1' & -> & _).
  destruct (get_signal_quality_service_run w2 H2) as (w2' & -> & _).
  apply assess_quality_outcome.
Qed.

Lemma detect_anomalies_agree {np : Numpy} (request : AnomalyDetectionRequest.t)
    (w1 w2 : World) :
  consistent w1 -> consistent w2 ->
  outcome anomaly_detection_untimed
    (anomaly_detection_service.detect_anomalies_endpoint request w1)
  = outcome anomaly_detection_untimed
      (anomaly_detection_service.detect_anomalies_endpoint request w2).
Proof.
  intros H1 H2. unfold anomaly_detection_service.detect_anomalies_endpoint, bind.
  destruct (get_anomaly_detection_service_run w1 H1) as (w1' & -> & _).
  destruct (get_anomaly_detection_service_run w2 H2) as (w2' & -> & _).
  apply detect_anomalies_outcome.
Qed.

Lemma calculate_risk_score_agree (request : RiskScoringRequest.t) (w1 w2 : World) :
  consistent w1 -> consistent w2 ->
  outcome risk_scoring_untimed
    (risk_scoring_service.calculate_risk_score request w1)
  = outcome risk_scoring_untimed
      (risk_scoring_service.calculate_risk_score request w2).
Proof.
  intros H1 H2. unfold risk_scoring_service.calculate_risk_score, bind.
  destruct (get_risk_scoring_service_run w1 H1) as (w1' & -> & _).
  destruct (get_risk_scoring_service_run w2 H2) as (w2' & -> & _).
  apply calculate_risk_outcome.
Qed.

(** Two invocations in a row: the second runs in the world that the
    first leaves, and gives the same outcome. *)
Lemma calculate_risk_score_twice (request : RiskScoringRequest.t) (w : World) :
  consistent w ->
  outcome risk_scoring_untimed (risk_scoring_service.calculate_risk_score request w)
  = outcome risk_scoring_untimed
      (risk_scoring_service.calculate_risk_score request
         (snd (risk_scoring_service.calculate_risk_score request w))).
Proof.
  intros Hw. apply calculate_risk_score_agree; [exact Hw|].
  apply calculate_risk_score_consistent. exact Hw.
Qed.

(** C9.  In any two consistent worlds (same registry; any clock, any
    service already built or not) each of the three endpoints gives, on
    the same request, the same outcome in every field except
    [processed_at], [assessed_at] and [valid_until]. *)
Theorem engines_deterministic {np : Numpy} (w1 w2 : World) :
  consistent w1 -> consistent w2 ->
  (forall request,
     outcome signal_quality_untimed
       (signal_quality_service.assess_signal_quality request w1)
     = outcome signal_quality_untimed
         (signal_quality_service.assess_signal_quality request w2)) /\
  (forall request,
     outcome anomaly_detection_untimed
       (anomaly_detection_service.detect_anomalies_endpoint request w1)
     = outcome anomaly_detection_untimed
         (anomaly_detection_service.detect_anomalies_endpoint request w2)) /\
  (forall request,
     outcome risk_scoring_untimed
       (risk_scoring_service.calculate_risk_score request w1)
     = outcome risk_scoring_untimed
         (risk_scoring_service.calculate_risk_score request w2)).
Proof.
  intros H1 H2. repeat apply conj; intros request.
  - apply assess_signal_quality_agree; assumption.
  - apply detect_anomalies_agree; assumption.
  - apply calculate_risk_score_agree; assumption.
Qed.

(** A cold start and a warm world agree on every request. *)
Lemma engines_deterministic_witness :
  let w1 := start_world (RiskScoringSpec.ticking_clock 0%Z) in
  let w2 := warm_world in
  (forall request,
     outcome signal_quality_untimed
       (signal_quality_service.assess_signal_quality request w1)
     = outcome signal_quality_untimed
         (signal_quality_service.assess_signal_quality request w2)) /\
  (forall request,
     outcome anomaly_detection_untimed
       (@anomaly_detection_service.detect_anomalies_endpoint
          AnomalyDetectionSpec.sqrt6 request w1)
     = outcome anomaly_detection_untimed
         (@anomaly_detection_service.detect_anomalies_endpoint
            AnomalyDetectionSpec.sqrt6 request w2)) /\
  (forall request,
     outcome risk_scoring_untimed
       (risk_scoring_service.calculate_risk_score request w1)
     = outcome risk_scoring_untimed
         (risk_scoring_service.calculate_risk_score request w2)).
Proof.
  apply (@engines_deterministic AnomalyDetectionSpec.sqrt6
           (start_world (RiskScoringSpec.ticking_clock 0%Z)) warm_world).
  - unfold consistent. cbn. auto.
  - unfold consistent. cbn. auto.
Defined.

End EnginesFacts.
(** ** Numbers up to rounding *)





(** ** Risk scoring, further properties *)

From Stdlib Require Import Permutation Sorted.

(** Case analysis on the float comparisons of the goal, innermost first,
    so that no comparison is left inside a hypothesis. *)
Ltac cmp_inner :=
  repeat match goal with
  | |- context [Qltb ?a ?b] =>
      lazymatch a with
      | context [if _ then _ else _] => fail
      | _ => idtac
      end;
      lazymatch b with
      | context [if _ then _ else _] => fail
      | _ => idtac
      end;
      let E := fresh "E" in
      destruct (Qltb a b) eqn:E;
      [apply Qltb_lt in E | apply Qltb_ge in E]
  end.

Module RiskScoringMore.

Import ModelConfigPy.
Import RiskScoringService.
Import risk_scoring_service.
Import RiskScoringSpec.
Import RiskScoringMoreSpec.

(** X1.  With thresholds in the order low <= moderate <= high, a higher
    score never gets a lower risk level. *)
Theorem risk_level_monotone (self : self) (s1 s2 : Q) :
  RISK_SCORE_LOW (thresholds self) <= RISK_SCORE_MODERATE (thresholds self) ->
  RISK_SCORE_MODERATE (thresholds self) <= RISK_SCORE_HIGH (thresholds self) ->
  s1 <= s2 ->
  (level_rank (_determine_risk_level self s1)
   <= level_rank (_determine_risk_level self s2))%nat.
Proof.
  intros Hlm Hmh Hs. unfold _determine_risk_level.
  cmp_cases; cbn [level_rank]; try lia; exfalso; lra.
Qed.

Lemma risk_level_monotone_witness :
  (level_rank (_determine_risk_level registered_service 0.3)
   <= level_rank (_determine_risk_level registered_service 0.6))%nat.
Proof.
  apply (risk_level_monotone registered_service 0.3 0.6).
  - unfold Qle; simpl; lia.
  - unfold Qle; simpl; lia.
  - unfold Qle; simpl; lia.
Defined.

(** X2.  A trend never lowers a vital score: with any trend the heart
    rate score and the temperature score are at least the score without
    trend, and at most 0.2 above it. *)
Theorem trend_never_lowers_score (self : self) (value : Q) (trend : option (list Q)) :
  (_score_heart_rate self value None <= _score_heart_rate self value trend
   <= _score_heart_rate self value None + 0.2) /\
  (_score_temperature self value None <= _score_temperature self value trend
   <= _score_temperature self value None + 0.2).
Proof.
  unfold _score_heart_rate, _score_temperature. cbv zeta.
  destruct trend as [t|]; [|split; lra].
  destruct (has_trend (Some t)); [|split; lra].
  destruct (0 <? List.length t)%nat; [|split; lra].
  set (d := np_mean (np_diff t)).
  split.
  - destruct (Qltb value (HEART_RATE_CRITICAL_MIN (thresholds self))
              || Qltb (HEART_RATE_CRITICAL_MAX (thresholds self)) value);
      [|destruct (Qltb value (HEART_RATE_WARNING_MIN (thresholds self))
                  || Qltb (HEART_RATE_WARNING_MAX (thresholds self)) value);
        [|destruct (Qltb value (HEART_RATE_NORMAL_MIN (thresholds self))
                    || Qltb (HEART_RATE_NORMAL_MAX (thresholds self)) value)]];
      unfold py_max, py_min; cmp_inner; lra.
  - destruct (Qltb value (TEMPERATURE_CRITICAL_MIN (thresholds self))
              || Qltb (TEMPERATURE_CRITICAL_MAX (thresholds self)) value);
      [|destruct (Qltb value (TEMPERATURE_WARNING_MIN (thresholds self))
                  || Qltb (TEMPERATURE_WARNING_MAX (thresholds self)) value);
        [|destruct (Qltb value (TEMPERATURE_NORMAL_MIN (thresholds self))
                    || Qltb (TEMPERATURE_NORMAL_MAX (thresholds self)) value)]];
      unfold py_max, py_min; cmp_inner; lra.
Qed.

(** X3.  With the oxygen thresholds in the order critical <= warning <=
    normal, a lower oxygen saturation never scores a lower risk. *)
Theorem oxygen_score_antitone (self : self) (v1 v2 : Q) :
  OXYGEN_SATURATION_CRITICAL_MIN (thresholds self)
    <= OXYGEN_SATURATION_WARNING_MIN (thresholds self) ->
  OXYGEN_SATURATION_WARNING_MIN (thresholds self)
    <= OXYGEN_SATURATION_NORMAL_MIN (thresholds self) ->
  v1 <= v2 ->
  _score_oxygen_saturation self v2 <= _score_oxygen_saturation self v1.
Proof.
  intros Hcw Hwn Hv. unfold _score_oxygen_saturation. cbv zeta.
  cmp_cases; lra.
Qed.

Lemma oxygen_score_antitone_witness :
  _score_oxygen_saturation registered_service 96
  <= _score_oxygen_saturation registered_service 91.
Proof.
  apply (oxygen_score_antitone registered_service 91 96).
  - unfold Qle; simpl; lia.
  - unfold Qle; simpl; lia.
  - unfold Qle; simpl; lia.
Defined.

(** *** The overall score as a weighted mean *)

Lemma clamp_inert (x : Q) : 0 <= x <= 1 -> py_max 0.0 (py_min 1.0 x) == x.
Proof. intros H. unfold py_max, py_min. cmp_inner; lra. Qed.

Lemma weighted_score_bounds (fs : list RiskFactors.t) :
  Forall factor_ok fs ->
  0 <= Qsum (map (fun f => RiskFactors.factor_score f * RiskFactors.weight f) fs)
    <= Qsum (map RiskFactors.weight fs) /\
  (fs <> [] -> 0 < Qsum (map RiskFactors.weight fs)).
Proof.
  induction 1 as [|f fs [[Hs0 Hs1] Hw] _ [IH _]]; cbn [map Qsum fold_right].
  - split; [lra | congruence].
  - unfold Qsum in IH. split; [nra | intros _; nra].
Qed.

Lemma analyze_vital_metrics_weights (vm : dict Q) (ht : option (dict (list Q)))
    (fs : list RiskFactors.t) :
  _analyze_vital_metrics registered_service vm ht = Ok fs ->
  Forall (fun f => 0 < RiskFactors.weight f) fs.
Proof.
  unfold _analyze_vital_metrics, result_bind.
  change (dict_item "heart_rate_weight" (params registered_service)) with (Ok 0.4).
  change (dict_item "temperature_weight" (params registered_service)) with (Ok 0.3).
  change (dict_item "oxygen_saturation_weight" (params registered_service)) with (Ok 0.3).
  cbv zeta.
  repeat match goal with
         | |- context [dict_mem ?k ?d] => destruct (dict_mem k d)
         | |- context [dict_item ?k ?d] => destruct (dict_item k d)
         end;
    cbn [orb app];
    intros H; try discriminate H; injection H as <-;
    repeat first [apply Forall_nil | apply Forall_cons];
    cbn [RiskFactors.weight]; lra.
Qed.

Lemma analyze_anomaly_flags_weights (flags : list string) :
  Forall (fun f => 0 < RiskFactors.weight f)
         (_analyze_anomaly_flags registered_service flags).
Proof.
  unfold _analyze_anomaly_flags. apply Forall_map.
  apply Forall_forall. intros flag _. cbn [RiskFactors.weight].
  destruct (existsb (String.eqb flag) critical_anomalies); [|lra].
  change (dict_get_default "anomaly_weight" 0.3 (params registered_service)) with 0.3.
  lra.
Qed.

Lemma analyze_trends_weights (self : self) (ht : dict (list Q)) :
  Forall (fun f => 0 < RiskFactors.weight f) (_analyze_trends self ht).
Proof.
  unfold _analyze_trends.
  induction ht as [|[metric_name values] ht IH]; cbn [flat_map].
  - constructor.
  - apply Forall_app. split; [|exact IH].
    destruct (List.length values <? 3)%nat; [constructor|].
    destruct (Qltb 0.1 (Qabs (np_mean (np_diff values)))); [|constructor].
    constructor; [|constructor]. cbn [RiskFactors.weight]. lra.
Qed.

Lemma Forall_and_inv {A} (P R : A -> Prop) (l : list A) :
  Forall P l -> Forall R l -> Forall (fun x => P x /\ R x) l.
Proof.
  intros HP HR. induction HP; [constructor|].
  inversion HR; subst. constructor; auto.
Qed.

(** X4.  On every valid request the registered service returns a
    response in which every factor has a score in [0,1] and a positive
    weight, and the overall risk score is recomputed from the stored
    (score, weight) pairs: it is 0.0 without factors and otherwise the
    weighted mean of the factor scores, the final clamp never acting. *)
Theorem risk_score_round_trip (request : RiskScoringRequest.t) (w : World) :
  valid_request request ->
  exists resp w',
    calculate_risk registered_service request w = (Ok resp, w') /\
    Forall factor_ok (RiskScoringResponse.risk_factors resp) /\
    (RiskScoringResponse.risk_factors resp = [] ->
     RiskScoringResponse.overall_risk_score resp = 0.0) /\
    (RiskScoringResponse.risk_factors resp <> [] ->
     RiskScoringResponse.overall_risk_score resp
     == weighted_mean (RiskScoringResponse.risk_factors resp)).
Proof.
  intros [Hq _].
  destruct (RiskScoringFacts.calculate_risk_total request w) as (resp & w' & Hrun).
  exists resp, w'. split; [exact Hrun|].
  destruct (RiskScoringFacts.calculate_risk_factors _ _ _ _ _ Hrun)
    as (vital & Hv & Hfs & Hs & _).
  assert (Hok : Forall factor_ok (RiskScoringResponse.risk_factors resp)).
  { unfold factor_ok. rewrite Hfs.
    repeat (apply Forall_app; split).
    - apply Forall_and_inv.
      + exact (RiskScoringFacts.analyze_vital_metrics_unit _ _ _ _ Hv).
      + exact (analyze_vital_metrics_weights _ _ _ Hv).
    - destruct (RiskScoringRequest.anomaly_flags request) as [[|flag flags]|];
        try apply Forall_nil.
      apply Forall_and_inv;
        [apply RiskScoringFacts.analyze_anomaly_flags_unit
        | apply analyze_anomaly_flags_weights].
    - destruct (RiskScoringRequest.signal_quality_score request) as [q|];
        [|apply Forall_nil].
      apply Forall_cons; [|apply Forall_nil]. split.
      + apply RiskScoringFacts.analyze_signal_quality_unit. apply Hq. reflexivity.
      + cbn [_analyze_signal_quality RiskFactors.weight].
        change (dict_get_default "signal_quality_weight" 0.1 (params registered_service))
          with 0.1. lra.
    - destruct (RiskScoringRequest.historical_trends request) as [[|item ht]|];
        try apply Forall_nil.
      apply Forall_and_inv;
        [apply RiskScoringFacts.analyze_trends_unit | apply analyze_trends_weights]. }
  split; [exact Hok|]. rewrite Hs. split.
  - intros ->. reflexivity.
  - intros Hne. destruct (weighted_score_bounds _ Hok) as [[Hlo Hhi] Hpos].
    specialize (Hpos Hne).
    unfold _calculate_overall_risk_score, weighted_mean.
    destruct (RiskScoringResponse.risk_factors resp) as [|f fs] eqn:E; [congruence|].
    rewrite (proj2 (Qltb_lt _ _) Hpos).
    apply clamp_inert. split.
    + apply Qle_shift_div_l; lra.
    + apply Qle_shift_div_r; lra.
Qed.

Lemma risk_score_round_trip_witness :
  exists resp w',
    calculate_risk registered_service example_request
      (start_world (ticking_clock 0%Z)) = (Ok resp, w') /\
    Forall factor_ok (RiskScoringResponse.risk_factors resp) /\
    (RiskScoringResponse.risk_factors resp = [] ->
     RiskScoringResponse.overall_risk_score resp = 0.0) /\
    (RiskScoringResponse.risk_factors resp <> [] ->
     RiskScoringResponse.overall_risk_score resp
     == weighted_mean (RiskScoringResponse.risk_factors resp)).
Proof.
  apply (risk_score_round_trip example_request (start_world (ticking_clock 0%Z))).
  split.
  - intros q [= <-]. unfold Qle; simpl; lia.
  - simpl. lia.
Defined.

(** *** Edge cases of a request *)

Lemma analyze_vital_metrics_unrecognised (self : self) (vm : dict Q)
    (ht : option (dict (list Q))) :
  no_recognised_vital vm -> _analyze_vital_metrics self vm ht = Ok [].
Proof.
  intros (H1 & H2 & H3 & H4 & H5). unfold _analyze_vital_metrics, result_bind.
  rewrite H1, H2, H3, H4, H5. reflexivity.
Qed.

(** X5.  Vitals under unrecognised names are ignored without an error: a
    request with none of heart_rate, temperature, temperature_celsius,
    oxygen_saturation, spo2, and with no flags, signal quality or trends,
    gets no factor, score 0.0, level low, confidence 0.5, the fixed "no
    significant concerns" message and the routine-monitoring action. *)
Theorem unrecognised_vitals_score_low (request : RiskScoringRequest.t) (w : World) :
  no_recognised_vital (RiskScoringRequest.vital_metrics request) ->
  truthy (RiskScoringRequest.anomaly_flags request) = false ->
  RiskScoringRequest.signal_quality_score request = None ->
  truthy (RiskScoringRequest.historical_trends request) = false ->
  exists resp w',
    calculate_risk registered_service request w = (Ok resp, w') /\
    RiskScoringResponse.risk_factors resp = [] /\
    RiskScoringResponse.overall_risk_score resp = 0.0 /\
    RiskScoringResponse.risk_level resp = RiskLevel.LOW /\
    RiskScoringResponse.confidence resp == 0.5 /\
    RiskScoringResponse.primary_concerns resp =
      [[Lit "No significant concerns identified - all metrics within normal ranges"]] /\
    RiskScoringResponse.recommended_actions resp =
      [[Lit "Continue routine monitoring - risk level is low"]].
Proof.
  intros Hv Hf Hq Ht.
  unfold calculate_risk, bind, lift_result, utcnow, ret.
  rewrite (analyze_vital_metrics_unrecognised _ _ _ Hv).
  unfold _calculate_confidence. rewrite Hf, Hq, Ht.
  destruct (RiskScoringRequest.anomaly_flags request) as [[|flag flags]|];
    try discriminate Hf;
    destruct (RiskScoringRequest.historical_trends request) as [[|item ht]|];
    try discriminate Ht;
    (eexists; eexists; split; [reflexivity|]);
    cbn [RiskScoringResponse.risk_factors RiskScoringResponse.overall_risk_score
         RiskScoringResponse.risk_level RiskScoringResponse.confidence
         RiskScoringResponse.primary_concerns
         RiskScoringResponse.recommended_actions app];
    repeat split; reflexivity.
Qed.

Lemma unrecognised_vitals_score_low_witness :
  exists resp w',
    calculate_risk registered_service blood_pressure_request
      (start_world (ticking_clock 0%Z)) = (Ok resp, w') /\
    RiskScoringResponse.risk_factors resp = [] /\
    RiskScoringResponse.overall_risk_score resp = 0.0 /\
    RiskScoringResponse.risk_level resp = RiskLevel.LOW /\
    RiskScoringResponse.confidence resp == 0.5 /\
    RiskScoringResponse.primary_concerns resp =
      [[Lit "No significant concerns identified - all metrics within normal ranges"]] /\
    RiskScoringResponse.recommended_actions resp =
      [[Lit "Continue routine monitoring - risk level is low"]].
Proof.
  apply (unrecognised_vitals_score_low blood_pressure_request
           (start_world (ticking_clock 0%Z))).
  - unfold no_recognised_vital. cbn. repeat split.
  - reflexivity.
  - reflexivity.
  - reflexivity.
Defined.

(** X6.  A missing weight is an error, not a default: if the parameters
    of the service lack "heart_rate_weight" and the request carries a
    heart rate, [calculate_risk] raises [KeyError] for that key, before
    reading the clock. *)
Theorem missing_weight_raises (self : self) (request : RiskScoringRequest.t)
    (w : World) :
  dict_get "heart_rate_weight" (params self) = None ->
  dict_mem "heart_rate" (RiskScoringRequest.vital_metrics request) = true ->
  calculate_risk self request w = (Raise (KeyError "heart_rate_weight"), w).
Proof.
  intros Hparam Hmem. unfold calculate_risk, bind, lift_result.
  unfold _analyze_vital_metrics, result_bind. rewrite Hmem.
  destruct (RiskScoringFacts.dict_mem_item _ _ Hmem) as [v ->].
  unfold dict_item at 1. rewrite Hparam. reflexivity.
Qed.

Lemma missing_weight_raises_witness :
  calculate_risk unweighted_service scenario_request (start_world (ticking_clock 0%Z))
  = (Raise (KeyError "heart_rate_weight"), start_world (ticking_clock 0%Z)).
Proof.
  apply (missing_weight_raises unweighted_service scenario_request
           (start_world (ticking_clock 0%Z))).
  - reflexivity.
  - reflexivity.
Defined.

(** *** Concerns, actions and confidence *)

Lemma insert_desc_In {A} (key : A -> Q) (x y : A) (l : list A) :
  In y (insert_desc key x l) <-> y = x \/ In y l.
Proof.
  induction l as [|z l IH]; cbn [insert_desc In].
  - intuition.
  - destruct (Qle_bool (key z) (key x)); cbn [In]; [intuition|].
    rewrite IH. intuition.
Qed.

Lemma sorted_desc_In {A} (key : A -> Q) (y : A) (l : list A) :
  In y (sorted_desc key l) <-> In y l.
Proof.
  unfold sorted_desc. induction l as [|x l IH]; cbn [fold_right In]; [tauto|].
  rewrite insert_desc_In, IH. intuition.
Qed.

Lemma In_firstn {A} (n : nat) (x : A) (l : list A) : In x (firstn n l) -> In x l.
Proof.
  revert l. induction n as [|n IH]; intros [|y l]; cbn [firstn In]; try tauto.
  intros [H | H]; [left; exact H | right; apply IH; exact H].
Qed.

Lemma insert_desc_length {A} (key : A -> Q) (x : A) (l : list A) :
  List.length (insert_desc key x l) = S (List.length l).
Proof.
  induction l as [|z l IH]; cbn [insert_desc List.length]; [reflexivity|].
  destruct (Qle_bool (key z) (key x)); cbn [List.length]; [reflexivity|].
  rewrite IH. reflexivity.
Qed.

Lemma insert_desc_perm {A} (key : A -> Q) (x : A) (l : list A) :
  Permutation (insert_desc key x l) (x :: l).
Proof.
  induction l as [|z l IH]; cbn [insert_desc]; [reflexivity|].
  destruct (Qle_bool (key z) (key x)); [reflexivity|].
  rewrite IH. apply perm_swap.
Qed.

Lemma insert_desc_sorted {A} (key : A -> Q) (x : A) (l : list A) :
  StronglySorted (fun a b => key b <= key a) l ->
  StronglySorted (fun a b => key b <= key a) (insert_desc key x l).
Proof.
  induction 1 as [|z l Hsorted IH Hz]; cbn [insert_desc].
  - constructor; constructor.
  - destruct (Qle_bool (key z) (key x)) eqn:E.
    + apply Qle_bool_iff in E. constructor; [constructor; assumption|].
      constructor; [exact E|].
      revert Hz. apply Forall_impl. intros y Hy. lra.
    + apply Qle_bool_gt in E. constructor; [exact IH|].
      apply Forall_forall. intros y Hy. apply insert_desc_In in Hy.
      destruct Hy as [-> | Hy]; [lra|].
      rewrite Forall_forall in Hz. apply Hz. exact Hy.
Qed.

Lemma sorted_desc_perm {A} (key : A -> Q) (l : list A) :
  Permutation (sorted_desc key l) l.
Proof.
  unfold sorted_desc. induction l as [|x l IH]; cbn [fold_right].
  - constructor.
  - rewrite insert_desc_perm. constructor. exact IH.
Qed.

Lemma sorted_desc_sorted {A} (key : A -> Q) (l : list A) :
  StronglySorted (fun a b => key b <= key a) (sorted_desc key l).
Proof.
  unfold sorted_desc. induction l as [|x l IH]; cbn [fold_right].
  - constructor.
  - apply insert_desc_sorted. exact IH.
Qed.

(** X10.  The order in which the factors are ranked for the primary
    concerns: a rearrangement of the factors of the request, by
    non-increasing score times weight, so that the three that are kept
    are three of greatest score times weight. *)
Theorem ranked_factors_sorted (risk_factors : list RiskFactors.t) :
  let key := fun f => RiskFactors.factor_score f * RiskFactors.weight f in
  let ranked := sorted_desc key risk_factors in
  Permutation ranked risk_factors /\
  StronglySorted (fun a b => key b <= key a) ranked /\
  (forall f g, In f (firstn 3 ranked) -> In g (skipn 3 ranked) -> key g <= key f).
Proof.
  cbv zeta.
  set (key := fun f => RiskFactors.factor_score f * RiskFactors.weight f).
  pose proof (sorted_desc_perm key risk_factors) as Hperm.
  pose proof (sorted_desc_sorted key risk_factors) as Hsorted.
  repeat apply conj; [exact Hperm | exact Hsorted |].
  intros f g. generalize 3%nat as n. revert Hsorted.
  generalize (sorted_desc key risk_factors) as l. clear Hperm.
  induction l as [|a l IH]; intros Hs n Hf Hg.
  - destruct n; destruct Hf.
  - destruct n as [|n]; [destruct Hf|].
    cbn [firstn skipn In] in Hf, Hg. inversion Hs as [|? ? Hs' Ha]; subst.
    destruct Hf as [<- | Hf].
    + rewrite Forall_forall in Ha. apply Ha.
      clear - Hg. revert l Hg. induction n as [|n IHn]; intros l Hg; [exact Hg|].
      destruct l as [|b l]; [destruct Hg|]. right. apply IHn. exact Hg.
    + exact (IH Hs' n Hf Hg).
Qed.

(** X7.  The primary concerns are never empty and never more than three;
    each is either the fixed "no significant concerns" message or the
    description of a factor of the request with a score above 0.3. *)
Theorem primary_concerns_shape (self : self) (risk_factors : list RiskFactors.t) :
  let concerns := _generate_primary_concerns self risk_factors in
  (1 <= List.length concerns <= 3)%nat /\
  Forall (fun c =>
            c = [Lit "No significant concerns identified - all metrics within normal ranges"]
            \/ exists f, In f risk_factors /\ 0.3 < RiskFactors.factor_score f /\
                         c = RiskFactors.description f)
         concerns.
Proof.
  cbv zeta. unfold _generate_primary_concerns.
  set (top := firstn 3 (sorted_desc _ risk_factors)).
  set (kept := filter (fun factor => Qltb 0.3 (RiskFactors.factor_score factor)) top).
  assert (Hlen : (List.length kept <= 3)%nat).
  { unfold kept. etransitivity; [apply filter_length_le|].
    unfold top. apply firstn_le_length. }
  assert (Hin : Forall (fun c => exists f, In f risk_factors /\
                                  0.3 < RiskFactors.factor_score f /\
                                  c = RiskFactors.description f)
                       (map RiskFactors.description kept)).
  { apply Forall_map. apply Forall_forall. intros f Hf.
    unfold kept in Hf. apply filter_In in Hf. destruct Hf as [Hf Hs].
    unfold top in Hf. apply In_firstn, sorted_desc_In in Hf.
    apply Qltb_lt in Hs. exists f. auto. }
  destruct (map RiskFactors.description kept) as [|c cs] eqn:E.
  - split; [cbn; lia|]. constructor; [left; reflexivity | constructor].
  - assert (Hl : List.length (c :: cs) = List.length kept)
      by (rewrite <- E; apply length_map).
    split; [rewrite Hl; cbn [List.length] in Hl; lia|].
    revert Hin. apply Forall_impl. intros a Ha. right. exact Ha.
Qed.

Lemma flat_map_length_le {A B} (f : A -> list B) (l : list A) :
  (forall x, (List.length (f x) <= 1)%nat) ->
  (List.length (flat_map f l) <= List.length l)%nat.
Proof.
  intros Hf. induction l as [|x l IH]; cbn [flat_map List.length]; [lia|].
  rewrite length_app. specialize (Hf x). lia.
Qed.

(** X8.  The recommended actions hold between one and four entries: one
    opening advisory at level low and two at any other level, then at
    most two advisories on single factors. *)
Theorem recommended_actions_length (self : self) (risk_score : Q)
    (risk_level : RiskLevel.t) (risk_factors : list RiskFactors.t) :
  let n := List.length
             (_generate_recommended_actions self risk_score risk_level risk_factors) in
  let opening := match risk_level with RiskLevel.LOW => 1 | _ => 2 end%nat in
  (opening <= n <= opening + 2)%nat.
Proof.
  cbv zeta. unfold _generate_recommended_actions.
  set (high := firstn 2 (filter _ risk_factors)).
  assert (Hhigh : (List.length high <= 2)%nat) by apply firstn_le_length.
  rewrite length_app.
  match goal with
  | |- context [flat_map ?f high] =>
      assert (Hextra : (List.length (flat_map f high) <= List.length high)%nat)
  end.
  { apply flat_map_length_le. intros factor.
    destruct (contains "heart" _); [cbn [List.length]; lia|].
    destruct (contains "temperature" _); cbn [List.length]; lia. }
  unfold fstring in *.
  destruct risk_level; cbn [List.length]; lia.
Qed.

(** X9.  The confidence is never below 0.5 nor above 1, and it is the sum
    0.5 + 0.2 (trends given) + 0.1 (signal quality given) + 0.1 (flags
    given) + 0.1 (three factors or more): the clamp never acts. *)
Theorem confidence_range (self : self) (risk_factors : list RiskFactors.t)
    (request : RiskScoringRequest.t) :
  let c := _calculate_confidence self risk_factors request in
  0.5 <= c <= 1 /\
  c == 0.5
       + (if truthy (RiskScoringRequest.historical_trends request) then 0.2 else 0)
       + (match RiskScoringRequest.signal_quality_score request with
          | Some _ => 0.1
          | None => 0
          end)
       + (if truthy (RiskScoringRequest.anomaly_flags request) then 0.1 else 0)
       + (if (3 <=? List.length risk_factors)%nat then 0.1 else 0).
Proof.
  cbv zeta. unfold _calculate_confidence.
  destruct (truthy (RiskScoringRequest.historical_trends request));
    destruct (RiskScoringRequest.signal_quality_score request);
    destruct (truthy (RiskScoringRequest.anomaly_flags request));
    destruct (3 <=? List.length risk_factors)%nat;
    unfold py_max, py_min; cmp_inner; split; lra.
Qed.

End RiskScoringMore.
(** ** Anomaly detection: further properties *)

Module AnomalyDetectionMore.

Import ModelConfigPy.
Import AnomalyDetectionService.
Import anomaly_detection_service.
Import AnomalyDetectionSpec.
Import AnomalyDetectionMoreSpec.
Import AnomalyDetectionFacts.

(** *** Loops that raise *)

Lemma for_each_head_raises {A B} (f : A -> result (list B)) (x : A) (xs : list A)
    (e : exn) :
  f x = Raise e -> for_each f (x :: xs) = Raise e.
Proof. intros H. cbn [for_each]. rewrite H. reflexivity. Qed.




Lemma Qabs_pos_neq (x : Q) : ~ x == 0 -> 0 < Qabs x.
Proof.
  intros Hx. destruct (Q_dec x 0) as [[Hlt | Hgt] | Heq]; [| |contradiction].
  - rewrite Qabs_neg by lra. lra.
  - rewrite Qabs_pos by lra. exact Hgt.
Qed.

(** *** Rolling means *)











Section WithNumpy.

Context {np : Numpy}.

(** *** Outliers *)

Lemma no_outlier_indices (values : list Q) (mean std thr : Q) :
  std <= 0 -> 0 <= thr ->
  outlier_indices_of (z_scores_of values mean std) thr = [].
Proof.
  intros Hs Ht.
  destruct (outlier_indices_of (z_scores_of values mean std) thr) as [|i l] eqn:E;
    [reflexivity|].
  exfalso.
  assert (H : In i (outlier_indices_of (z_scores_of values mean std) thr))
    by (rewrite E; left; reflexivity).
  apply outlier_indices_spec in H. destruct H as [_ Hz].
  unfold z_scores_of in Hz. rewrite (proj2 (Qltb_ge 0 std) Hs) in Hz.
  pose proof (map_nth (fun _ : Q => 0) values 0 i) as Hn. cbv beta in Hn.
  rewrite Hn in Hz. lra.
Qed.

(** X11.  When the baseline standard deviation is not positive (a flat
    series, or a supplied [std] of zero or less) and the z-score
    threshold is not negative, no point is an outlier: with timestamps
    covering the series the detector of the metric returns, and whatever
    it reports comes from the trend detector.  No division takes place,
    also with a threshold of zero. *)
Theorem no_outliers_without_spread (self : self) (metric_name : string)
    (values : list Q) (timestamps : list datetime)
    (baseline_stats : option (dict (dict Q))) (mean std : Q) :
  baseline_of metric_name values baseline_stats = (mean, std) ->
  std <= 0 ->
  0 <= Z_SCORE_THRESHOLD (thresholds self) ->
  (List.length values <= List.length timestamps)%nat ->
  exists trends,
    _detect_metric_anomalies self metric_name values timestamps baseline_stats
      = Ok trends /\
    Forall (fun a => detector_of a = Some Trend) trends.
Proof.
  intros Hbase Hstd Hthr Hcov. unfold _detect_metric_anomalies.
  destruct (List.length values <? 3)%nat.
  { exists []. split; [reflexivity | constructor]. }
  rewrite Hbase. cbv beta iota zeta.
  rewrite (no_outlier_indices values mean std _ Hstd Hthr).
  cbn [for_each result_bind app].
  destruct (5 <=? List.length values)%nat.
  - destruct (detect_trend_anomalies_run self metric_name values timestamps mean Hcov)
      as (trends & Hrun & Hpick & _).
    rewrite Hrun. cbn [result_bind]. exists trends. split; [reflexivity|].
    eapply picked_Forall; [|exact Hpick].
    intros i a [_ Hb]. apply trend_at_inv in Hb.
    destruct Hb as (_ & _ & _ & Hd & _). exact Hd.
  - exists []. split; [reflexivity | constructor].
Qed.






(** X13.  A z-score threshold of zero makes the severity a division by
    zero.  With such a threshold, a series of at least three points with
    a positive baseline standard deviation and some point that differs
    from the baseline mean makes the detector of the metric raise
    [ZeroDivisionError], whatever the timestamps. *)
Theorem zero_threshold_divides_by_zero (self : self) (metric_name : string)
    (values : list Q) (timestamps : list datetime)
    (baseline_stats : option (dict (dict Q))) (mean std : Q) (idx : nat) :
  Z_SCORE_THRESHOLD (thresholds self) == 0 ->
  (3 <= List.length values)%nat ->
  baseline_of metric_name values baseline_stats = (mean, std) ->
  0 < std ->
  (idx < List.length values)%nat ->
  ~ nth idx values 0 == mean ->
  _detect_metric_anomalies self metric_name values timestamps baseline_stats
  = Raise ZeroDivisionError.
Proof.
  intros Hthr Hlen Hbase Hstd Hidx Hne. unfold _detect_metric_anomalies.
  rewrite (proj2 (Nat.ltb_ge _ _)) by lia.
  rewrite Hbase. cbv beta iota zeta.
  destruct (outlier_indices_of (z_scores_of values mean std)
              (Z_SCORE_THRESHOLD (thresholds self))) as [|i rest] eqn:E.
  - exfalso.
    assert (H : In idx (outlier_indices_of (z_scores_of values mean std)
                          (Z_SCORE_THRESHOLD (thresholds self)))).
    { apply outlier_indices_spec. split; [rewrite z_scores_of_length; exact Hidx|].
      rewrite (z_scores_of_nth values mean std idx Hstd Hidx).
      assert (Hpos : 0 < Qabs ((nth idx values 0 - mean) / std)).
      { apply Qabs_pos_neq. intros H0. apply Hne.
        assert (Hs : ~ std == 0) by (intros Hs; lra).
        pose proof (Qmult_div_r (nth idx values 0 - mean) std Hs) as H1.
        assert (H2 : std * ((nth idx values 0 - mean) / std) == std * 0)
          by (apply Qmult_comp; [reflexivity | exact H0]).
        assert (H3 : std * 0 == nth idx values 0 - mean)
          by (rewrite <- H2; exact H1).
        lra. }
      lra. }
    rewrite E in H. destruct H.
  - rewrite (for_each_head_raises _ _ _ ZeroDivisionError); [reflexivity|].
    unfold outlier_at, py_div. cbv zeta.
    assert (Hden : Z_SCORE_THRESHOLD (thresholds self) * 2 == 0) by lra.
    rewrite (proj2 (Qeq_bool_iff _ _) Hden). reflexivity.
Qed.

(** *** Sudden changes *)


(** *** Simultaneous elevation *)


(** *** What is reported *)

Lemma outlier_at_well_typed (self : self) (metric_name : string) (values : list Q)
    (timestamps : list datetime) (mean std : Q) (z_scores : list Q) (idx : nat)
    (a : AnomalyResult.t) :
  outlier_at self metric_name values timestamps mean std z_scores idx = Ok [a] ->
  well_typed a.
Proof.
  unfold outlier_at, py_div, list_item. cbv zeta.
  destruct (Qeq_bool _ 0); [discriminate|]. cbn [result_bind].
  destruct (Qltb _ (MIN_CONFIDENCE_FOR_ALERT _)); [discriminate|].
  destruct (nth_error timestamps idx); [|discriminate].
  cbn [result_bind]. intros [= <-].
  unfold well_typed, detector_of, metric_type, _determine_anomaly_type.
  cbn [AnomalyResult.context AnomalyResult.anomaly_type].
  destruct (_ || _); [tauto|]. destruct (contains "temp" _); [tauto|].
  destruct (_ || _); tauto.
Qed.

Lemma trend_at_well_typed (self : self) (metric_name : string)
    (timestamps : list datetime) (mean : Q) (window_size : nat)
    (rolling_mean : list Q) (i : nat) (a : AnomalyResult.t) :
  trend_at self metric_name timestamps mean window_size rolling_mean i = Ok [a] ->
  well_typed a.
Proof.
  unfold trend_at, list_item. cbv zeta.
  destruct (Qltb _ (Qabs _)); [|discriminate].
  destruct (Qltb _ (MIN_CONFIDENCE_FOR_ALERT _)); [discriminate|].
  destruct (nth_error timestamps _); [|discriminate].
  cbn [result_bind]. intros [= <-]. reflexivity.
Qed.

Lemma cross_at_well_typed (self : self) (timestamps : list datetime)
    (hr_values temp_values : list Q) (i : nat) (a : AnomalyResult.t) :
  cross_at self timestamps hr_values temp_values i = Ok [a] ->
  well_typed a.
Proof.
  unfold cross_at, list_item. cbv zeta.
  destruct (_ && _); [|discriminate].
  destruct (nth_error timestamps i); [|discriminate].
  cbn [result_bind]. intros [= <-]. reflexivity.
Qed.

Lemma detect_metric_anomalies_well_typed (self : self) (metric_name : string)
    (values : list Q) (timestamps : list datetime)
    (baseline_stats : option (dict (dict Q))) (block : list AnomalyResult.t) :
  _detect_metric_anomalies self metric_name values timestamps baseline_stats
    = Ok block ->
  Forall well_typed block.
Proof.
  unfold _detect_metric_anomalies.
  destruct (List.length values <? 3)%nat; [intros [= <-]; constructor|].
  destruct (baseline_of metric_name values baseline_stats) as [mean std].
  destruct (for_each _ _) as [outliers|] eqn:Eout; [|discriminate].
  cbn [result_bind app].
  assert (Hout : Forall well_typed outliers).
  { eapply (picked_Forall (fun _ a => well_typed a)); [intros i a H; exact H|].
    eapply for_each_picked; [|exact Eout].
    intros idx ys _ Hbody.
    destruct (outlier_at_shape _ _ _ _ _ _ _ _ _ Hbody) as [-> | [a ->]].
    - left. reflexivity.
    - right. exists a. split; [reflexivity|].
      eapply outlier_at_well_typed. exact Hbody. }
  destruct (5 <=? List.length values)%nat; [|intros [= <-]; exact Hout].
  destruct (_detect_trend_anomalies _ _ _ _ _) as [trends|] eqn:Et; [|discriminate].
  cbn [result_bind]. intros [= <-]. apply Forall_app. split; [exact Hout|].
  revert Et. unfold _detect_trend_anomalies.
  destruct (List.length values <? 5)%nat; [intros [= <-]; constructor|].
  intros Hrun.
  eapply (picked_Forall (fun _ a => well_typed a)); [intros i a H; exact H|].
  eapply for_each_picked; [|exact Hrun].
  intros i ys _ Hbody. destruct (trend_at_shape _ _ _ _ _ _ _ _ Hbody) as [-> | [a ->]].
  - left. reflexivity.
  - right. exists a. split; [reflexivity|].
    eapply trend_at_well_typed. exact Hbody.
Qed.

(** X16.  The types that are ever reported.  Whatever the thresholds, the
    request and the world, every anomaly of a response carries the context
    of one of the three detectors; an outlier has one of the types
    [heart_rate_abnormal], [temperature_abnormal], [motion_anomaly] or
    [unknown], a trend or cross-metric anomaly has the type
    [pattern_deviation].  So the types [signal_loss] and [device_tamper]
    of the schema are never produced. *)
Theorem reported_types (self : self) (request : AnomalyDetectionRequest.t)
    (w : World) :
  Forall (fun a =>
            well_typed a /\
            AnomalyResult.anomaly_type a <> AnomalyType.SIGNAL_LOSS /\
            AnomalyResult.anomaly_type a <> AnomalyType.DEVICE_TAMPER)
         (reported (detect_anomalies self request w)).
Proof.
  assert (Hweak : forall a, well_typed a ->
            well_typed a /\
            AnomalyResult.anomaly_type a <> AnomalyType.SIGNAL_LOSS /\
            AnomalyResult.anomaly_type a <> AnomalyType.DEVICE_TAMPER).
  { intros a Ha. split; [exact Ha|]. unfold well_typed, metric_type in Ha.
    destruct (detector_of a) as [[| |]|]; [| | |contradiction];
      try (rewrite Ha; split; discriminate).
    destruct Ha as [-> | [-> | [-> | ->]]]; split; discriminate. }
  apply (Forall_impl _ Hweak).
  unfold reported, detect_anomalies, bind, lift_result, utcnow, ret.
  destruct (for_each _ _) as [metric_anomalies|] eqn:Em; [|constructor].
  destruct (_detect_cross_metric_anomalies _ _ _) as [cross|] eqn:Ec; [|constructor].
  cbn [fst AnomalyDetectionResponse.anomalies app].
  apply Forall_app. split.
  - apply for_each_Ok_inv in Em. destruct Em as (blocks & Hblocks & ->).
    apply Forall_concat. clear Ec.
    induction Hblocks as [|[metric_name values] block data blocks Hb _ IH];
      constructor; [|exact IH].
    eapply detect_metric_anomalies_well_typed. exact Hb.
  - revert Ec. unfold _detect_cross_metric_anomalies.
    destruct (dict_get "heart_rate" _) as [hr_values|]; [|intros [= <-]; constructor].
    destruct (dict_get "temperature" _) as [temp_values|];
      [|intros [= <-]; constructor].
    destruct (_ && _); [|intros [= <-]; constructor].
    intros Hrun.
    eapply (picked_Forall (fun _ a => well_typed a)); [intros i a H; exact H|].
    eapply for_each_picked; [|exact Hrun].
    intros i ys _ Hbody. destruct (cross_at_shape _ _ _ _ _ _ Hbody) as [-> | [a ->]].
    + left. reflexivity.
    + right. exists a. split; [reflexivity|].
      eapply cross_at_well_typed. exact Hbody.
Qed.

(** X17.  The response honours its schema.  When the timestamps cover
    every series, the registered service returns a response in which
    every anomaly has severity and confidence in [0, 1], the overall risk
    score is in [0, 1], [anomaly_count] is the number of anomalies,
    [anomalies_detected] tells whether there is one, the device id is the
    one of the request and the model version is that of the registry; the
    call reads the clock once and changes nothing else. *)
Theorem response_within_schema (request : AnomalyDetectionRequest.t) (w : World) :
  covers request ->
  exists resp,
    detect_anomalies registered_service request w
      = (Ok resp, {| registry := registry w;
                     _signal_quality_service := _signal_quality_service w;
                     _anomaly_service := _anomaly_service w;
                     _risk_scoring_service := _risk_scoring_service w;
                     np_random_seed := np_random_seed w;
                     clock := clock w;
                     clock_reads := S (clock_reads w) |}) /\
    Forall within_schema (AnomalyDetectionResponse.anomalies resp) /\
    unit_interval (AnomalyDetectionResponse.overall_risk_score resp) /\
    AnomalyDetectionResponse.anomaly_count resp
      = List.length (AnomalyDetectionResponse.anomalies resp) /\
    (AnomalyDetectionResponse.anomalies_detected resp = true <->
     AnomalyDetectionResponse.anomalies resp <> []) /\
    AnomalyDetectionResponse.device_id resp = AnomalyDetectionRequest.device_id request /\
    AnomalyDetectionResponse.model_version resp = Some "anomaly-detection-v1.0.0" /\
    AnomalyDetectionResponse.processed_at resp = clock w (clock_reads w).
Proof.
  intros Hcov.
  destruct (detect_anomalies_run registered_service request w)
    as (resp & w' & blocks & cross & n & Hrun & _ & _ & _ & Hscore).
  { intros H. discriminate H. }
  { exact Hcov. }
  pose proof (detect_anomalies_within_schema request w w' resp Hrun) as Hschema.
  exists resp.
  revert Hrun Hscore Hschema.
  unfold detect_anomalies, bind, lift_result, utcnow, ret.
  destruct (for_each _ _) as [metric_anomalies|]; [|discriminate].
  destruct (_detect_cross_metric_anomalies _ _ _) as [cross'|]; [|discriminate].
  intros [= <- <-]. cbn [AnomalyDetectionResponse.anomalies
                          AnomalyDetectionResponse.overall_risk_score
                          AnomalyDetectionResponse.anomaly_count
                          AnomalyDetectionResponse.anomalies_detected
                          AnomalyDetectionResponse.device_id
                          AnomalyDetectionResponse.model_version
                          AnomalyDetectionResponse.processed_at app].
  intros _ Hschema.
  split; [reflexivity|]. split; [exact Hschema|]. split.
  { pose proof (weighted_severity_bounds _ Hschema) as [Hlo Hhi].
    unfold _calculate_overall_risk, unit_interval.
    destruct (metric_anomalies ++ cross')%list as [|a l]; [lra|].
    destruct (Qltb 0 _) eqn:E; [|lra].
    apply Qltb_lt in E. split.
    - apply py_min_glb; [lra|]. apply Qle_shift_div_l; lra.
    - pose proof (py_min_le_l 1.0
                    (Qsum (map (fun a => AnomalyResult.severity a
                                         * AnomalyResult.confidence a) (a :: l))
                     / Qsum (map AnomalyResult.confidence (a :: l)))). lra. }
  split; [reflexivity|]. split.
  { destruct (metric_anomalies ++ cross')%list; cbn [List.length Nat.ltb Nat.leb].
    - split; [discriminate | intros H; contradiction].
    - split; [intros _ H; discriminate H | reflexivity]. }
  repeat split.
Qed.

End WithNumpy.

Lemma no_outliers_without_spread_witness :
  exists trends,
    _detect_metric_anomalies (np := sqrt6) registered_service "heart_rate"
      [70; 70; 70; 70; 70; 70]
      [seconds 0; seconds 1; seconds 2; seconds 3; seconds 4; seconds 5] None
      = Ok trends /\
    Forall (fun a => detector_of a = Some Trend) trends.
Proof.
  apply (no_outliers_without_spread (np := sqrt6) registered_service "heart_rate"
           [70; 70; 70; 70; 70; 70]
           [seconds 0; seconds 1; seconds 2; seconds 3; seconds 4; seconds 5] None
           (np_mean [70; 70; 70; 70; 70; 70])
           (np_std (np := sqrt6) [70; 70; 70; 70; 70; 70])).
  - reflexivity.
  - vm_compute. discriminate.
  - vm_compute. discriminate.
  - simpl. lia.
Defined.


Lemma zero_threshold_divides_by_zero_witness :
  _detect_metric_anomalies (np := sqrt6) zero_threshold_service "heart_rate"
    [72; 73; 74; 150; 75; 76]
    [seconds 0; seconds 1; seconds 2; seconds 3; seconds 4; seconds 5]
    (Some [("heart_rate", [("mean", 72); ("std", 5)])])
  = Raise ZeroDivisionError.
Proof.
  apply (zero_threshold_divides_by_zero (np := sqrt6) zero_threshold_service
           "heart_rate" [72; 73; 74; 150; 75; 76]
           [seconds 0; seconds 1; seconds 2; seconds 3; seconds 4; seconds 5]
           (Some [("heart_rate", [("mean", 72); ("std", 5)])]) 72 5 3).
  - reflexivity.
  - simpl. lia.
  - reflexivity.
  - reflexivity.
  - simpl. lia.
  - vm_compute. discriminate.
Defined.



Lemma response_within_schema_witness :
  covers two_metric_request /\
  exists resp,
    fst (detect_anomalies (np := sqrt6) registered_service two_metric_request
           (start_world (RiskScoringSpec.ticking_clock 0%Z))) = Ok resp /\
    Forall within_schema (AnomalyDetectionResponse.anomalies resp) /\
    unit_interval (AnomalyDetectionResponse.overall_risk_score resp).
Proof.
  assert (Hcov : covers two_metric_request).
  { unfold covers. repeat first [apply Forall_nil | apply Forall_cons]; simpl; lia. }
  split; [exact Hcov|].
  destruct (response_within_schema (np := sqrt6) two_metric_request
              (start_world (RiskScoringSpec.ticking_clock 0%Z)) Hcov)
    as (resp & Hrun & Hs & Hu & _).
  exists resp. rewrite Hrun. split; [reflexivity|]. split; assumption.
Defined.

End AnomalyDetectionMore.

(** ** Signal quality: further properties *)

Module SignalQualityMore.

Import ModelConfigPy.
Import SignalQualityService.
Import RealFloat.
Import signal_quality_service.
Import SignalQualitySpec.
Import SignalQualityMoreSpec.
Import SignalQualityFacts.
Local Open Scope R_scope.

Lemma Rleb_le (x y : R) : Rleb x y = true <-> x <= y.
Proof. unfold Rleb. destruct (Rle_dec x y); split; intros; (congruence || lra). Qed.

Lemma Rleb_gt (x y : R) : Rleb x y = false <-> y < x.
Proof. unfold Rleb. destruct (Rle_dec x y); split; intros; (congruence || lra). Qed.

Ltac rcmp :=
  repeat match goal with
         | H : Rltb _ _ = true |- _ => apply Rltb_lt in H
         | H : Rltb _ _ = false |- _ => apply Rltb_ge in H
         | H : Rleb _ _ = true |- _ => apply Rleb_le in H
         | H : Rleb _ _ = false |- _ => apply Rleb_gt in H
         end.

(** [min(hi, max(lo, x))] limits [x] as [max(lo, min(hi, x))] does. *)
Lemma py_clamp_min_max (lo hi x : R) :
  lo <= hi -> py_min hi (py_max lo x) = clamp lo hi x.
Proof.
  intros Hle. unfold py_max, py_min, clamp, Rltb.
  destruct (Rlt_dec lo x); destruct (Rlt_dec x lo); destruct (Rlt_dec hi x);
    repeat match goal with
           | |- context [Rlt_dec ?a ?b] => destruct (Rlt_dec a b)
           end; lra.
Qed.

Lemma clamp_mono (lo hi x y : R) :
  lo <= hi -> x <= y -> clamp lo hi x <= clamp lo hi y.
Proof.
  intros Hle Hxy. unfold clamp.
  destruct (Rlt_dec x lo); destruct (Rlt_dec y lo);
    destruct (Rlt_dec hi x); destruct (Rlt_dec hi y); lra.
Qed.

Lemma clamp_inside (lo hi x : R) : lo <= x <= hi -> clamp lo hi x = x.
Proof.
  intros [H1 H2]. unfold clamp.
  destruct (Rlt_dec x lo); [lra|]. destruct (Rlt_dec hi x); lra.
Qed.

Lemma np_std_nonneg (xs : list R) : 0 <= np_std xs.
Proof. unfold np_std. apply sqrt_pos. Qed.

Lemma py_min_unit (x : R) : 0 <= x -> 0 <= py_min 1.0 x <= 1.
Proof.
  intros Hx. unfold py_min. destruct (Rltb x 1.0) eqn:E; rcmp; lra.
Qed.

Lemma ratio_nonneg (x y : R) : 0 <= x -> 0 < y -> 0 <= x / y.
Proof.
  intros Hx Hy. apply Rmult_le_pos; [exact Hx|].
  apply Rlt_le, Rinv_0_lt_compat, Hy.
Qed.

(** *** The five metrics *)

Lemma rms_error_nonneg (self : self) (signal : list R) :
  0 <= _calculate_rms_error self signal.
Proof.
  unfold _calculate_rms_error. destruct (Rltb 0 _) eqn:E; rcmp; [|lra].
  apply ratio_nonneg; [apply np_std_nonneg | exact E].
Qed.

Lemma peak_confidence_unit (self : self) (signal : list R) :
  0 <= _calculate_peak_confidence self signal <= 1.
Proof.
  unfold _calculate_peak_confidence.
  destruct (List.length signal <? 3)%nat; [lra|].
  destruct (Rltb 0 _) eqn:E; rcmp; [|lra].
  apply py_min_unit. apply ratio_nonneg; [apply pos_INR | exact E].
Qed.

Lemma baseline_drift_nonneg (self : self) (signal : list R) :
  0 <= _calculate_baseline_drift self signal.
Proof.
  unfold _calculate_baseline_drift.
  destruct (List.length signal <? 2)%nat; [lra|].
  apply Rmult_le_pos; [apply Rabs_pos | apply pos_INR].
Qed.

Lemma motion_artifact_unit (self : self) (signal : list R) (signal_type : string) :
  0 <= _calculate_motion_artifact self signal signal_type <= 1.
Proof.
  unfold _calculate_motion_artifact.
  destruct (List.length signal <? 3)%nat; [lra|]. cbv zeta.
  destruct (Rltb 0 _) eqn:E; rcmp; [|lra].
  apply py_min_unit. apply ratio_nonneg; [apply np_std_nonneg | exact E].
Qed.

(** *** The quality score *)

(** What the score is under the registered weights. *)
Lemma calculate_quality_score_registered
    (snr rms_error peak_confidence baseline_drift motion_artifact : R) :
  _calculate_quality_score registered_service snr rms_error peak_confidence
    baseline_drift motion_artifact
  = Ok (clamp 0 1
          (0.3 * clamp 0 1 ((snr + 10) / 30)
           + 0.2 * clamp 0 1 (1 - rms_error / 0.1)
           + 0.2 * peak_confidence
           + 0.15 * clamp 0 1 (1 - baseline_drift / 0.1)
           + 0.15 * (1 - motion_artifact))).
Proof.
  unfold _calculate_quality_score. cbv zeta.
  change (param registered_service "snr_weight") with (Ok (A := R) (Q2R 0.3)).
  change (param registered_service "rms_weight") with (Ok (A := R) (Q2R 0.2)).
  change (param registered_service "peak_confidence_weight") with (Ok (A := R) (Q2R 0.2)).
  change (param registered_service "baseline_drift_weight") with (Ok (A := R) (Q2R 0.15)).
  change (param registered_service "motion_artifact_weight") with (Ok (A := R) (Q2R 0.15)).
  cbn [result_bind]. f_equal.
  rewrite py_clamp by lra. rewrite py_clamp_min_max by lra.
  rewrite !py_clamp by lra.
  replace 0.0 with 0 by lra. replace 1.0 with 1 by lra.
  reflexivity.
Qed.


Lemma snr_range (self : self) (signal : list R) :
  -50 <= _calculate_snr self signal <= 100.
Proof.
  unfold _calculate_snr. destruct (Rltb 0 _); [|lra].
  cbv zeta. rewrite py_clamp by lra. apply clamp_range. lra.
Qed.

Lemma determine_quality_grade_cases (self : self) (quality_score : R) :
  In (_determine_quality_grade self quality_score) ["excellent"; "good"; "fair"; "poor"].
Proof.
  unfold _determine_quality_grade.
  destruct (Rleb _ _); [cbn; tauto|].
  destruct (Rleb _ _); [cbn; tauto|].
  destruct (Rleb _ _); cbn; tauto.
Qed.

(** X18.  The response honours its schema.  For every request the
    registered service returns a response whose SNR is in [-50, 100],
    whose RMS error and baseline drift are not negative, whose peak
    detection confidence, motion artifact score and quality score are in
    [0, 1], and whose grade is one of the four of the schema; it carries
    the device id of the request and the registered model version.  The
    call reads the clock once and changes nothing else. *)
Theorem signal_response_within_schema (request : SignalQualityRequest.t) (w : World) :
  exists resp,
    assess_quality registered_service request w
      = (Ok resp, {| registry := registry w;
                     _signal_quality_service := _signal_quality_service w;
                     _anomaly_service := _anomaly_service w;
                     _risk_scoring_service := _risk_scoring_service w;
                     np_random_seed := np_random_seed w;
                     clock := clock w;
                     clock_reads := S (clock_reads w) |}) /\
    within_schema (SignalQualityResponse.metrics resp) /\
    0 <= SignalQualityResponse.quality_score resp <= 1 /\
    In (SignalQualityResponse.quality_grade resp) ["excellent"; "good"; "fair"; "poor"] /\
    SignalQualityResponse.device_id resp = SignalQualityRequest.device_id request /\
    SignalQualityResponse.model_version resp = Some "signal-quality-v1.0.0" /\
    SignalQualityResponse.processed_at resp = clock w (clock_reads w).
Proof.
  unfold assess_quality, bind, lift_result, utcnow, ret. cbv zeta.
  rewrite calculate_quality_score_registered.
  eexists. split; [reflexivity|].
  cbn [SignalQualityResponse.metrics SignalQualityResponse.quality_score
       SignalQualityResponse.quality_grade SignalQualityResponse.device_id
       SignalQualityResponse.model_version SignalQualityResponse.processed_at].
  split.
  { unfold within_schema.
    cbn [SignalQualityMetrics.snr SignalQualityMetrics.rms_error
         SignalQualityMetrics.peak_detection_confidence
         SignalQualityMetrics.baseline_drift
         SignalQualityMetrics.motion_artifact_score].
    split; [apply snr_range|]. split; [apply rms_error_nonneg|].
    split; [apply peak_confidence_unit|]. split; [apply baseline_drift_nonneg|].
    apply motion_artifact_unit. }
  split; [apply clamp_range; lra|].
  split; [apply determine_quality_grade_cases|].
  repeat split.
Qed.

(** X19.  Under the registered weights the final limiting to [0, 1] never
    acts: for a peak confidence and a motion artifact score in [0, 1]
    (which the service always computes), the quality score is the
    weighted sum of the normalised metrics, with weights 0.3 for the SNR,
    0.2 for the RMS error, 0.2 for the peak confidence, 0.15 for the
    baseline drift and 0.15 for the motion artifacts. *)
Theorem quality_score_is_weighted_sum
    (snr rms_error peak_confidence baseline_drift motion_artifact : R) :
  0 <= peak_confidence <= 1 ->
  0 <= motion_artifact <= 1 ->
  _calculate_quality_score registered_service snr rms_error peak_confidence
    baseline_drift motion_artifact
  = Ok (weighted_quality snr rms_error peak_confidence baseline_drift motion_artifact).
Proof.
  intros Hp Hm. rewrite calculate_quality_score_registered. f_equal.
  unfold weighted_quality. apply clamp_inside.
  pose proof (clamp_range 0 1 ((snr + 10) / 30)) as H1.
  pose proof (clamp_range 0 1 (1 - rms_error / 0.1)) as H2.
  pose proof (clamp_range 0 1 (1 - baseline_drift / 0.1)) as H3.
  lra.
Qed.

(** X20.  A better signal never scores lower.  Under the registered
    weights, raising the SNR or the peak confidence, or lowering the RMS
    error, the baseline drift or the motion artifact score, never lowers
    the quality score. *)
Theorem quality_score_monotone
    (snr snr' rms_error rms_error' peak_confidence peak_confidence'
     baseline_drift baseline_drift' motion_artifact motion_artifact' : R) :
  snr <= snr' ->
  rms_error' <= rms_error ->
  peak_confidence <= peak_confidence' ->
  baseline_drift' <= baseline_drift ->
  motion_artifact' <= motion_artifact ->
  exists q q',
    _calculate_quality_score registered_service snr rms_error peak_confidence
      baseline_drift motion_artifact = Ok q /\
    _calculate_quality_score registered_service snr' rms_error' peak_confidence'
      baseline_drift' motion_artifact' = Ok q' /\
    q <= q'.
Proof.
  intros Hs Hr Hp Hd Hm. rewrite !calculate_quality_score_registered.
  eexists. eexists. split; [reflexivity|]. split; [reflexivity|].
  apply clamp_mono; [lra|].
  pose proof (clamp_mono 0 1 ((snr + 10) / 30) ((snr' + 10) / 30)) as H1.
  pose proof (clamp_mono 0 1 (1 - rms_error / 0.1) (1 - rms_error' / 0.1)) as H2.
  pose proof (clamp_mono 0 1 (1 - baseline_drift / 0.1) (1 - baseline_drift' / 0.1)) as H3.
  lra.
Qed.

(** X21.  A weight that the parameters lack.  When the parameters of the
    service lack one of the five weights, [assess_quality] raises
    [KeyError] for the first missing one, in the order in which the score
    reads them, and returns no response; the clock is not read. *)
Theorem missing_signal_weight_raises (self : self) (request : SignalQualityRequest.t)
    (w : World) (key : string) :
  first_missing weight_keys (params self) = Some key ->
  assess_quality self request w = (Raise (KeyError key), w).
Proof.
  unfold assess_quality, bind, lift_result, _calculate_quality_score, param, dict_item.
  cbv zeta. unfold weight_keys. cbn [first_missing].
  destruct (dict_get "snr_weight" (params self)); cbn [result_map result_bind];
    [|intros [= <-]; reflexivity].
  destruct (dict_get "rms_weight" (params self)); cbn [result_map result_bind];
    [|intros [= <-]; reflexivity].
  destruct (dict_get "peak_confidence_weight" (params self));
    cbn [result_map result_bind]; [|intros [= <-]; reflexivity].
  destruct (dict_get "baseline_drift_weight" (params self));
    cbn [result_map result_bind]; [|intros [= <-]; reflexivity].
  destruct (dict_get "motion_artifact_weight" (params self));
    cbn [result_map result_bind]; [discriminate | intros [= <-]; reflexivity].
Qed.

(** *** Grades and recommendations *)

(** X22.  Grades follow the score.  When the usable, good and excellent
    thresholds are in ascending order, a higher score never gets a worse
    grade, and a score is usable (at or above the usable threshold, as
    [is_usable] of the response is computed) exactly when its grade is
    not [poor]. *)
Theorem quality_grade_monotone (self : self) (q q' : R) :
  (SIGNAL_QUALITY_USABLE (thresholds self) <= SIGNAL_QUALITY_GOOD (thresholds self))%Q ->
  (SIGNAL_QUALITY_GOOD (thresholds self) <= SIGNAL_QUALITY_EXCELLENT (thresholds self))%Q ->
  q <= q' ->
  (grade_rank (_determine_quality_grade self q)
   <= grade_rank (_determine_quality_grade self q'))%nat /\
  (Rleb (Q2R (SIGNAL_QUALITY_USABLE (thresholds self))) q = true <->
   _determine_quality_grade self q <> "poor").
Proof.
  intros Hug Hge Hq. apply Qle_Rle in Hug, Hge.
  unfold _determine_quality_grade. split.
  - destruct (Rleb (Q2R (SIGNAL_QUALITY_EXCELLENT (thresholds self))) q) eqn:E1;
      destruct (Rleb (Q2R (SIGNAL_QUALITY_GOOD (thresholds self))) q) eqn:E2;
      destruct (Rleb (Q2R (SIGNAL_QUALITY_USABLE (thresholds self))) q) eqn:E3;
      destruct (Rleb (Q2R (SIGNAL_QUALITY_EXCELLENT (thresholds self))) q') eqn:E4;
      destruct (Rleb (Q2R (SIGNAL_QUALITY_GOOD (thresholds self))) q') eqn:E5;
      destruct (Rleb (Q2R (SIGNAL_QUALITY_USABLE (thresholds self))) q') eqn:E6;
      rcmp; try (exfalso; lra); cbn; lia.
  - destruct (Rleb (Q2R (SIGNAL_QUALITY_EXCELLENT (thresholds self))) q) eqn:E1;
      destruct (Rleb (Q2R (SIGNAL_QUALITY_GOOD (thresholds self))) q) eqn:E2;
      destruct (Rleb (Q2R (SIGNAL_QUALITY_USABLE (thresholds self))) q) eqn:E3;
      rcmp; try (exfalso; lra);
      (split; [intros _; discriminate | reflexivity]) ||
      (split; [discriminate | intros H; contradiction]).
Qed.

(** X23.  The recommendations.  There is always at least one
    recommendation and at most six.  The list is the single message that
    the signal is acceptable exactly when none of the six conditions
    holds (SNR below 15, RMS error above 0.1, peak confidence below 0.7,
    baseline drift above 0.1, motion artifact score above 0.3, quality
    score below the usable threshold); otherwise that message is not in
    the list. *)
Theorem recommendations_shape (self : self)
    (snr rms_error peak_confidence baseline_drift motion_artifact quality_score : R) :
  let recommendations :=
    _generate_recommendations self snr rms_error peak_confidence baseline_drift
      motion_artifact quality_score in
  let clear :=
    all_clear self snr rms_error peak_confidence baseline_drift motion_artifact
      quality_score in
  (1 <= List.length recommendations <= 6)%nat /\
  (clear = true -> recommendations = [acceptable_message self quality_score]) /\
  (clear = false ->
   ~ In (acceptable_message self quality_score) recommendations /\
   List.length recommendations
   = ((if Rltb snr 15 then 1 else 0) + (if Rltb 0.1 rms_error then 1 else 0)
      + (if Rltb peak_confidence 0.7 then 1 else 0)
      + (if Rltb 0.1 baseline_drift then 1 else 0)
      + (if Rltb 0.3 motion_artifact then 1 else 0)
      + (if Rltb quality_score (Q2R (SIGNAL_QUALITY_USABLE (thresholds self)))
         then 1 else 0))%nat).
Proof.
  unfold _generate_recommendations, all_clear, acceptable_message. cbv zeta.
  destruct (Rltb snr 15); destruct (Rltb 0.1 rms_error);
    destruct (Rltb peak_confidence 0.7); destruct (Rltb 0.1 baseline_drift);
    destruct (Rltb 0.3 motion_artifact);
    destruct (Rltb quality_score (Q2R (SIGNAL_QUALITY_USABLE (thresholds self))));
    cbn [app negb andb List.length Nat.add];
    (split; [lia|]);
    (split; [intros H; first [discriminate H | reflexivity]|]);
    intros H; first [discriminate H | idtac];
    (split; [|reflexivity]);
    cbn [In]; intros Hin;
    repeat match goal with
           | H : _ \/ _ |- _ => destruct H as [H | H]
           | H : False |- _ => destruct H
           | H : _ = _ |- _ => discriminate H
           end.
Qed.

(** *** A flat signal *)















(** *** Instances *)

Lemma quality_score_is_weighted_sum_witness :
  _calculate_quality_score registered_service 20 0.05 0.9 0.05 0.2
  = Ok (weighted_quality 20 0.05 0.9 0.05 0.2).
Proof.
  apply (quality_score_is_weighted_sum 20 0.05 0.9 0.05 0.2); lra.
Defined.

Lemma quality_score_monotone_witness :
  exists q q',
    _calculate_quality_score registered_service 10 0.08 0.5 0.2 0.4 = Ok q /\
    _calculate_quality_score registered_service 20 0.05 0.9 0.05 0.2 = Ok q' /\
    q <= q'.
Proof.
  apply (quality_score_monotone 10 20 0.08 0.05 0.5 0.9 0.2 0.05 0.4 0.2); lra.
Defined.

Lemma missing_signal_weight_raises_witness :
  assess_quality partly_weighted_service (flat_request 1 10 "ppg")
    (start_world (RiskScoringSpec.ticking_clock 0%Z))
  = (Raise (KeyError "rms_weight"), start_world (RiskScoringSpec.ticking_clock 0%Z)).
Proof.
  apply (missing_signal_weight_raises partly_weighted_service (flat_request 1 10 "ppg")
           (start_world (RiskScoringSpec.ticking_clock 0%Z)) "rms_weight").
  reflexivity.
Defined.

Lemma quality_grade_monotone_witness :
  (grade_rank (_determine_quality_grade registered_service 0.55)
   <= grade_rank (_determine_quality_grade registered_service 0.85))%nat /\
  (Rleb (Q2R (SIGNAL_QUALITY_USABLE (thresholds registered_service))) 0.55 = true <->
   _determine_quality_grade registered_service 0.55 <> "poor").
Proof.
  apply (quality_grade_monotone registered_service 0.55 0.85).
  - vm_compute. discriminate.
  - vm_compute. discriminate.
  - lra.
Defined.


End SignalQualityMore.
(** ** The service singletons: further properties *)

Module EnginesMore.

Import ModelConfigPy.
Import EnginesSpec.
Import EnginesMoreSpec.
Import EnginesFacts.

Section WithNumpy.

Context {np : Numpy}.

(** X25.  A construction that fails leaves no trace.  When the registry
    holds none of the model versions and no service has been built, each
    of the three getters raises [ValueError], and so does each endpoint,
    before the request is looked at; the world is unchanged: no slot is
    filled, numpy is not seeded and the clock is not read, so the next
    request tries the construction again. *)
Theorem failed_construction_is_not_cached (w : World) :
  unregistered w ->
  cold w ->
  (exists msg,
     signal_quality_service.get_signal_quality_service w = (Raise (ValueError msg), w) /\
     forall request,
       signal_quality_service.assess_signal_quality request w
       = (Raise (ValueError msg), w)) /\
  (exists msg,
     anomaly_detection_service.get_anomaly_detection_service w
       = (Raise (ValueError msg), w) /\
     forall request,
       anomaly_detection_service.detect_anomalies_endpoint request w
       = (Raise (ValueError msg), w)) /\
  (exists msg,
     risk_scoring_service.get_risk_scoring_service w = (Raise (ValueError msg), w) /\
     forall request,
       risk_scoring_service.calculate_risk_score request w
       = (Raise (ValueError msg), w)).
Proof.
  intros Hreg (Hsq & Han & Hrs). destruct w as [reg sq an rs seed clk reads].
  cbn in Hsq, Han, Hrs. subst sq an rs.
  pose proof (Hreg SIGNAL_QUALITY_V1) as H1.
  pose proof (Hreg ANOMALY_DETECTION_V1) as H2.
  pose proof (Hreg RISK_SCORING_V1) as H3. cbn [registry] in H1, H2, H3.
  repeat apply conj; eexists.
  - assert (Hget : signal_quality_service.get_signal_quality_service
                     {| registry := reg; _signal_quality_service := None;
                        _anomaly_service := None; _risk_scoring_service := None;
                        np_random_seed := seed; clock := clk; clock_reads := reads |}
                   = (Raise (ValueError ("Model version " ++ value SIGNAL_QUALITY_V1
                                         ++ " not found in registry")),
                      {| registry := reg; _signal_quality_service := None;
                         _anomaly_service := None; _risk_scoring_service := None;
                         np_random_seed := seed; clock := clk; clock_reads := reads |})).
    { unfold signal_quality_service.get_signal_quality_service,
        signal_quality_service.__init__, bind, get, lift_result, on_registry.
      simpl. rewrite ModelConfigFacts.get_model_config_run. cbn [value] in H1.
      rewrite H1. reflexivity. }
    split; [exact Hget|]. intros request.
    unfold signal_quality_service.assess_signal_quality, bind. rewrite Hget. reflexivity.
  - assert (Hget : anomaly_detection_service.get_anomaly_detection_service
                     {| registry := reg; _signal_quality_service := None;
                        _anomaly_service := None; _risk_scoring_service := None;
                        np_random_seed := seed; clock := clk; clock_reads := reads |}
                   = (Raise (ValueError ("Model version " ++ value ANOMALY_DETECTION_V1
                                         ++ " not found in registry")),
                      {| registry := reg; _signal_quality_service := None;
                         _anomaly_service := None; _risk_scoring_service := None;
                         np_random_seed := seed; clock := clk; clock_reads := reads |})).
    { unfold anomaly_detection_service.get_anomaly_detection_service,
        anomaly_detection_service.__init__, bind, get, lift_result, on_registry.
      simpl. rewrite ModelConfigFacts.get_model_config_run. cbn [value] in H2.
      rewrite H2. reflexivity. }
    split; [exact Hget|]. intros request.
    unfold anomaly_detection_service.detect_anomalies_endpoint, bind.
    rewrite Hget. reflexivity.
  - assert (Hget : risk_scoring_service.get_risk_scoring_service
                     {| registry := reg; _signal_quality_service := None;
                        _anomaly_service := None; _risk_scoring_service := None;
                        np_random_seed := seed; clock := clk; clock_reads := reads |}
                   = (Raise (ValueError ("Model version " ++ value RISK_SCORING_V1
                                         ++ " not found in registry")),
                      {| registry := reg; _signal_quality_service := None;
                         _anomaly_service := None; _risk_scoring_service := None;
                         np_random_seed := seed; clock := clk; clock_reads := reads |})).
    { unfold risk_scoring_service.get_risk_scoring_service,
        risk_scoring_service.__init__, bind, get, lift_result, on_registry.
      simpl. rewrite ModelConfigFacts.get_model_config_run. cbn [value] in H3.
      rewrite H3. reflexivity. }
    split; [exact Hget|]. intros request.
    unfold risk_scoring_service.calculate_risk_score, bind. rewrite Hget. reflexivity.
Qed.


(** *** Built once *)

Lemma get_signal_quality_service_once (w : World) :
  consistent w ->
  exists w',
    signal_quality_service.get_signal_quality_service w
      = (Ok SignalQualitySpec.registered_service, w') /\
    _signal_quality_service w' = Some SignalQualitySpec.registered_service /\
    signal_quality_service.get_signal_quality_service w'
      = (Ok SignalQualitySpec.registered_service, w') /\
    (_signal_quality_service w = None -> np_random_seed w' = Some 42%Z) /\
    (_signal_quality_service w <> None -> w' = w) /\
    clock_reads w' = clock_reads w.
Proof.
  intros (Hreg & Hsq & _). destruct w as [reg sq an rs seed clk reads].
  cbn [registry _signal_quality_service] in Hreg, Hsq. subst reg.
  destruct Hsq as [-> | ->].
  - unfold signal_quality_service.get_signal_quality_service,
      signal_quality_service.__init__, bind, get, lift_result, on_registry.
    simpl.
    eexists. split; [reflexivity|]. cbn.
    repeat apply conj; try reflexivity. intros H. contradiction.
  - eexists. split; [reflexivity|]. cbn.
    repeat apply conj; try reflexivity. intros H. discriminate H.
Qed.

Lemma get_anomaly_detection_service_once (w : World) :
  consistent w ->
  exists w',
    anomaly_detection_service.get_anomaly_detection_service w
      = (Ok AnomalyDetectionSpec.registered_service, w') /\
    _anomaly_service w' = Some AnomalyDetectionSpec.registered_service /\
    anomaly_detection_service.get_anomaly_detection_service w'
      = (Ok AnomalyDetectionSpec.registered_service, w') /\
    (_anomaly_service w = None -> np_random_seed w' = Some 42%Z) /\
    (_anomaly_service w <> None -> w' = w) /\
    clock_reads w' = clock_reads w.
Proof.
  intros (Hreg & _ & Han & _). destruct w as [reg sq an rs seed clk reads].
  cbn [registry _anomaly_service] in Hreg, Han. subst reg.
  destruct Han as [-> | ->].
  - unfold anomaly_detection_service.get_anomaly_detection_service,
      anomaly_detection_service.__init__, bind, get, lift_result, on_registry.
    simpl.
    eexists. split; [reflexivity|]. cbn.
    repeat apply conj; try reflexivity. intros H. contradiction.
  - eexists. split; [reflexivity|]. cbn.
    repeat apply conj; try reflexivity. intros H. discriminate H.
Qed.

Lemma get_risk_scoring_service_once (w : World) :
  consistent w ->
  exists w',
    risk_scoring_service.get_risk_scoring_service w
      = (Ok RiskScoringSpec.registered_service, w') /\
    _risk_scoring_service w' = Some RiskScoringSpec.registered_service /\
    risk_scoring_service.get_risk_scoring_service w'
      = (Ok RiskScoringSpec.registered_service, w') /\
    (_risk_scoring_service w = None -> np_random_seed w' = Some 42%Z) /\
    (_risk_scoring_service w <> None -> w' = w) /\
    clock_reads w' = clock_reads w.
Proof.
  intros (Hreg & _ & _ & Hrs). destruct w as [reg sq an rs seed clk reads].
  cbn [registry _risk_scoring_service] in Hreg, Hrs. subst reg.
  destruct Hrs as [-> | ->].
  - unfold risk_scoring_service.get_risk_scoring_service,
      risk_scoring_service.__init__, bind, get, lift_result, on_registry.
    simpl.
    eexists. split; [reflexivity|]. cbn.
    repeat apply conj; try reflexivity. intros H. contradiction.
  - eexists. split; [reflexivity|]. cbn.
    repeat apply conj; try reflexivity. intros H. discriminate H.
Qed.

(** X26.  Each service is built once.  In a world between two requests,
    each getter returns the service built from the registry and leaves it
    in its slot, and a second call returns the same service and changes
    nothing.  numpy is seeded with 42 when the service is built, and only
    then: with the slot already filled the world is unchanged.  The
    getters never read the clock. *)
Theorem services_are_built_once (w : World) :
  consistent w ->
  (exists w',
     signal_quality_service.get_signal_quality_service w
       = (Ok SignalQualitySpec.registered_service, w') /\
     _signal_quality_service w' = Some SignalQualitySpec.registered_service /\
     signal_quality_service.get_signal_quality_service w'
       = (Ok SignalQualitySpec.registered_service, w') /\
     (_signal_quality_service w = None -> np_random_seed w' = Some 42%Z) /\
     (_signal_quality_service w <> None -> w' = w) /\
     clock_reads w' = clock_reads w) /\
  (exists w',
     anomaly_detection_service.get_anomaly_detection_service w
       = (Ok AnomalyDetectionSpec.registered_service, w') /\
     _anomaly_service w' = Some AnomalyDetectionSpec.registered_service /\
     anomaly_detection_service.get_anomaly_detection_service w'
       = (Ok AnomalyDetectionSpec.registered_service, w') /\
     (_anomaly_service w = None -> np_random_seed w' = Some 42%Z) /\
     (_anomaly_service w <> None -> w' = w) /\
     clock_reads w' = clock_reads w) /\
  (exists w',
     risk_scoring_service.get_risk_scoring_service w
       = (Ok RiskScoringSpec.registered_service, w') /\
     _risk_scoring_service w' = Some RiskScoringSpec.registered_service /\
     risk_scoring_service.get_risk_scoring_service w'
       = (Ok RiskScoringSpec.registered_service, w') /\
     (_risk_scoring_service w = None -> np_random_seed w' = Some 42%Z) /\
     (_risk_scoring_service w <> None -> w' = w) /\
     clock_reads w' = clock_reads w).
Proof.
  intros Hw. split; [|split].
  - apply get_signal_quality_service_once. exact Hw.
  - apply get_anomaly_detection_service_once. exact Hw.
  - apply get_risk_scoring_service_once. exact Hw.
Qed.

(** *** Frozen at first use *)

Lemma assess_quality_slot (self : SignalQualityService.self)
    (request : SignalQualityRequest.t) (w : World) :
  _signal_quality_service (snd (signal_quality_service.assess_quality self request w))
  = _signal_quality_service w.
Proof.
  unfold signal_quality_service.assess_quality, bind, lift_result, utcnow, ret.
  destruct (signal_quality_service._calculate_quality_score _ _ _ _ _ _); reflexivity.
Qed.

Lemma detect_anomalies_slot (self : AnomalyDetectionService.self)
    (request : AnomalyDetectionRequest.t) (w : World) :
  _anomaly_service (snd (anomaly_detection_service.detect_anomalies self request w))
  = _anomaly_service w.
Proof.
  unfold anomaly_detection_service.detect_anomalies, bind, lift_result, utcnow, ret.
  destruct (for_each _ _); [|reflexivity].
  destruct (anomaly_detection_service._detect_cross_metric_anomalies _ _ _); reflexivity.
Qed.

Lemma calculate_risk_slot (self : RiskScoringService.self)
    (request : RiskScoringRequest.t) (w : World) :
  _risk_scoring_service (snd (risk_scoring_service.calculate_risk self request w))
  = _risk_scoring_service w.
Proof.
  unfold risk_scoring_service.calculate_risk, bind, lift_result, utcnow, ret.
  destruct (risk_scoring_service._analyze_vital_metrics _ _ _); reflexivity.
Qed.

Lemma get_signal_quality_service_warm (w : World) (s : SignalQualityService.self) :
  _signal_quality_service w = Some s ->
  signal_quality_service.get_signal_quality_service w = (Ok s, w).
Proof. intros H. destruct w. cbn in H. subst. reflexivity. Qed.

Lemma get_anomaly_detection_service_warm (w : World) (s : AnomalyDetectionService.self) :
  _anomaly_service w = Some s ->
  anomaly_detection_service.get_anomaly_detection_service w = (Ok s, w).
Proof. intros H. destruct w. cbn in H. subst. reflexivity. Qed.

Lemma get_risk_scoring_service_warm (w : World) (s : RiskScoringService.self) :
  _risk_scoring_service w = Some s ->
  risk_scoring_service.get_risk_scoring_service w = (Ok s, w).
Proof. intros H. destruct w. cbn in H. subst. reflexivity. Qed.

(** X27.  The configuration is frozen at first use.  Once an endpoint has
    served a request, replacing [MODEL_REGISTRY] by any other registry
    (also an empty one) does not change what that endpoint answers: on
    every later request it gives the outcome that it gives with the
    original registry, in every field except the timestamps. *)
Theorem configuration_frozen_at_first_use (w : World) (reg : Registry) :
  consistent w ->
  (forall first request,
     outcome signal_quality_untimed
       (signal_quality_service.assess_signal_quality request
          (with_registry reg
             (snd (signal_quality_service.assess_signal_quality first w))))
     = outcome signal_quality_untimed
         (signal_quality_service.assess_signal_quality request w)) /\
  (forall first request,
     outcome anomaly_detection_untimed
       (anomaly_detection_service.detect_anomalies_endpoint request
          (with_registry reg
             (snd (anomaly_detection_service.detect_anomalies_endpoint first w))))
     = outcome anomaly_detection_untimed
         (anomaly_detection_service.detect_anomalies_endpoint request w)) /\
  (forall first request,
     outcome risk_scoring_untimed
       (risk_scoring_service.calculate_risk_score request
          (with_registry reg
             (snd (risk_scoring_service.calculate_risk_score first w))))
     = outcome risk_scoring_untimed
         (risk_scoring_service.calculate_risk_score request w)).
Proof.
  intros Hw. split; [|split]; intros first request.
  - destruct (get_signal_quality_service_once w Hw) as (w' & Hget & Hslot & _).
    assert (Hfilled :
              _signal_quality_service
                (with_registry reg
                   (snd (signal_quality_service.assess_signal_quality first w)))
              = Some SignalQualitySpec.registered_service).
    { unfold signal_quality_service.assess_signal_quality, bind. rewrite Hget.
      cbn [with_registry _signal_quality_service].
      rewrite assess_quality_slot. exact Hslot. }
    set (w2 := with_registry reg
                 (snd (signal_quality_service.assess_signal_quality first w))) in *.
    unfold signal_quality_service.assess_signal_quality, bind. rewrite Hget.
    rewrite (get_signal_quality_service_warm w2 _ Hfilled). apply assess_quality_outcome.
  - destruct (get_anomaly_detection_service_once w Hw) as (w' & Hget & Hslot & _).
    assert (Hfilled :
              _anomaly_service
                (with_registry reg
                   (snd (anomaly_detection_service.detect_anomalies_endpoint first w)))
              = Some AnomalyDetectionSpec.registered_service).
    { unfold anomaly_detection_service.detect_anomalies_endpoint, bind. rewrite Hget.
      cbn [with_registry _anomaly_service].
      rewrite detect_anomalies_slot. exact Hslot. }
    set (w2 := with_registry reg
                 (snd (anomaly_detection_service.detect_anomalies_endpoint first w)))
      in *.
    unfold anomaly_detection_service.detect_anomalies_endpoint, bind. rewrite Hget.
    rewrite (get_anomaly_detection_service_warm w2 _ Hfilled). apply detect_anomalies_outcome.
  - destruct (get_risk_scoring_service_once w Hw) as (w' & Hget & Hslot & _).
    assert (Hfilled :
              _risk_scoring_service
                (with_registry reg
                   (snd (risk_scoring_service.calculate_risk_score first w)))
              = Some RiskScoringSpec.registered_service).
    { unfold risk_scoring_service.calculate_risk_score, bind. rewrite Hget.
      cbn [with_registry _risk_scoring_service].
      rewrite calculate_risk_slot. exact Hslot. }
    set (w2 := with_registry reg
                 (snd (risk_scoring_service.calculate_risk_score first w))) in *.
    unfold risk_scoring_service.calculate_risk_score, bind. rewrite Hget.
    rewrite (get_risk_scoring_service_warm w2 _ Hfilled). apply calculate_risk_outcome.
Qed.

End WithNumpy.

(** *** Instances *)

(** The registry emptied before the first request. *)
Lemma failed_construction_is_not_cached_witness :
  let w := with_registry [] (start_world (RiskScoringSpec.ticking_clock 0%Z)) in
  unregistered w /\ cold w /\
  exists msg,
    forall request,
      anomaly_detection_service.detect_anomalies_endpoint
        (np := AnomalyDetectionSpec.sqrt6) request w
      = (Raise (ValueError msg), w).
Proof.
  intros w.
  assert (H1 : unregistered w) by (intros version; reflexivity).
  assert (H2 : cold w) by (unfold cold; cbn; auto).
  split; [exact H1|]. split; [exact H2|].
  destruct (failed_construction_is_not_cached (np := AnomalyDetectionSpec.sqrt6) w H1 H2)
    as (_ & (msg & _ & H) & _).
  exists msg. exact H.
Defined.

(** A cold start. *)
Lemma services_are_built_once_witness :
  let w := start_world (RiskScoringSpec.ticking_clock 0%Z) in
  exists w',
    risk_scoring_service.get_risk_scoring_service w
      = (Ok RiskScoringSpec.registered_service, w') /\
    risk_scoring_service.get_risk_scoring_service w'
      = (Ok RiskScoringSpec.registered_service, w') /\
    np_random_seed w' = Some 42%Z.
Proof.
  intros w.
  assert (Hw : consistent w) by (unfold consistent; cbn; auto).
  destruct (services_are_built_once w Hw)
    as (_ & _ & (w' & H1 & _ & H2 & H3 & _)).
  exists w'. split; [exact H1|]. split; [exact H2|]. apply H3. reflexivity.
Defined.

(** The registry emptied after the first request. *)
Lemma configuration_frozen_at_first_use_witness :
  let w := start_world (RiskScoringSpec.ticking_clock 0%Z) in
  outcome risk_scoring_untimed
    (risk_scoring_service.calculate_risk_score RiskScoringSpec.scenario_request
       (with_registry []
          (snd (risk_scoring_service.calculate_risk_score
                  RiskScoringMoreSpec.example_request w))))
  = outcome risk_scoring_untimed
      (risk_scoring_service.calculate_risk_score RiskScoringSpec.scenario_request w).
Proof.
  intros w.
  assert (Hw : consistent w) by (unfold consistent; cbn; auto).
  exact (proj2 (proj2 (configuration_frozen_at_first_use
                         (np := AnomalyDetectionSpec.sqrt6) w [] Hw))
           RiskScoringMoreSpec.example_request RiskScoringSpec.scenario_request).
Defined.

End EnginesMore.
(** ** Risk scoring: historical trends *)

Module RiskTrends.

Import ModelConfigPy.
Import RiskScoringService.
Import risk_scoring_service.
Import RiskTrendsSpec.





End RiskTrends.
(** ** The z-score boundary *)

Module OutlierBoundary.

Import ModelConfigPy.
Import AnomalyDetectionService.
Import anomaly_detection_service.
Import AnomalyDetectionSpec.
Import OutlierBoundarySpec.
Import AnomalyDetectionFacts.







Section WithNumpy.

Context {np : Numpy}.


End WithNumpy.



End OutlierBoundary.

(** ** Rounding at the tests *)

Module Binary64Facts.

Import PrimFloat.
#[local] Set Warnings "-inexact-float".
Import anomaly_detection_service.

(** The z-score boundary in binary64.  With baseline 0.1 ± 0.1 the point
    0.4 has z-score 3 in exact arithmetic, equal to the threshold, and
    the exact engine leaves it out; in binary64 [0.4 - 0.1] is
    [0.30000000000000004], the z-score is [3.0000000000000004], and the
    point is among the outlier indices. *)
Example boundary_in_binary64 :
  (Qabs ((0.4 - 0.1) / 0.1) == 3.0)%Q /\
  outlier_indices_of (z_scores_of [0.1; 0.4; 0.1] 0.1 0.1)%Q 3.0%Q = [] /\
  Binary64.z_score 0.4 0.1 0.1 = 3.0000000000000004%float /\
  Binary64.outlier_indices [0.1; 0.4; 0.1]%float 0.1 0.1 3.0 = [1%nat].
Proof. repeat apply conj; reflexivity. Qed.


(** A threshold that rounding lowers.  The mean of
    [80, 80, 80, 80, 80, 100] is [500 / 6] and 1.2 times it is 100 in
    exact arithmetic, so the heart rate 100 is not above it; in binary64
    the mean is [83.33333333333333], the product [99.99999999999999],
    and 100 is above it. *)
Example spike_threshold_in_binary64 :
  (np_mean [80; 80; 80; 80; 80; 100] * 1.2 == 100)%Q /\
  (Binary64.np_mean [80; 80; 80; 80; 80; 100] * 1.2 <? 100)%float = true.
Proof. split; reflexivity. Qed.

(** A rate that rounding raises.  The history [36.5, 36.6, 36.7] rises
    by 0.1 per step in exact arithmetic, which is not above 0.1; in
    binary64 the mean of its differences is [0.10000000000000142]. *)
Example trend_rate_in_binary64 :
  (RiskTrendsSpec.endpoint_rate [36.5; 36.6; 36.7] == 0.1)%Q /\
  (0.1 <? Binary64.np_mean (Binary64.np_diff [36.5; 36.6; 36.7]))%float = true.
Proof. split; reflexivity. Qed.

End Binary64Facts.
